(** * sir_db_backend: voter-id ingestion pipeline and search service

    A shallow embedding of the repository's four Python programs
    ([ingest_voters_to_supabase.py], [main.py], [ocr_cloud_vision.py],
    [pdf_crop.py]) together with the properties stated about them.

    Conventions.
    - A Python [str] is a list of Unicode code points ([N]).
    - A Python [float] is a rational number ([Q]); arithmetic is exact.
      An [int] that enters a float division is converted first, which
      raises [OverflowError] beyond the range of a double.
    - Calls to libraries and external services (command-line parser,
      object store, OCR, table store, PDF engine) are scripted: the
      command line, every document and every page carry the outcome
      their calls will have, and a run returns its termination status
      together with the trace of what it printed and published. *)

From Stdlib Require Import NArith ZArith QArith List String Ascii Bool Lia.
From Stdlib Require Sorted.
From stdpp Require Import base decidable countable gmap.
Import ListNotations.

Set Default Proof Using "Type".
Local Open Scope N_scope.

(** ** Python strings *)

Module PyStr.

Definition str := list N.

(** A string literal as a sequence of code points. *)
Definition py (s : string) : str := map N_of_ascii (list_ascii_of_string s).

Definition is_AZ (c : N) : bool := (65 <=? c) && (c <=? 90).
Definition is_az (c : N) : bool := (97 <=? c) && (c <=? 122).
Definition is_09 (c : N) : bool := (48 <=? c) && (c <=? 57).

Definition slash : N := 47.
Definition comma : N := 44.
Definition dot : N := 46.

(** [str.isspace] on one code point: the characters [str.strip()]
    removes when called without argument. *)
Definition is_space (c : N) : bool :=
  ((9 <=? c) && (c <=? 13)) || ((28 <=? c) && (c <=? 32))
  || (c =? 133) || (c =? 160) || (c =? 5760)
  || ((8192 <=? c) && (c <=? 8202))
  || (c =? 8232) || (c =? 8233) || (c =? 8239) || (c =? 8287)
  || (c =? 12288).

(** [s.lstrip(chars)], [s.rstrip(chars)], [s.strip(chars)], the set
    of characters given as a predicate. *)
Fixpoint lstrip_by (p : N -> bool) (s : str) : str :=
  match s with
  | [] => []
  | c :: t => if p c then lstrip_by p t else s
  end.

Fixpoint rstrip_by (p : N -> bool) (s : str) : str :=
  match s with
  | [] => []
  | c :: t =>
      match rstrip_by p t with
      | [] => if p c then [] else [c]
      | t' => c :: t'
      end
  end.

Definition strip_by (p : N -> bool) (s : str) : str :=
  lstrip_by p (rstrip_by p s).

(** [s.strip()]. *)
Definition strip : str -> str := strip_by is_space.

(** [s.replace(c, <empty>)] for a one-character [c]. *)
Definition remove_char (c : N) (s : str) : str :=
  List.filter (fun d => negb (d =? c)) s.

(** [s.split(c)] for a one-character separator: always at least one
    field, empty fields kept. *)
Fixpoint split_on (c : N) (s : str) : list str :=
  match s with
  | [] => [[]]
  | d :: t =>
      if d =? c then [] :: split_on c t
      else match split_on c t with
           | [] => [[d]]
           | f :: fs => (d :: f) :: fs
           end
  end.

(** Case mapping.  On ASCII, [str.upper] sends a-z to A-Z and
    [str.lower] sends A-Z to a-z, every other ASCII character being
    left alone.  Outside ASCII the mapping is Unicode's (one code point
    may become several); it is a parameter of the functions below. *)
Definition upper_with (unicode_upper : N -> str) (s : str) : str :=
  flat_map (fun c => if c <? 128
                     then [if is_az c then c - 32 else c]
                     else unicode_upper c) s.

Definition lower_with (unicode_lower : N -> str) (s : str) : str :=
  flat_map (fun c => if c <? 128
                     then [if is_AZ c then c + 32 else c]
                     else unicode_lower c) s.

(** [re.compile("[...]+").findall(s)] for a pattern that is one
    character class repeated: the maximal runs of class members, left
    to right.  [cur] holds the run being read, most recent first. *)
Fixpoint findall_runs (cls : N -> bool) (s : str) (cur : str) : list str :=
  match s with
  | [] => match cur with [] => [] | _ => [rev cur] end
  | c :: t =>
      if cls c then findall_runs cls t (c :: cur)
      else match cur with
           | [] => findall_runs cls t []
           | _ => rev cur :: findall_runs cls t []
           end
  end.

Definition findall_class_plus (cls : N -> bool) (s : str) : list str :=
  findall_runs cls s [].

(** The format [{n:04d}]: decimal, zero-padded to four digits. *)
Fixpoint digits_from (fuel : nat) (n : N) (acc : str) : str :=
  match fuel with
  | O => acc
  | S f =>
      let acc' := (48 + n mod 10) :: acc in
      if n / 10 =? 0 then acc' else digits_from f (n / 10) acc'
  end.

Definition format_04d (n : nat) : str :=
  let d := digits_from (S (N.to_nat (N.log2 (N.of_nat n)))) (N.of_nat n) [] in
  repeat 48 (4 - length d)%nat ++ d.

End PyStr.
Import PyStr.

(** ** The Python runtime the programs rely on

    What the programs take from the interpreter and is not ASCII
    arithmetic: Unicode case mapping outside ASCII, and [float(s)]. *)

Class PyRuntime := {
  unicode_upper : N -> str;
  unicode_lower : N -> str;
  float_of_str : str -> option Q
}.

Definition upper `{PyRuntime} : str -> str := upper_with unicode_upper.
Definition lower `{PyRuntime} : str -> str := lower_with unicode_lower.

(** A runtime for running the programs on ASCII text: no case mapping
    outside ASCII, and [float] on plain decimal notation
    (sign, digits, optional fraction). *)
Module AsciiRuntime.

Fixpoint digits_value (s : str) (acc : N) : option N :=
  match s with
  | [] => Some acc
  | c :: t => if is_09 c then digits_value t (10 * acc + (c - 48)) else None
  end.

Definition pow10 (n : nat) : positive := Nat.iter n (Pos.mul 10) 1%positive.

Definition decimal_of (ip fp : str) : option Q :=
  match ip, fp with
  | [], [] => None
  | _, _ =>
      match digits_value ip 0, digits_value fp 0 with
      | Some i, Some f =>
          Some (Qplus (inject_Z (Z.of_N i))
                      (Qmake (Z.of_N f) (pow10 (length fp))))
      | _, _ => None
      end
  end.

Definition unsigned_decimal (s : str) : option Q :=
  match split_on dot s with
  | [ip] => decimal_of ip []
  | [ip; fp] => decimal_of ip fp
  | _ => None
  end.

Definition parse_decimal (s : str) : option Q :=
  match strip s with
  | 45 :: t => option_map Qopp (unsigned_decimal t)
  | 43 :: t => unsigned_decimal t
  | t => unsigned_decimal t
  end.

Definition runtime : PyRuntime :=
  {| unicode_upper := fun c => [c];
     unicode_lower := fun c => [c];
     float_of_str := parse_decimal |}.

End AsciiRuntime.

(** ** pathlib: the parts of a path the programs read *)

Module PyPath.

(** [name.rfind('.')]. *)
Fixpoint rfind_dot (name : str) : option nat :=
  match name with
  | [] => None
  | c :: t =>
      match rfind_dot t with
      | Some i => Some (S i)
      | None => if c =? dot then Some O else None
      end
  end.

Definition splits_at (name : str) : option nat :=
  match rfind_dot name with
  | Some i => if ((0 <? i) && (i <? length name - 1))%nat then Some i else None
  | None => None
  end.

(** [PurePath.suffix] and [PurePath.stem] of a path whose final
    component is [name]. *)
Definition suffix (name : str) : str :=
  match splits_at name with Some i => drop i name | None => [] end.

Definition stem (name : str) : str :=
  match splits_at name with Some i => take i name | None => name end.

End PyPath.

(** ** Exceptions and outcomes *)

Inductive exn :=
| ValueError (msg : str)
| ZeroDivisionError
| OverflowError
| AttributeError (msg : str)
| RuntimeError (msg : str)
| LibraryError (msg : str).

(** What a call into a library or service does: return or raise. *)
Inductive outcome (A : Type) :=
| Returns (a : A)
| Raises (e : exn).
Arguments Returns {A} a.
Arguments Raises {A} e.

(** How a process ends. *)
Inductive stop :=
| SysExit (code : Z)
| Uncaught (e : exn).

Definition exit_code_of_stop (s : stop) : Z :=
  match s with
  | SysExit c => c
  | Uncaught _ => 1%Z
  end.

(** An [int] operand of a float division is converted to a float
    first, which raises [OverflowError] when the integer is too large
    for a double: from 2^1024 - 2^970 on in magnitude, the first
    integer that rounds to 2^1024. *)
Definition float_limit : Z := 2 ^ 1024 - 2 ^ 970.

Definition float_of_int (n : Z) : outcome Q :=
  if (Z.abs n <? float_limit)%Z then Returns (inject_Z n) else Raises OverflowError.

(** [a / n] and [n / b] for floats [a], [b] and an integer [n]. *)
Definition float_div_int (a : Q) (n : Z) : outcome Q :=
  match float_of_int n with
  | Raises e => Raises e
  | Returns d => if (n =? 0)%Z then Raises ZeroDivisionError else Returns (a / d)%Q
  end.

Definition int_div_float (n : Z) (b : Q) : outcome Q :=
  match float_of_int n with
  | Raises e => Raises e
  | Returns d => if Qeq_bool b 0 then Raises ZeroDivisionError else Returns (d / b)%Q
  end.

(** What [argparse]'s [parse_args()] does with the command line of a
    run: it returns the namespace of the arguments; or, asked for
    help with [-h], it prints the help text and exits with code 0; or
    it refuses the command line, prints the usage and a message on
    the error output and exits with code 2. *)
Inductive cmdline (A : Type) :=
| Accepted (args : A)
| HelpRequested
| Refused (message : str).
Arguments Accepted {A} args.
Arguments HelpRequested {A}.
Arguments Refused {A} message.

(** A computation that prints, publishes and may stop the process:
    its result, and the events it produced in order. *)
Inductive res (A : Type) :=
| Normal (a : A)
| Stop (s : stop).
Arguments Normal {A} a.
Arguments Stop {A} s.

Section Effects.
Context {E : Type}.

Definition M (A : Type) : Type := res A * list E.

Definition ret {A} (a : A) : M A := (Normal a, []).

Definition bind {A B} (m : M A) (k : A -> M B) : M B :=
  match m with
  | (Normal a, t) => let (r, t') := k a in (r, t ++ t')
  | (Stop s, t) => (Stop s, t)
  end.

Definition emit (e : E) : M unit := (Normal tt, [e]).
Definition raise {A} (e : exn) : M A := (Stop (Uncaught e), []).
Definition sys_exit {A} (code : Z) : M A := (Stop (SysExit code), []).

(** A call whose outcome is scripted. *)
Definition call {A} (o : outcome A) : M A :=
  match o with
  | Returns a => ret a
  | Raises e => raise e
  end.

(** [for x in xs: body(x)]. *)
Fixpoint for_each {A} (xs : list A) (body : A -> M unit) : M unit :=
  match xs with
  | [] => ret tt
  | x :: rest => bind (body x) (fun _ => for_each rest body)
  end.

Definition exit_code {A} (m : M A) : Z :=
  match fst m with
  | Normal _ => 0%Z
  | Stop s => exit_code_of_stop s
  end.
End Effects.
Arguments M : clear implicits.

Declare Scope eff_scope.
Delimit Scope eff_scope with eff.
Notation "x <- m ;; k" := (bind m (fun x => k))
  (at level 100, m at next level, right associativity) : eff_scope.
Notation "m ;;; k" := (bind m (fun _ => k))
  (at level 100, right associativity) : eff_scope.

(** ** ocr_cloud_vision.py *)

Module Ocr.

(** [str.splitlines()]: line boundaries, with CR LF counted once. *)
Definition is_linebreak (c : N) : bool :=
  ((10 <=? c) && (c <=? 13)) || ((28 <=? c) && (c <=? 30))
  || (c =? 133) || (c =? 8232) || (c =? 8233).

Fixpoint splitlines_from (s : str) (cur : str) : list str :=
  match s with
  | [] => match cur with [] => [] | _ => [rev cur] end
  | c :: t =>
      if is_linebreak c then
        rev cur ::
          (if c =? 13
           then match t with
                | d :: t' => if d =? 10 then splitlines_from t' []
                             else splitlines_from t []
                | [] => splitlines_from t []
                end
           else splitlines_from t [])
      else splitlines_from t (c :: cur)
  end.

Definition splitlines (s : str) : list str := splitlines_from s [].

(** The fields of the Vision response that [ocr_image_texts] reads;
    an absent message, text or description is the empty string. *)
Record VisionResponse := {
  error_message : str;
  full_text : str;
  text_annotations : list str
}.

Definition vision_error_text (m : str) : str :=
  py "Vision API error: " ++ m ++ [10]
  ++ py "Check billing/quotas/permissions and GOOGLE_APPLICATION_CREDENTIALS.".

(** The loop that keeps the stripped, non-empty lines of a text. *)
Definition stripped_lines (text : str) : list str :=
  flat_map (fun line => match strip line with [] => [] | l => [l] end)
           (splitlines text).

(** [ocr_image_texts]; [detect] is what [client.text_detection] does. *)
Definition ocr_image_texts {E} (detect : outcome VisionResponse) : M E (list str) :=
  (response <- call detect ;;
   match error_message response with
   | _ :: _ => raise (RuntimeError (vision_error_text (error_message response)))
   | [] =>
       match full_text response with
       | _ :: _ => ret (stripped_lines (full_text response))
       | [] =>
           match text_annotations response with
           | description :: _ => ret (stripped_lines description)
           | [] => ret []
           end
       end
   end)%eff.

End Ocr.

(** ** ingest_voters_to_supabase.py: pure helpers *)

Module Ingest.

(** The default of [--regex], [[A-Za-z0-9/]+], through its [findall]. *)
Definition default_regex_class (c : N) : bool :=
  is_AZ c || is_az c || is_09 c || (c =? slash).

Definition default_regex_findall : str -> list str :=
  findall_class_plus default_regex_class.

(** [clean_voter_id]: the separator removed, then [strip()]. *)
Definition clean_voter_id (raw : str) : str :=
  strip (remove_char slash raw).

(** The first loop of [extract_ids_from_lines]: every match of every
    line, cleaned, the empty ones dropped. *)
Definition collect_ids (lines : list str) (findall : str -> list str) : list str :=
  flat_map (fun ln =>
    flat_map (fun m =>
      let cleaned := clean_voter_id m in
      match cleaned with [] => [] | _ => [cleaned] end) (findall ln)) lines.

(** The second loop: [seen] is the set, [uniq] the list built so far. *)
Fixpoint dedup_loop (ids : list str) (seen : gset str) (uniq : list str) : list str :=
  match ids with
  | [] => uniq
  | vid :: rest =>
      if decide (vid ∈ seen) then dedup_loop rest seen uniq
      else dedup_loop rest ({[vid]} ∪ seen) (uniq ++ [vid])
  end.

(** [extract_ids_from_lines(lines, pattern)]; the compiled pattern is
    represented by its [findall]. *)
Definition extract_ids_from_lines (lines : list str) (findall : str -> list str)
  : list str :=
  dedup_loop (collect_ids lines findall) ∅ [].

(** [ext] to content type, lines 101-107 of [upload_and_get_url];
    [local_name] is the final component of [local_path]. *)
Definition raster_suffixes : list str :=
  map py [".png"; ".jpg"; ".jpeg"; ".tif"; ".tiff"; ".bmp"; ".gif"; ".webp"]%string.

Definition content_type_of `{PyRuntime} (local_name : str) : str :=
  let ext := lower (PyPath.suffix local_name) in
  if decide (ext = py ".pdf") then py "application/pdf"
  else if decide (ext ∈ raster_suffixes) then
    py "image/" ++ (if decide (ext ≠ py ".jpg")
                    then lstrip_by (N.eqb dot) ext else py "jpeg")
  else py "application/octet-stream".

(** A rectangle as [convert_crop_units] returns it: (x1, y1, x2, y2). *)
Definition rect : Type := Q * Q * Q * Q.

(** The list comprehension and the unpacking of line 139: [None] when
    either raises. *)
Definition parse_fields `{PyRuntime} (crop_str : str) : option (Q * Q * Q * Q) :=
  match map (fun s => float_of_str (strip s)) (split_on comma crop_str) with
  | [Some x; Some y; Some w; Some h] => Some (x, y, w, h)
  | _ => None
  end.

Definition invalid_crop : exn :=
  ValueError (py "Invalid --ocr-crop. Expected 'x,y,w,h' numbers.").

Definition convert_crop_units `{PyRuntime} (crop_str units : str) (dpi : Z)
  : outcome (option rect) :=
  match crop_str with
  | [] => Returns None
  | _ =>
      match parse_fields crop_str with
      | None => Raises invalid_crop
      | Some (x, y, w, h) =>
          if decide (units = py "px") then
            match float_div_int 72 dpi with
            | Raises e => Raises e
            | Returns scale =>
                let '(x, y, w, h) :=
                  (x * scale, y * scale, w * scale, h * scale)%Q in
                Returns (Some (x, y, x + w, y + h)%Q)
            end
          else Returns (Some (x, y, x + w, y + h)%Q)
      end
  end.

(** *** The run: arguments, environment, trace *)

Record Row := {
  voter_id : str;
  single_page_pdf_link : str;
  full_pdf_link : str
}.

(** What the services do for one page, in the order [main] calls them. *)
Record PageScript := {
  pg_split : outcome unit;                 (* insert_pdf, save *)
  pg_single_upload : outcome str;          (* upload, get_public_url *)
  pg_render : Q -> option rect -> outcome unit;
                                           (* get_pixmap(zoom, clip), tobytes *)
  pg_detect : outcome Ocr.VisionResponse;  (* text_detection *)
  pg_insert : outcome (option str)         (* execute; the response's error *)
}.

Record DocScript := {
  doc_name : str;                          (* pdf_path.name *)
  doc_full_upload : outcome str;           (* upload, get_public_url *)
  doc_open : outcome (list PageScript)     (* fitz.open, the pages *)
}.

Record Args := {
  pdf_folder : str;
  table : str;
  storage_prefix : str;
  dpi : Z;
  ocr_crop : str;
  units : str;
  langs : str;
  regex : str -> list str
}.

Record Env := {
  folder_is_dir : bool;                    (* exists() and is_dir() *)
  SUPABASE_URL : str;                      (* unset: empty *)
  SUPABASE_ANON_KEY : str;
  SUPABASE_BUCKET : str;
  create_client : outcome unit;            (* create_client(url, key) *)
  listing : list DocScript                 (* folder.iterdir() *)
}.

Inductive line :=
| LHelp
| LUsage (message : str)
| LFolderNotFound (folder : str)
| LMissingEnv (names : list str)
| LNoPdfs
| LProcessing (name : str)
| LUploadedFull (url : str)
| LUploadedSingle (page_num : nat) (url : str)
| LNoIds (page_num : nat)
| LInsertError (err : str)
| LInserted (n : nat) (page_num : nat)
| LDone.

Inductive event :=
| Stdout (l : line)
| Stderr (l : line)
| Uploaded (storage_path content_type url : str)
| InsertReturned (table : str) (rows : list Row) (error : option str).

(** [sorted(...)] on the paths of one folder: by name, code point by
    code point. *)
Fixpoint str_leb (a b : str) : bool :=
  match a, b with
  | [], _ => true
  | _ :: _, [] => false
  | x :: a', y :: b' =>
      if x <? y then true else if y <? x then false else str_leb a' b'
  end.

Fixpoint insert_by_name (d : DocScript) (l : list DocScript) : list DocScript :=
  match l with
  | [] => [d]
  | e :: l' => if str_leb (doc_name d) (doc_name e) then d :: l
               else e :: insert_by_name d l'
  end.

Definition sorted_by_name (l : list DocScript) : list DocScript :=
  fold_right insert_by_name [] l.

Definition pdf_files `{PyRuntime} (env : Env) : list DocScript :=
  sorted_by_name
    (List.filter (fun d => bool_decide (lower (PyPath.suffix (doc_name d)) = py ".pdf"))
                 (listing env)).

Local Open Scope eff_scope.

(** [supabase_client_from_env]. *)
Definition supabase_client_from_env (env : Env) : M event unit :=
  let missing :=
    flat_map (fun kv : str * str => match snd kv with [] => [fst kv] | _ => [] end)
      [(py "SUPABASE_URL", SUPABASE_URL env);
       (py "SUPABASE_ANON_KEY", SUPABASE_ANON_KEY env);
       (py "SUPABASE_BUCKET", SUPABASE_BUCKET env)] in
  match missing with
  | _ :: _ => emit (Stderr (LMissingEnv missing)) ;;; sys_exit 1
  | [] => call (create_client env)
  end.

(** [upload_and_get_url]; [served] is what the object store does. *)
Definition upload_and_get_url `{PyRuntime}
    (served : outcome str) (storage_path local_name : str) : M event str :=
  let content_type := content_type_of local_name in
  url <- call served ;;
  emit (Uploaded storage_path content_type url) ;;;
  ret url.

(** [render_page_for_ocr]; [get_pixmap] is what the page's
    [get_pixmap] and [tobytes] do for a zoom factor and a clip.  The
    rectangle goes to [get_pixmap] as it was given. *)
Definition render_page_for_ocr (get_pixmap : Q -> option rect -> outcome unit)
    (dpi : Z) (crop_rect_pt : option rect) : M event unit :=
  zoom <- call (int_div_float dpi 72) ;;
  let clip := crop_rect_pt in
  call (get_pixmap zoom clip).

(** What the page loop reads from the enclosing scopes. *)
Record Ctx := {
  c_args : Args;
  c_prefix : str;
  c_stem : str;
  c_full_url : str;
  c_crop : option rect;
  c_langs : list str
}.

(** The list comprehension of lines 243-250. *)
Definition rows_of (voter_ids : list str) (single_url full_url : str) : list Row :=
  map (fun vid => {| voter_id := vid;
                     single_page_pdf_link := single_url;
                     full_pdf_link := full_url |}) voter_ids.

(** The names and storage paths of lines 199, 213 and 217-219. *)
Definition full_storage_path (prefix name : str) : str :=
  prefix ++ [slash] ++ PyPath.stem name ++ [slash] ++ name.

Definition single_local_name (stem : str) (page_num : nat) : str :=
  stem ++ py "_p" ++ format_04d page_num ++ py ".pdf".

Definition single_storage_path (prefix stem : str) (page_num : nat) : str :=
  prefix ++ [slash] ++ stem ++ py "/pages/" ++ single_local_name stem page_num.

(** The body of [for i in range(doc.page_count)]. *)
Definition process_page `{PyRuntime} (c : Ctx) (ip : nat * PageScript) : M event unit :=
  let '(i, pg) := ip in
  let page_num := (i + 1)%nat in
  call (pg_split pg) ;;;
  single_url <- upload_and_get_url (pg_single_upload pg)
                  (single_storage_path (c_prefix c) (c_stem c) page_num)
                  (single_local_name (c_stem c) page_num) ;;
  emit (Stdout (LUploadedSingle page_num single_url)) ;;;
  render_page_for_ocr (pg_render pg) (dpi (c_args c)) (c_crop c) ;;;
  lines <- Ocr.ocr_image_texts (pg_detect pg) ;;
  let voter_ids := extract_ids_from_lines lines (regex (c_args c)) in
  match voter_ids with
  | [] => emit (Stdout (LNoIds page_num))
  | _ :: _ =>
      let rows := rows_of voter_ids single_url (c_full_url c) in
      error <- call (pg_insert pg) ;;
      emit (InsertReturned (table (c_args c)) rows error) ;;;
      match error with
      | Some err => emit (Stderr (LInsertError err))
      | None => emit (Stdout (LInserted (length rows) page_num))
      end
  end.

Definition enumerate {A} (l : list A) : list (nat * A) :=
  combine (seq 0 (length l)) l.

(** The body of [for pdf_path in pdf_files]. *)
Definition process_document `{PyRuntime} (args : Args) (prefix : str)
    (crop_rect_pt : option rect) (lang_list : list str) (d : DocScript)
  : M event unit :=
  emit (Stdout (LProcessing (doc_name d))) ;;;
  let stem := PyPath.stem (doc_name d) in
  full_url <- upload_and_get_url (doc_full_upload d)
                (full_storage_path prefix (doc_name d)) (doc_name d) ;;
  emit (Stdout (LUploadedFull full_url)) ;;;
  pages <- call (doc_open d) ;;
  for_each (enumerate pages)
    (process_page {| c_args := args; c_prefix := prefix; c_stem := stem;
                     c_full_url := full_url; c_crop := crop_rect_pt;
                     c_langs := lang_list |}).

(** Lines 185 and 188. *)
Definition prefix_of (args : Args) : str :=
  strip_by (N.eqb slash) (storage_prefix args).

Definition lang_list_of (args : Args) : list str :=
  List.filter (fun s => negb (bool_decide (s = [])))
              (map strip (split_on comma (langs args))).

(** [parse_args]: the parser's verdict on the command line. *)
Definition parse_args (cl : cmdline Args) : M event Args :=
  match cl with
  | Accepted args => ret args
  | HelpRequested => emit (Stdout LHelp) ;;; sys_exit 0
  | Refused message => emit (Stderr (LUsage message)) ;;; sys_exit 2
  end.

Definition main `{PyRuntime} (cl : cmdline Args) (env : Env) : M event unit :=
  args <- parse_args cl ;;
  (if folder_is_dir env then ret tt
   else emit (Stderr (LFolderNotFound (pdf_folder args))) ;;; sys_exit 1) ;;;
  supabase_client_from_env env ;;;
  let prefix := prefix_of args in
  crop_rect_pt <- call (convert_crop_units (ocr_crop args) (units args) (dpi args)) ;;
  let lang_list := lang_list_of args in
  match pdf_files env with
  | [] => emit (Stderr LNoPdfs) ;;; sys_exit 1
  | files =>
      for_each files (process_document args prefix crop_rect_pt lang_list) ;;;
      emit (Stdout LDone)
  end.

(** [PurePath.with_suffix(suffix)] for a suffix that is a dot followed
    by letters: the name with its suffix replaced; a path with an
    empty name is refused. *)
Definition with_suffix (name suffix : str) : outcome str :=
  match name with
  | [] => Raises (ValueError (py "path has an empty name"))
  | _ => Returns (PyPath.stem name ++ suffix)
  end.

(** [ensure_pdf_suffix], on the final component of the path. *)
Definition ensure_pdf_suffix `{PyRuntime} (name : str) : outcome str :=
  if decide (lower (PyPath.suffix name) = py ".pdf") then Returns name
  else with_suffix name (py ".pdf").

End Ingest.

(** ** main.py: the search service *)

Module Query.

(** The class [[A-Z0-9]] of both patterns of the module. *)
Definition allowed_class (c : N) : bool := is_AZ c || is_09 c.

(** [normalize_voter_id]. *)
Definition normalize_voter_id `{PyRuntime} (raw : str) : str :=
  let cleaned := upper (remove_char slash raw) in
  let cleaned := List.filter allowed_class cleaned in
  take 40 cleaned.

(** [VOTER_ID_ALLOWED.match(s)] for the pattern [^[A-Z0-9]{3,40}$]:
    between 3 and 40 class characters from the start, then the end of
    the string, or one line feed and the end of the string. *)
Fixpoint class_prefix (s : str) : str :=
  match s with
  | [] => []
  | c :: t => if allowed_class c then c :: class_prefix t else []
  end.

Definition at_end (rest : str) : bool :=
  match rest with
  | [] => true
  | [c] => c =? 10
  | _ => false
  end.

Definition VOTER_ID_ALLOWED_match (s : str) : bool :=
  let n := length (class_prefix s) in
  existsb (fun k => at_end (drop k s))
          (List.filter (fun k => (3 <=? k) && (k <=? 40))%nat (seq 0 (S n))).

Inductive response :=
| HTTPException (status_code : Z) (detail : str)
| Found (raw normalized : str) (count : nat) (results : list Ingest.Row).

(** [require_api_key]. *)
Definition require_api_key (INTERNAL_API_KEY api_key : str) : option response :=
  if decide (api_key ≠ INTERNAL_API_KEY)
  then Some (HTTPException 401 (py "Invalid API key"))
  else None.

(** [search_voter], once its dependencies have passed; [select] is
    what the table store answers for a normalized identifier
    ([resp.data], [None] included). *)
Definition search_voter `{PyRuntime}
    (select : str -> outcome (option (list Ingest.Row))) (voter_id : str) : response :=
  let norm_id := normalize_voter_id voter_id in
  if negb (VOTER_ID_ALLOWED_match norm_id) then
    HTTPException 400 (py "Invalid voter_id format")
  else
    match select norm_id with
    | Raises _ => HTTPException 500 (py "Internal error")
    | Returns resp_data =>
        let data := match resp_data with Some d => d | None => [] end in
        match data with
        | [] => HTTPException 404 (py "Voter ID not found")
        | _ => Found voter_id norm_id (length data) data
        end
    end.

(** A table store holding [rows]: [select("*").eq("voter_id", v)]. *)
Definition select_eq (rows : list Ingest.Row) (v : str)
  : outcome (option (list Ingest.Row)) :=
  Returns (Some (List.filter (fun r => bool_decide (Ingest.voter_id r = v)) rows)).

End Query.

(** ** pdf_crop.py *)

(** The rectangle type of the PDF engine ([fitz.Rect]) with the
    operations [pdf_crop.py] uses: construction from four coordinates,
    intersection ([&]), [is_empty], [is_infinite]. *)
Class FitzRect := {
  Rect : Type;
  make_rect : Q -> Q -> Q -> Q -> Rect;
  rect_and : Rect -> Rect -> Rect;
  is_empty : Rect -> bool;
  is_infinite : Rect -> bool
}.

(** The engine's rectangles on rational coordinates: a rectangle is
    empty when it has no interior, and [&] keeps the common part. *)
Module PlainRect.

Definition Qleb (a b : Q) : bool := if Qlt_le_dec b a then false else true.
Definition Qmax (a b : Q) : Q := if Qleb a b then b else a.
Definition Qmin (a b : Q) : Q := if Qleb a b then a else b.

Definition t : Type := Q * Q * Q * Q.

Definition empty (r : t) : bool :=
  let '(x0, y0, x1, y1) := r in Qleb x1 x0 || Qleb y1 y0.

Definition infinite (r : t) : bool :=
  let '(x0, y0, x1, y1) := r in
  Qeq_bool x0 (-2147483648) && Qeq_bool y0 (-2147483648)
  && Qeq_bool x1 2147483520 && Qeq_bool y1 2147483520.

Definition intersect (a b : t) : t :=
  if infinite b then a
  else if infinite a then b
  else if empty b then b
  else if empty a then a
  else
    let '(ax0, ay0, ax1, ay1) := a in
    let '(bx0, by0, bx1, by1) := b in
    (Qmax ax0 bx0, Qmax ay0 by0, Qmin ax1 bx1, Qmin ay1 by1).

Definition fitz : FitzRect :=
  {| Rect := t;
     make_rect := fun x0 y0 x1 y1 => (x0, y0, x1, y1);
     rect_and := intersect;
     is_empty := empty;
     is_infinite := infinite |}.

End PlainRect.

Module PdfCrop.

Record Args := {
  pdf_path : str;                  (* its final component *)
  out : option str;
  x : Q; y : Q;
  w : option Q; h : option Q;
  x2 : option Q; y2 : option Q;
  dpi : Z;
  page_start : Z;
  page_end : option Z;
  fmt : str;
  quality : Z;
  respect_rotation : bool
}.

(** A page of the open document, with what rendering and saving each
    of its two images will do. *)
Record Page `{FitzRect} := {
  page_rect : Rect;
  rotation : Z;
  crop_image : outcome unit;       (* get_pixmap with clip, save *)
  full_image : outcome unit        (* get_pixmap, save *)
}.

(** [preRotate_defined]: whether the installed engine's [Matrix] has
    the method [preRotate], which turns the matrix in place and
    returns it; an engine without it raises [AttributeError] when the
    method is looked up. *)
Record Env `{FitzRect} := {
  path_exists : bool;
  opened : outcome (list Page);    (* fitz.open *)
  preRotate_defined : bool
}.

Inductive line :=
| LHelp
| LUsage (message : str)
| LFileNotFound
| LPageRange
| LNeedRect
| LInvalidRect
| LSkipping (page_number : Z)
| LSavedCrop (name : str)
| LSavedFull (name : str)
| LDone (saved : Z).

(** An image written to the output directory: the page, its file
    name, the clip (none for the full page) and the rotation of the
    matrix it was rendered with, in degrees. *)
Inductive event `{FitzRect} :=
| Stdout (l : line)
| Stderr (l : line)
| Image (page_number : Z) (name : str) (clip : option Rect) (rotate : Z).

Local Open Scope eff_scope.
Local Open Scope Z_scope.

Section Run.
Context `{FitzRect}.

Definition out_name (a : Args) (page_number : Z) (kind : string) : str :=
  PyPath.stem (pdf_path a) ++ py "_p" ++ format_04d (Z.to_nat page_number)
  ++ py kind ++ fmt a.

(** [base_matrix.preRotate(deg)] on the matrix shared by all pages,
    of which [turned] is the rotation so far: the matrix is turned in
    place and is also what the call returns. *)
Definition preRotate (env : Env) (turned deg : Z) : M event Z :=
  if preRotate_defined env then ret (turned + deg)
  else raise (AttributeError (py "'Matrix' object has no attribute 'preRotate'")).

(** The body of [for page_number in range(p_start, p_end + 1)]; the
    counter [saved] and the rotation [turned] of [base_matrix] are
    threaded through. *)
Definition crop_page (a : Args) (env : Env) (pages : list Page) (crop_rect : Rect)
    (st : Z * Z) (page_number : Z) : M event (Z * Z) :=
  let (saved, turned) := st in
  match nth_error pages (Z.to_nat (page_number - 1)) with
  | None => raise (ValueError (py "page not in document"))
  | Some page =>
      let clip := rect_and crop_rect (page_rect page) in
      if is_empty clip then
        emit (Stdout (LSkipping page_number)) ;;; ret (saved, turned)
      else
        mat <- (if respect_rotation a && negb (rotation page =? 0)
                then preRotate env turned (rotation page)
                else ret turned) ;;
        call (crop_image page) ;;;
        emit (Image page_number (out_name a page_number "_crop.") (Some clip) mat) ;;;
        emit (Stdout (LSavedCrop (out_name a page_number "_crop."))) ;;;
        call (full_image page) ;;;
        emit (Image page_number (out_name a page_number "_full.") None mat) ;;;
        emit (Stdout (LSavedFull (out_name a page_number "_full."))) ;;;
        ret (saved + 1, mat)
  end.

Fixpoint crop_pages (a : Args) (env : Env) (pages : list Page) (crop_rect : Rect)
    (st : Z * Z) (page_numbers : list Z) : M event (Z * Z) :=
  match page_numbers with
  | [] => ret st
  | n :: rest =>
      st' <- crop_page a env pages crop_rect st n ;;
      crop_pages a env pages crop_rect st' rest
  end.

(** Lines 112-122: the corner (x2, y2) from the width and height,
    or else as given; [None] when neither pair is complete. *)
Definition far_corner (a : Args) : option (Q * Q) :=
  match w a, h a, x2 a, y2 a with
  | Some w, Some h, _, _ => Some (x a + w, y a + h)%Q
  | _, _, Some x2, Some y2 => Some (x2, y2)
  | _, _, _, _ => None
  end.

(** [range(p_start, p_end + 1)]. *)
Definition page_range (p_start p_end : Z) : list Z :=
  map (fun k => p_start + Z.of_nat k) (seq 0 (Z.to_nat (p_end + 1 - p_start))).

(** [parse_args]: the parser's verdict on the command line. *)
Definition parse_args (cl : cmdline Args) : M event Args :=
  match cl with
  | Accepted args => ret args
  | HelpRequested => emit (Stdout LHelp) ;;; sys_exit 0
  | Refused message => emit (Stderr (LUsage message)) ;;; sys_exit 2
  end.

Definition main (cl : cmdline Args) (env : Env) : M event unit :=
  a <- parse_args cl ;;
  (if path_exists env then ret tt
   else emit (Stderr LFileNotFound) ;;; sys_exit 1) ;;;
  pages <- call (opened env) ;;
  let total_pages := Z.of_nat (length pages) in
  let p_start := Z.max 1 (page_start a) in
  let p_end := match page_end a with
               | None => total_pages
               | Some e => Z.min e total_pages
               end in
  (if p_start >? p_end then emit (Stderr LPageRange) ;;; sys_exit 1 else ret tt) ;;;
  let (x1, y1) := (x a, y a) in
  corner <- match far_corner a with
            | Some c => ret c
            | None => emit (Stderr LNeedRect) ;;; sys_exit 1
            end ;;
  let crop_rect := make_rect x1 y1 (fst corner) (snd corner) in
  (if is_empty crop_rect || is_infinite crop_rect
   then emit (Stderr LInvalidRect) ;;; sys_exit 1 else ret tt) ;;;
  zoom <- call (int_div_float (dpi a) 72) ;;
  st <- crop_pages a env pages crop_rect (0, 0) (page_range p_start p_end) ;;
  emit (Stdout (LDone (fst st))).

End Run.

End PdfCrop.

(** ** Reference data and scenarios *)

(** The content types by extension, as a table: what
    [content_type_of] is compared with. *)
Definition content_type_table : list (str * str) :=
  map (fun kv : string * string => (py (fst kv), py (snd kv)))
    [(".pdf", "application/pdf");
     (".png", "image/png"); (".jpg", "image/jpeg"); (".jpeg", "image/jpeg");
     (".tif", "image/tif"); (".tiff", "image/tiff"); (".bmp", "image/bmp");
     (".gif", "image/gif"); (".webp", "image/webp")]%string.

Definition content_type_by_table (ext : str) : str :=
  match List.find (fun kv => bool_decide (fst kv = ext)) content_type_table with
  | Some kv => snd kv
  | None => py "application/octet-stream"
  end.

(** The OCR lines of the deduplication example. *)
Definition example_lines : list str :=
  map py ["AB/12"; "xx"; "AB12"; "CD/34"]%string.

(** A one-page document of 100 by 100 points, cropped with the
    default rectangle of [pdf_crop.py], which lies outside of it. *)
Definition crop_args : PdfCrop.Args :=
  {| PdfCrop.pdf_path := py "scan.pdf"; PdfCrop.out := None;
     PdfCrop.x := 45744 # 100; PdfCrop.y := 108;
     PdfCrop.w := Some (1056 # 10); PdfCrop.h := Some 702%Q;
     PdfCrop.x2 := None; PdfCrop.y2 := None;
     PdfCrop.dpi := 150; PdfCrop.page_start := 1; PdfCrop.page_end := None;
     PdfCrop.fmt := py "png"; PdfCrop.quality := 95;
     PdfCrop.respect_rotation := false |}.

Definition small_page : @PdfCrop.Page PlainRect.fitz :=
  {| PdfCrop.page_rect := (0, 0, 100, 100)%Q : @Rect PlainRect.fitz;
     PdfCrop.rotation := 0;
     PdfCrop.crop_image := Returns tt;
     PdfCrop.full_image := Returns tt |}.

Definition small_env : @PdfCrop.Env PlainRect.fitz :=
  {| PdfCrop.path_exists := true; PdfCrop.opened := Returns [small_page];
     PdfCrop.preRotate_defined := true |}.

(** *** Runs of the ingestion pipeline *)

(** The start of [main] went through: the folder is there, the three
    environment values are set, the client was created, the crop
    rectangle is [crop]. *)
Definition started `{PyRuntime} (args : Ingest.Args) (env : Ingest.Env)
    (crop : option Ingest.rect) : Prop :=
  Ingest.folder_is_dir env = true
  /\ Ingest.SUPABASE_URL env <> []
  /\ Ingest.SUPABASE_ANON_KEY env <> []
  /\ Ingest.SUPABASE_BUCKET env <> []
  /\ Ingest.create_client env = Returns tt
  /\ Ingest.convert_crop_units (Ingest.ocr_crop args) (Ingest.units args)
       (Ingest.dpi args) = Returns crop.

(** The document loop of [main] on the documents [docs]. *)
Definition docs_loop `{PyRuntime} (args : Ingest.Args) (crop : option Ingest.rect)
    (docs : list Ingest.DocScript) : M Ingest.event unit :=
  for_each docs
    (Ingest.process_document args (Ingest.prefix_of args) crop (Ingest.lang_list_of args)).

(** What the page loop of document [d] reads, and the loop on the
    pages [pages], the first of which has index [from]. *)
Definition ctx_of (args : Ingest.Args) (crop : option Ingest.rect)
    (d : Ingest.DocScript) (full_url : str) : Ingest.Ctx :=
  {| Ingest.c_args := args;
     Ingest.c_prefix := Ingest.prefix_of args;
     Ingest.c_stem := PyPath.stem (Ingest.doc_name d);
     Ingest.c_full_url := full_url;
     Ingest.c_crop := crop;
     Ingest.c_langs := Ingest.lang_list_of args |}.

Definition pages_loop `{PyRuntime} (c : Ingest.Ctx) (from : nat)
    (pages : list Ingest.PageScript) : M Ingest.event unit :=
  for_each (combine (seq from (length pages)) pages) (Ingest.process_page c).

(** The events of a document up to its page loop, and of a page up to
    its rendering. *)
Definition doc_head `{PyRuntime} (args : Ingest.Args) (d : Ingest.DocScript)
    (full_url : str) : list Ingest.event :=
  [Ingest.Stdout (Ingest.LProcessing (Ingest.doc_name d));
   Ingest.Uploaded (Ingest.full_storage_path (Ingest.prefix_of args) (Ingest.doc_name d))
     (Ingest.content_type_of (Ingest.doc_name d)) full_url;
   Ingest.Stdout (Ingest.LUploadedFull full_url)].

Definition page_head `{PyRuntime} (c : Ingest.Ctx) (page_num : nat)
    (single_url : str) : list Ingest.event :=
  [Ingest.Uploaded
     (Ingest.single_storage_path (Ingest.c_prefix c) (Ingest.c_stem c) page_num)
     (Ingest.content_type_of (Ingest.single_local_name (Ingest.c_stem c) page_num))
     single_url;
   Ingest.Stdout (Ingest.LUploadedSingle page_num single_url)].

(** The command line of the usage note, without a crop, and an
    environment with its three values set. *)
Definition usage_args : Ingest.Args :=
  {| Ingest.pdf_folder := py "scans";
     Ingest.table := py "2002_voter_details";
     Ingest.storage_prefix := py "voters_2002";
     Ingest.dpi := 200;
     Ingest.ocr_crop := [];
     Ingest.units := py "pt";
     Ingest.langs := py "en";
     Ingest.regex := Ingest.default_regex_findall |}.

Definition env_with (docs : list Ingest.DocScript) : Ingest.Env :=
  {| Ingest.folder_is_dir := true;
     Ingest.SUPABASE_URL := py "https://db.example";
     Ingest.SUPABASE_ANON_KEY := py "anon";
     Ingest.SUPABASE_BUCKET := py "voters";
     Ingest.create_client := Returns tt;
     Ingest.listing := docs |}.

(** A page on which every service answers, its OCR text being [text];
    and a page whose OCR call reports an error. *)
Definition good_page (url text : string) : Ingest.PageScript :=
  {| Ingest.pg_split := Returns tt;
     Ingest.pg_single_upload := Returns (py url);
     Ingest.pg_render := fun _ _ => Returns tt;
     Ingest.pg_detect :=
       Returns {| Ocr.error_message := []; Ocr.full_text := py text;
                  Ocr.text_annotations := [] |};
     Ingest.pg_insert := Returns None |}.

Definition ocr_error_page (url : string) : Ingest.PageScript :=
  {| Ingest.pg_split := Returns tt;
     Ingest.pg_single_upload := Returns (py url);
     Ingest.pg_render := fun _ _ => Returns tt;
     Ingest.pg_detect :=
       Returns {| Ocr.error_message := py "quota"; Ocr.full_text := [];
                  Ocr.text_annotations := [] |};
     Ingest.pg_insert := Returns None |}.

(** The 3-page document whose page 2 fails at OCR. *)
Definition three_pages : Ingest.DocScript :=
  {| Ingest.doc_name := py "roll.pdf";
     Ingest.doc_full_upload := Returns (py "u/roll");
     Ingest.doc_open :=
       Returns [good_page "u/1" "WB/24/1"; ocr_error_page "u/2";
                good_page "u/3" "WB/24/3"] |}.

(** Two documents, the first of which cannot be uploaded. *)
Definition upload_refused : exn := LibraryError (py "storage: permission denied").

Definition first_doc : Ingest.DocScript :=
  {| Ingest.doc_name := py "a.pdf";
     Ingest.doc_full_upload := Raises upload_refused;
     Ingest.doc_open := Returns [good_page "u/a1" "WB/24/1"] |}.

Definition second_doc : Ingest.DocScript :=
  {| Ingest.doc_name := py "b.pdf";
     Ingest.doc_full_upload := Returns (py "u/b");
     Ingest.doc_open := Returns [good_page "u/b1" "WB/24/2"] |}.

(** *** A crop rectangle outside the page, on the ingestion side *)

(** The command line of the usage note with its [--ocr-crop]. *)
Definition cropped_usage_args : Ingest.Args :=
  {| Ingest.pdf_folder := py "scans";
     Ingest.table := py "2002_voter_details";
     Ingest.storage_prefix := py "voters_2002";
     Ingest.dpi := 200;
     Ingest.ocr_crop := py "457.44,108,105.6,702";
     Ingest.units := py "pt";
     Ingest.langs := py "en";
     Ingest.regex := Ingest.default_regex_findall |}.

(** The engine's [get_pixmap] on a page of bounds [bounds]: a clip
    that has no common part with the page is refused. *)
Definition clip_outside_page : exn := LibraryError (py "get_pixmap: clip outside page").

Definition get_pixmap_within (bounds : PlainRect.t) (zoom : Q)
    (clip : option Ingest.rect) : outcome unit :=
  match clip with
  | Some r =>
      if PlainRect.empty (PlainRect.intersect r bounds)
      then Raises clip_outside_page else Returns tt
  | None => Returns tt
  end.

(** A document whose first page measures 100 by 100 points, as
    [small_page], followed by a page of 612 by 792 points. *)
Definition small_scan : Ingest.DocScript :=
  {| Ingest.doc_name := py "scan.pdf";
     Ingest.doc_full_upload := Returns (py "u/scan");
     Ingest.doc_open :=
       Returns
         [{| Ingest.pg_split := Returns tt;
             Ingest.pg_single_upload := Returns (py "u/1");
             Ingest.pg_render := get_pixmap_within (0, 0, 100, 100)%Q;
             Ingest.pg_detect :=
               Returns {| Ocr.error_message := []; Ocr.full_text := py "WB/24/1";
                          Ocr.text_annotations := [] |};
             Ingest.pg_insert := Returns None |};
          {| Ingest.pg_split := Returns tt;
             Ingest.pg_single_upload := Returns (py "u/2");
             Ingest.pg_render := get_pixmap_within (0, 0, 612, 792)%Q;
             Ingest.pg_detect :=
               Returns {| Ocr.error_message := []; Ocr.full_text := py "WB/24/2";
                          Ocr.text_annotations := [] |};
             Ingest.pg_insert := Returns None |}] |}.

(** *** Reference definitions for the remaining functions *)

(** The first occurrence of every element, in order. *)
Fixpoint first_occurrences (ids : list str) : list str :=
  match ids with
  | [] => []
  | x :: l => x :: List.filter (fun y => negb (bool_decide (y = x))) (first_occurrences l)
  end.

(** An identifier as the pipeline stores it: not empty, without the
    separator, nothing to strip at either end. *)
Definition cleaned_id (vid : str) : Prop :=
  vid <> [] /\ ~ In slash vid /\ strip vid = vid.

(** An OCR line as [ocr_image_texts] returns it. *)
Definition ocr_line (l : str) : Prop :=
  l <> [] /\ strip l = l /\ Forall (fun c => Ocr.is_linebreak c = false) l.

(** A computation that stops on an exception only, never by a call
    of [sys.exit]. *)
Definition only_raises {E A} (m : M E A) : Prop :=
  forall s, fst m = Stop s -> exists e, s = Uncaught e.

(** The events of a run that are calls answered by a service. *)
Definition service_event (e : Ingest.event) : Prop :=
  match e with
  | Ingest.Uploaded _ _ _ | Ingest.InsertReturned _ _ _ => True
  | _ => False
  end.

(** Order of the documents of a run. *)
Definition name_le (d e : Ingest.DocScript) : Prop :=
  Ingest.str_leb (Ingest.doc_name d) (Ingest.doc_name e) = true.

(** An identifier in the form both sides of the system agree on:
    capital letters, digits and the separator, with between 3 and 40
    letters and digits. *)
Definition canonical_raw (raw : str) : Prop :=
  Forall (fun c => Query.allowed_class c = true \/ c = slash) raw
  /\ (3 <= length (remove_char slash raw) <= 40)%nat.

(** A raw identifier used in examples, and a table store that fails
    on every identifier the search service should not send. *)
Definition sample_raw : str := py "WB/24/162/012136".

Definition strict_select (rows : list Ingest.Row) (v : str)
  : outcome (option (list Ingest.Row)) :=
  if ((3 <=? length v)%nat && (length v <=? 40)%nat && forallb Query.allowed_class v)%bool
  then Query.select_eq rows v
  else Raises (LibraryError (py "malformed filter")).

(** A page of 612 by 792 points, which the default crop rectangle
    meets, after the small page, which it does not. *)
Definition letter_page : @PdfCrop.Page PlainRect.fitz :=
  {| PdfCrop.page_rect := (0, 0, 612, 792)%Q : @Rect PlainRect.fitz;
     PdfCrop.rotation := 90;
     PdfCrop.crop_image := Returns tt;
     PdfCrop.full_image := Returns tt |}.

Definition two_page_env : @PdfCrop.Env PlainRect.fitz :=
  {| PdfCrop.path_exists := true;
     PdfCrop.opened := Returns [small_page; letter_page];
     PdfCrop.preRotate_defined := true |}.

(** The default crop with [--respect-rotation], on a document whose
    first and third pages are turned by 90 degrees and meet the crop
    rectangle, the second page lying outside of it. *)
Definition turning_args : PdfCrop.Args :=
  {| PdfCrop.pdf_path := py "scan.pdf"; PdfCrop.out := None;
     PdfCrop.x := 45744 # 100; PdfCrop.y := 108;
     PdfCrop.w := Some (1056 # 10); PdfCrop.h := Some 702%Q;
     PdfCrop.x2 := None; PdfCrop.y2 := None;
     PdfCrop.dpi := 150; PdfCrop.page_start := 1; PdfCrop.page_end := None;
     PdfCrop.fmt := py "png"; PdfCrop.quality := 95;
     PdfCrop.respect_rotation := true |}.

Definition three_page_env : @PdfCrop.Env PlainRect.fitz :=
  {| PdfCrop.path_exists := true;
     PdfCrop.opened := Returns [letter_page; small_page; letter_page];
     PdfCrop.preRotate_defined := true |}.

(** The rotation of the pages numbered [nums] that have a common part
    with the crop rectangle, added up. *)
Definition rendered_rotation `{FitzRect} (pages : list PdfCrop.Page) (crop_rect : Rect)
    (n : Z) : Z :=
  match nth_error pages (Z.to_nat (n - 1)) with
  | Some page =>
      if is_empty (rect_and crop_rect (PdfCrop.page_rect page)) then 0%Z
      else PdfCrop.rotation page
  | None => 0%Z
  end.

Definition rotation_sum `{FitzRect} (pages : list PdfCrop.Page) (crop_rect : Rect)
    (nums : list Z) : Z :=
  fold_right Z.add 0%Z (map (rendered_rotation pages crop_rect) nums).

(** The images of a run of [pdf_crop.py], by kind. *)
Definition crop_images `{FitzRect} (t : list PdfCrop.event) : list Z :=
  flat_map (fun e => match e with
                     | PdfCrop.Image n _ (Some _) _ => [n]
                     | _ => []
                     end) t.

Definition full_images `{FitzRect} (t : list PdfCrop.event) : list Z :=
  flat_map (fun e => match e with
                     | PdfCrop.Image n _ None _ => [n]
                     | _ => []
                     end) t.

(** * Properties *)

(** ** Strings *)

Section StripFacts.
Variable p : N -> bool.

Lemma rstrip_by_idem s : rstrip_by p (rstrip_by p s) = rstrip_by p s.
Proof.
  induction s as [|c t IH]; simpl; [reflexivity|].
  destruct (rstrip_by p t) as [|d t'] eqn:Et.
  - destruct (p c) eqn:Ec; simpl; [reflexivity|]. now rewrite Ec.
  - change (rstrip_by p (c :: d :: t')) with
      (match rstrip_by p (d :: t') with
       | [] => if p c then [] else [c]
       | u => c :: u
       end).
    now rewrite IH.
Qed.

Lemma lstrip_by_idem s : lstrip_by p (lstrip_by p s) = lstrip_by p s.
Proof.
  induction s as [|c t IH]; simpl; [reflexivity|].
  destruct (p c) eqn:Ec; [exact IH|]. simpl. now rewrite Ec.
Qed.

(** Stripping the left end keeps a string that has nothing to strip
    on the right that way. *)
Lemma rstrip_by_lstrip_by s :
  rstrip_by p s = s -> rstrip_by p (lstrip_by p s) = lstrip_by p s.
Proof.
  induction s as [|c t IH]; simpl; [reflexivity|].
  intros Hr. destruct (p c) eqn:Ec.
  - apply IH. destruct (rstrip_by p t) as [|d t'] eqn:Et.
    + discriminate.
    + now injection Hr.
  - simpl. rewrite Ec. exact Hr.
Qed.

Lemma strip_by_idem s : strip_by p (strip_by p s) = strip_by p s.
Proof.
  unfold strip_by.
  rewrite (rstrip_by_lstrip_by (rstrip_by p s)) by apply rstrip_by_idem.
  apply lstrip_by_idem.
Qed.

Lemma Forall_lstrip_by (P : N -> Prop) s : Forall P s -> Forall P (lstrip_by p s).
Proof.
  induction 1 as [|c t Hc Ht IH]; simpl; [constructor|].
  destruct (p c); [exact IH | now constructor].
Qed.

Lemma Forall_rstrip_by (P : N -> Prop) s : Forall P s -> Forall P (rstrip_by p s).
Proof.
  induction 1 as [|c t Hc Ht IH]; simpl; [constructor|].
  destruct (rstrip_by p t) as [|d t'].
  - destruct (p c); repeat constructor; assumption.
  - now constructor.
Qed.

Lemma Forall_strip_by (P : N -> Prop) s : Forall P s -> Forall P (strip_by p s).
Proof. intros. now apply Forall_lstrip_by, Forall_rstrip_by. Qed.

(** Nothing is stripped from a string without strippable characters. *)
Lemma strip_by_none s : Forall (fun c => p c = false) s -> strip_by p s = s.
Proof.
  intros Hs. unfold strip_by.
  assert (Hr : rstrip_by p s = s).
  { induction Hs as [|c t Hc Ht IH]; simpl; [reflexivity|].
    rewrite IH, Hc. now destruct t. }
  rewrite Hr. destruct Hs as [|c t Hc Ht]; simpl; [reflexivity|]. now rewrite Hc.
Qed.
End StripFacts.

Lemma filter_all {A} (f : A -> bool) l :
  Forall (fun c => f c = true) l -> List.filter f l = l.
Proof.
  induction 1 as [|c t Hc Ht IH]; simpl; [reflexivity|]. now rewrite Hc, IH.
Qed.

Lemma Forall_filter_true {A} (f : A -> bool) l :
  Forall (fun c => f c = true) (List.filter f l).
Proof.
  induction l as [|c t IH]; simpl; [constructor|].
  destruct (f c) eqn:Ec; [now constructor | exact IH].
Qed.

Lemma Forall_take {A} (P : A -> Prop) n l : Forall P l -> Forall P (take n l).
Proof.
  intros Hl. revert n. induction Hl as [|c t Hc Ht IH]; intros [|n]; simpl;
    constructor; auto.
Qed.

Lemma remove_char_absent c s :
  Forall (fun d => d <> c) s -> remove_char c s = s.
Proof.
  intros Hs. apply filter_all. eapply Forall_impl; [exact Hs|].
  intros d Hd. simpl. now apply negb_true_iff, N.eqb_neq.
Qed.

Lemma remove_char_gone c s : Forall (fun d => d <> c) (remove_char c s).
Proof.
  eapply Forall_impl; [apply Forall_filter_true|].
  intros d Hd. simpl in Hd. now apply N.eqb_neq, negb_true_iff.
Qed.

Lemma allowed_class_range c :
  Query.allowed_class c = true <-> (65 <= c <= 90) \/ (48 <= c <= 57).
Proof.
  unfold Query.allowed_class, is_AZ, is_09.
  rewrite orb_true_iff, !andb_true_iff, !N.leb_le. tauto.
Qed.

Section CaseFacts.
Context `{PyRuntime}.

(** [upper] leaves capital letters and digits alone. *)
Lemma upper_allowed s :
  Forall (fun c => Query.allowed_class c = true) s -> upper s = s.
Proof.
  induction 1 as [|c t Hc Ht IH]; [reflexivity|].
  unfold upper, upper_with in *. simpl. rewrite IH.
  apply allowed_class_range in Hc.
  replace (c <? 128) with true by (symmetry; apply N.ltb_lt; lia).
  replace (is_az c) with false; [reflexivity|].
  symmetry. unfold is_az. apply andb_false_iff.
  rewrite N.leb_gt. lia.
Qed.

Lemma normalize_allowed x :
  Forall (fun c => Query.allowed_class c = true) (Query.normalize_voter_id x).
Proof. apply Forall_take, Forall_filter_true. Qed.

Lemma normalize_length x : (length (Query.normalize_voter_id x) <= 40)%nat.
Proof. unfold Query.normalize_voter_id. rewrite length_take. lia. Qed.

(** Already normal: capital letters and digits only, at most 40. *)
Lemma normalize_fixed s :
  Forall (fun c => Query.allowed_class c = true) s -> (length s <= 40)%nat ->
  Query.normalize_voter_id s = s.
Proof.
  intros Hs Hl. unfold Query.normalize_voter_id.
  rewrite remove_char_absent.
  - rewrite (upper_allowed s Hs), (filter_all _ _ Hs). now apply take_ge.
  - eapply Forall_impl; [exact Hs|]. intros c Hc ->. discriminate.
Qed.
End CaseFacts.

Lemma clean_voter_id_fixed s :
  Forall (fun c => c <> slash) s -> strip s = s -> Ingest.clean_voter_id s = s.
Proof. intros Hs Hst. unfold Ingest.clean_voter_id. now rewrite remove_char_absent. Qed.

(** C5. Normalization idempotence: cleaning a cleaned identifier (ingest
    side, [clean_voter_id]) and normalizing a normalized identifier
    (query side, [normalize_voter_id]) change nothing, for every string. *)
Theorem normalization_idempotent `{PyRuntime} (x : str) :
  Ingest.clean_voter_id (Ingest.clean_voter_id x) = Ingest.clean_voter_id x
  /\ Query.normalize_voter_id (Query.normalize_voter_id x) = Query.normalize_voter_id x.
Proof.
  split.
  - apply clean_voter_id_fixed.
    + apply Forall_strip_by, remove_char_gone.
    + apply strip_by_idem.
  - apply normalize_fixed; [apply normalize_allowed | apply normalize_length].
Qed.

(** ** The search service *)

Lemma class_prefix_length s : (length (Query.class_prefix s) <= length s)%nat.
Proof.
  induction s as [|c t IH]; simpl; [lia|].
  destruct (Query.allowed_class c); simpl; lia.
Qed.

Lemma class_prefix_all s :
  Forall (fun c => Query.allowed_class c = true) s -> Query.class_prefix s = s.
Proof. induction 1 as [|c t Hc Ht IH]; simpl; [reflexivity|]. now rewrite Hc, IH. Qed.

(** On a string of class characters no longer than 40, the pattern
    matches exactly from length 3 on. *)
Lemma VOTER_ID_ALLOWED_match_spec s :
  Forall (fun c => Query.allowed_class c = true) s -> (length s <= 40)%nat ->
  Query.VOTER_ID_ALLOWED_match s = true <-> (3 <= length s)%nat.
Proof.
  intros Hs Hl. unfold Query.VOTER_ID_ALLOWED_match.
  rewrite existsb_exists. split.
  - intros (k & Hk & _). apply filter_In in Hk as [Hk Hr].
    apply in_seq in Hk. pose proof (class_prefix_length s).
    apply andb_true_iff in Hr as [Hr _]. apply Nat.leb_le in Hr. lia.
  - intros H3. exists (length s). split.
    + apply filter_In. split.
      * apply in_seq. rewrite (class_prefix_all s Hs). lia.
      * apply andb_true_iff. split; apply Nat.leb_le; lia.
    + now rewrite drop_all.
Qed.

(** C10. Query-side validation reduces to a length check: the normalized
    identifier consists of capital ASCII letters and digits only and
    has at most 40 characters, so [search_voter] answers 400
    'Invalid voter_id format' exactly when the normalized identifier
    has fewer than 3 characters. *)
Theorem search_rejects_iff_short `{PyRuntime}
    (select : str -> outcome (option (list Ingest.Row))) (voter_id : str) :
  Forall (fun c => 65 <= c <= 90 \/ 48 <= c <= 57) (Query.normalize_voter_id voter_id)
  /\ (length (Query.normalize_voter_id voter_id) <= 40)%nat
  /\ (Query.search_voter select voter_id
      = Query.HTTPException 400 (py "Invalid voter_id format")
      <-> (length (Query.normalize_voter_id voter_id) < 3)%nat).
Proof.
  pose proof (normalize_allowed voter_id) as Ha.
  pose proof (normalize_length voter_id) as Hl.
  split; [|split; [exact Hl|]].
  - eapply Forall_impl; [exact Ha|]. intros c. apply allowed_class_range.
  - pose proof (VOTER_ID_ALLOWED_match_spec _ Ha Hl) as Hm.
    unfold Query.search_voter.
    destruct (Query.VOTER_ID_ALLOWED_match (Query.normalize_voter_id voter_id)); simpl.
    + split; [|intros; assert (3 <= length (Query.normalize_voter_id voter_id))%nat
                         by (now apply Hm); lia].
      destruct (select _) as [[[|r rs]|]|e]; simpl; intros Heq; discriminate Heq.
    + split; [|reflexivity]. intros _.
      destruct (le_lt_dec 3 (length (Query.normalize_voter_id voter_id))) as [H3|H3];
        [|exact H3].
      apply Hm in H3. discriminate.
Qed.

(** C3. The identifier read as [ab/12] is stored by the ingest side as
    [ab12] while the query side looks for [AB12]: the two
    normalizations differ on it, and a lookup for the same raw
    identifier in a table holding the ingested row answers 404. *)
Theorem lowercase_identifier_never_found `{PyRuntime} (single_url full_url : str) :
  Ingest.extract_ids_from_lines [py "ab/12"] Ingest.default_regex_findall = [py "ab12"]
  /\ Ingest.clean_voter_id (py "ab/12") = py "ab12"
  /\ Query.normalize_voter_id (py "ab/12") = py "AB12"
  /\ Query.search_voter
       (Query.select_eq
          [{| Ingest.voter_id := Ingest.clean_voter_id (py "ab/12");
              Ingest.single_page_pdf_link := single_url;
              Ingest.full_pdf_link := full_url |}])
       (py "ab/12")
     = Query.HTTPException 404 (py "Voter ID not found").
Proof. repeat split; vm_compute; reflexivity. Qed.

(** The two sides do agree on identifiers written with capital letters,
    digits and the separator, with at most 40 letters and digits. *)
Lemma normalize_agrees_on_canonical `{PyRuntime} (x : str) :
  Forall (fun c => Query.allowed_class c = true \/ c = slash) x ->
  (length (remove_char slash x) <= 40)%nat ->
  Query.normalize_voter_id x = Ingest.clean_voter_id x.
Proof.
  intros Hx Hl.
  assert (Ha : Forall (fun c => Query.allowed_class c = true) (remove_char slash x)).
  { clear Hl. induction Hx as [|c t Hc Ht IH]; simpl; [constructor|].
    destruct (N.eqb_spec c slash) as [->|Hne]; simpl; [exact IH|].
    constructor; [|exact IH]. destruct Hc; [assumption | contradiction]. }
  unfold Ingest.clean_voter_id, strip. rewrite strip_by_none.
  - unfold Query.normalize_voter_id.
    rewrite (upper_allowed _ Ha), (filter_all _ _ Ha). now apply take_ge.
  - eapply Forall_impl; [exact Ha|]. intros c Hc.
    apply allowed_class_range in Hc. unfold is_space.
    repeat (apply orb_false_iff; split);
      try (apply andb_false_iff; rewrite !N.leb_gt; lia);
      apply N.eqb_neq; lia.
Qed.

(** ** Identifier extraction *)

(** C4, as stated: the extraction of the example does not yield
    [AB12; CD34]. *)
Lemma extraction_of_example_is_not_two_ids :
  Ingest.extract_ids_from_lines example_lines Ingest.default_regex_findall
  <> map py ["AB12"; "CD34"]%string.
Proof. vm_compute. discriminate. Qed.

(** C4, amended. For the OCR lines [AB/12; xx; AB12; CD/34] and the
    default pattern (letters of both cases, digits, separator), the
    extraction yields exactly [AB12; xx; CD34]: the second occurrence
    of AB12 is dropped, first-seen order is kept, and [xx], itself a
    run of letters, is an identifier like the others. *)
Theorem example_extraction :
  Ingest.extract_ids_from_lines example_lines Ingest.default_regex_findall
  = map py ["AB12"; "xx"; "CD34"]%string.
Proof. vm_compute. reflexivity. Qed.

(** ** Content types *)

(** C9. The content type declared for an upload is a function of the
    lower-cased extension of the file: [.pdf] gives [application/pdf],
    each raster extension its [image/...] type, anything else
    [application/octet-stream]. *)
Theorem content_type_from_extension `{PyRuntime} (local_name : str) :
  Ingest.content_type_of local_name
  = content_type_by_table (lower (PyPath.suffix local_name)).
Proof.
  unfold Ingest.content_type_of.
  generalize (lower (PyPath.suffix local_name)) as ext. intros ext.
  destruct (decide (ext = py ".pdf")) as [->|Hpdf]; [reflexivity|].
  destruct (decide (ext ∈ Ingest.raster_suffixes)) as [Hin|Hout].
  - unfold Ingest.raster_suffixes in Hin. simpl in Hin.
    repeat (apply elem_of_cons in Hin as [->|Hin]; [vm_compute; reflexivity|]).
    now apply elem_of_nil in Hin.
  - unfold Ingest.raster_suffixes in Hout. simpl in Hout.
    repeat (apply not_elem_of_cons in Hout as [? Hout]).
    unfold content_type_by_table, content_type_table. simpl.
    repeat (case_bool_decide; [congruence|]). reflexivity.
Qed.

(** ** The crop rectangle *)

Section Crop.
Local Open Scope Q_scope.

Lemma parse_fields_nonempty `{PyRuntime} crop_str r :
  Ingest.parse_fields crop_str = Some r -> crop_str <> [].
Proof.
  intros Hp ->. unfold Ingest.parse_fields in Hp. simpl in Hp.
  destruct (float_of_str _); discriminate.
Qed.


Lemma float_limit_pos : (0 < float_limit)%Z.
Proof. reflexivity. Qed.

(** The three ways of [a / n] for an integer [n]. *)
Lemma float_div_int_cases (a : Q) (n : Z) :
  ((float_limit <= Z.abs n)%Z /\ float_div_int a n = Raises OverflowError)
  \/ (n = 0%Z /\ float_div_int a n = Raises ZeroDivisionError)
  \/ (n <> 0%Z /\ (Z.abs n < float_limit)%Z
      /\ float_div_int a n = Returns (a / inject_Z n)).
Proof.
  pose proof float_limit_pos as Hpos. unfold float_div_int, float_of_int.
  destruct (Z.ltb_spec (Z.abs n) float_limit) as [Hlt|Hge]; [|now left].
  right. destruct (Z.eqb_spec n 0) as [Hz|Hz]; [now left|now right].
Qed.

(** What [convert_crop_units] does with a string that parses. *)
Lemma convert_crop_units_parsed `{PyRuntime} crop_str units dpi x y w h :
  Ingest.parse_fields crop_str = Some (x, y, w, h) ->
  Ingest.convert_crop_units crop_str units dpi =
    if decide (units = py "px") then
      match float_div_int 72 dpi with
      | Raises e => Raises e
      | Returns scale =>
          Returns (Some (x * scale, y * scale,
                         x * scale + w * scale, y * scale + h * scale))
      end
    else Returns (Some (x, y, x + w, y + h)).
Proof.
  intros Hp. pose proof (parse_fields_nonempty _ _ Hp) as Hne.
  unfold Ingest.convert_crop_units. rewrite Hp.
  destruct crop_str; [contradiction|]. reflexivity.
Qed.



(** C7, as stated: a crop string that parses into four numbers does
    not always give a rectangle; in pixel units at resolution 0 the
    conversion raises, and what it raises is not the invalid-input
    error; nor is it at a resolution beyond the range of a float. *)
Lemma parsed_crop_raises_at_zero_dpi :
  @Ingest.parse_fields AsciiRuntime.runtime (py "1,2,3,4") = Some (1, 2, 3, 4)
  /\ @Ingest.convert_crop_units AsciiRuntime.runtime (py "1,2,3,4") (py "px") 0
     = Raises ZeroDivisionError
  /\ @Ingest.convert_crop_units AsciiRuntime.runtime (py "1,2,3,4") (py "px")
       (10 ^ 400) = Raises OverflowError.
Proof. repeat split; vm_compute; reflexivity. Qed.

Lemma convert_crop_units_unparsed `{PyRuntime} crop_str units dpi :
  crop_str <> [] -> Ingest.parse_fields crop_str = None ->
  Ingest.convert_crop_units crop_str units dpi = Raises Ingest.invalid_crop.
Proof.
  intros Hne Hp. unfold Ingest.convert_crop_units. rewrite Hp.
  destruct crop_str; [contradiction | reflexivity].
Qed.

(** C7, amended. Crop-string parsing: the empty string gives no
    region; a string that parses into exactly four numbers x, y, w, h
    gives the rectangle (x, y, x+w, y+h), each number multiplied by
    72/dpi first when the units are pixels, except in pixel units at
    resolution 0, where the conversion raises a division error, and
    at a resolution of magnitude 2^1024 - 2^970 or more, where it
    raises an overflow error; and the conversion raises the
    invalid-input error if and only if the non-empty string does not
    parse into exactly four numbers.  It raises nothing else. *)
Theorem crop_string_parsing `{PyRuntime} (crop_str units : str) (dpi : Z) :
  (crop_str = [] -> Ingest.convert_crop_units crop_str units dpi = Returns None)
  /\ (forall x y w h, Ingest.parse_fields crop_str = Some (x, y, w, h) ->
        units <> py "px" ->
        Ingest.convert_crop_units crop_str units dpi
        = Returns (Some (x, y, x + w, y + h)))
  /\ (forall x y w h, Ingest.parse_fields crop_str = Some (x, y, w, h) ->
        units = py "px" -> dpi <> 0%Z -> (Z.abs dpi < float_limit)%Z ->
        Ingest.convert_crop_units crop_str units dpi
        = Returns (Some (x * (72 / inject_Z dpi), y * (72 / inject_Z dpi),
                         x * (72 / inject_Z dpi) + w * (72 / inject_Z dpi),
                         y * (72 / inject_Z dpi) + h * (72 / inject_Z dpi))))
  /\ (forall x y w h, Ingest.parse_fields crop_str = Some (x, y, w, h) ->
        units = py "px" -> dpi = 0%Z ->
        Ingest.convert_crop_units crop_str units dpi = Raises ZeroDivisionError)
  /\ (forall x y w h, Ingest.parse_fields crop_str = Some (x, y, w, h) ->
        units = py "px" -> (float_limit <= Z.abs dpi)%Z ->
        Ingest.convert_crop_units crop_str units dpi = Raises OverflowError)
  /\ (Ingest.convert_crop_units crop_str units dpi = Raises Ingest.invalid_crop
      <-> crop_str <> [] /\ Ingest.parse_fields crop_str = None)
  /\ (forall e, Ingest.convert_crop_units crop_str units dpi = Raises e ->
        e = Ingest.invalid_crop
        \/ (units = py "px" /\ Ingest.parse_fields crop_str <> None
            /\ ((e = ZeroDivisionError /\ dpi = 0%Z)
                \/ (e = OverflowError /\ (float_limit <= Z.abs dpi)%Z)))).
Proof.
  assert (Hraise : forall e, Ingest.convert_crop_units crop_str units dpi = Raises e ->
            (e = Ingest.invalid_crop /\ crop_str <> []
             /\ Ingest.parse_fields crop_str = None)
            \/ (units = py "px" /\ Ingest.parse_fields crop_str <> None
                /\ ((e = ZeroDivisionError /\ dpi = 0%Z)
                    \/ (e = OverflowError /\ (float_limit <= Z.abs dpi)%Z)))).
  { intros e He.
    destruct (Ingest.parse_fields crop_str) as [[[[x y] w] h]|] eqn:Hp.
    - right. rewrite (convert_crop_units_parsed _ _ _ _ _ _ _ Hp) in He.
      destruct (decide (units = py "px")) as [Hu|Hu]; [|discriminate He].
      split; [exact Hu|]. split; [discriminate|].
      destruct (float_div_int_cases 72 dpi) as [[Hge Hf]|[[Hz Hf]|(_ & _ & Hf)]];
        rewrite Hf in He; [right|left|discriminate He];
        injection He as <-; now split.
    - left. destruct crop_str as [|c t]; [discriminate He|].
      rewrite convert_crop_units_unparsed in He by (assumption || discriminate).
      injection He as <-. repeat split. discriminate. }
  pose proof float_limit_pos as Hpos.
  split; [|split; [|split; [|split; [|split; [|split; [split|]]]]]].
  - intros ->. reflexivity.
  - intros x y w h Hp Hu. rewrite (convert_crop_units_parsed _ _ _ _ _ _ _ Hp).
    now rewrite decide_False.
  - intros x y w h Hp Hu Hd Hr. rewrite (convert_crop_units_parsed _ _ _ _ _ _ _ Hp).
    rewrite decide_True by assumption.
    destruct (float_div_int_cases 72 dpi) as [[Hge _]|[[Hz _]|(_ & _ & ->)]];
      [lia | contradiction | reflexivity].
  - intros x y w h Hp Hu Hd. rewrite (convert_crop_units_parsed _ _ _ _ _ _ _ Hp).
    rewrite decide_True by assumption.
    destruct (float_div_int_cases 72 dpi) as [[Hge _]|[[_ ->]|(Hz & _ & _)]];
      [lia | reflexivity | contradiction].
  - intros x y w h Hp Hu Hd. rewrite (convert_crop_units_parsed _ _ _ _ _ _ _ Hp).
    rewrite decide_True by assumption.
    destruct (float_div_int_cases 72 dpi) as [[_ ->]|[[Hz _]|(_ & Hlt & _)]];
      [reflexivity | lia | lia].
  - intros He. destruct (Hraise _ He) as [(_ & Hne & Hp)|(_ & _ & [[Hz _]|[Hz _]])];
      [now split | discriminate Hz | discriminate Hz].
  - intros [Hne Hp]. now apply convert_crop_units_unparsed.
  - intros e He. destruct (Hraise _ He) as [(-> & _)|Hz]; [now left | now right].
Qed.

Lemma crop_string_parsing_witness :
  @Ingest.convert_crop_units AsciiRuntime.runtime
     (py "457.44,108,105.6,702") (py "pt") 200
  = Returns (Some (45744 # 100, 108, (45744 # 100) + (1056 # 10), 108 + 702)).
Proof.
  refine (proj1 (proj2 (@crop_string_parsing AsciiRuntime.runtime
                          (py "457.44,108,105.6,702") (py "pt") 200))
            (45744 # 100) 108 (1056 # 10) 702 _ _).
  - vm_compute. reflexivity.
  - intros Hu. vm_compute in Hu. discriminate Hu.
Defined.

End Crop.

(** ** Traces of effectful computations *)

Section EffectFacts.
Context {E : Type}.
Implicit Types (e : E).

Lemma snd_bind {A B} (m : M E A) (k : A -> M E B) :
  snd (bind m k)
  = snd m ++ match fst m with Normal a => snd (k a) | Stop _ => [] end.
Proof.
  destruct m as [[a|s] t]; simpl.
  - now destruct (k a).
  - now rewrite app_nil_r.
Qed.

Lemma fst_bind {A B} (m : M E A) (k : A -> M E B) :
  fst (bind m k) = match fst m with Normal a => fst (k a) | Stop s => Stop s end.
Proof. destruct m as [[a|s] t]; simpl; [now destruct (k a) | reflexivity]. Qed.

(** An event of [bind m k] is one of [m], or one of [k] run on the
    value [m] returned. *)
Lemma in_bind {A B} (m : M E A) (k : A -> M E B) e :
  In e (snd (bind m k)) ->
  In e (snd m) \/ exists a, fst m = Normal a /\ In e (snd (k a)).
Proof.
  rewrite snd_bind, in_app_iff. intros [Hm|Hk]; [now left|].
  destruct (fst m) as [a|s]; [right; eauto | contradiction].
Qed.

Lemma bind_normal {A B} (m : M E A) (k : A -> M E B) a t :
  m = (Normal a, t) -> bind m k = (fst (k a), t ++ snd (k a)).
Proof. intros ->. simpl. now destruct (k a). Qed.

Lemma bind_stop {A B} (m : M E A) (k : A -> M E B) s t :
  m = (Stop s, t) -> bind m k = (Stop s, t).
Proof. now intros ->. Qed.

Lemma bind_ret_l {A B} (a : A) (k : A -> M E B) : bind (ret a) k = k a.
Proof. unfold bind, ret. now destruct (k a). Qed.

Lemma bind_normal_inv {A B} (m : M E A) (k : A -> M E B) b t :
  bind m k = (Normal b, t) ->
  exists a t1 t2, m = (Normal a, t1) /\ k a = (Normal b, t2) /\ t = t1 ++ t2.
Proof.
  destruct m as [[a|s] t1]; simpl; [|discriminate].
  destruct (k a) as [r t2] eqn:Hk. intros Heq. injection Heq as -> <-.
  exists a, t1, t2. auto.
Qed.

Lemma snd_call {A} (o : outcome A) : snd (@call E A o) = [].
Proof. now destruct o. Qed.

Lemma for_each_app {A} (l1 l2 : list A) (body : A -> M E unit) :
  for_each (l1 ++ l2) body
  = bind (for_each l1 body) (fun _ => for_each l2 body).
Proof.
  induction l1 as [|x l1 IH]; simpl.
  - now destruct (for_each l2 body).
  - rewrite IH. destruct (body x) as [[[]|s] t]; simpl; [|reflexivity].
    destruct (for_each l1 body) as [[[]|s] t1]; simpl.
    + destruct (for_each l2 body) as [r t2]. now rewrite app_assoc.
    + reflexivity.
Qed.
End EffectFacts.

(** ** pdf_crop.py: the page loop *)

Section CropRun.
Context `{FitzRect}.
Import PdfCrop.
Local Open Scope Z_scope.

Lemma crop_page_skip a env pages crop_rect st n page :
  nth_error pages (Z.to_nat (n - 1)) = Some page ->
  is_empty (rect_and crop_rect (page_rect page)) = true ->
  crop_page a env pages crop_rect st n = (Normal st, [Stdout (LSkipping n)]).
Proof. intros Hp He. unfold crop_page. destruct st. now rewrite Hp, He. Qed.

Lemma rendered_rotation_page pages crop_rect n page :
  nth_error pages (Z.to_nat (n - 1)) = Some page ->
  rendered_rotation pages crop_rect n
  = if is_empty (rect_and crop_rect (page_rect page)) then 0 else rotation page.
Proof. intros Hp. unfold rendered_rotation. now rewrite Hp. Qed.

(** The matrix a page is rendered with: the shared matrix, turned by
    the rotation of the page when rotation is to be respected, which
    takes an engine that has [preRotate] when the page is rotated. *)
Lemma page_matrix a env turned page mat t :
  (if respect_rotation a && negb (rotation page =? 0)
   then preRotate env turned (rotation page) else ret turned) = (Normal mat, t) ->
  t = []
  /\ mat = turned + (if respect_rotation a then rotation page else 0)
  /\ (respect_rotation a = true -> preRotate_defined env = false -> rotation page = 0).
Proof.
  unfold preRotate.
  destruct (respect_rotation a); simpl.
  - destruct (Z.eqb_spec (rotation page) 0) as [Hz|Hz]; simpl.
    + intros Heq. injection Heq as <- <-. rewrite Hz. repeat split; auto. lia.
    + destruct (preRotate_defined env); [|discriminate].
      intros Heq. injection Heq as <- <-. repeat split; auto. discriminate.
  - intros Heq. injection Heq as <- <-. repeat split; [lia | discriminate].
Qed.

(** An image of a page's turn: its page, name, clip and rotation. *)
Lemma crop_page_image a env pages crop_rect saved turned n m name clip rotate :
  In (Image m name clip rotate)
     (snd (crop_page a env pages crop_rect (saved, turned) n)) ->
  m = n
  /\ exists page,
       nth_error pages (Z.to_nat (n - 1)) = Some page
       /\ is_empty (rect_and crop_rect (page_rect page)) = false
       /\ rotate = turned + (if respect_rotation a then rotation page else 0)
       /\ (respect_rotation a = true -> preRotate_defined env = false ->
           rotation page = 0)
       /\ ((clip = Some (rect_and crop_rect (page_rect page))
            /\ name = out_name a n "_crop.")
           \/ (clip = None /\ name = out_name a n "_full.")).
Proof.
  unfold crop_page.
  destruct (nth_error pages (Z.to_nat (n - 1))) as [page|]; [|intros []].
  destruct (is_empty (rect_and crop_rect (page_rect page))) eqn:He.
  - simpl. intros [Hi|[]]. discriminate Hi.
  - intros Hin. apply in_bind in Hin as [Hin|(mat & Hmat & Hin)].
    { exfalso. destruct (respect_rotation a && negb (rotation page =? 0));
        [unfold preRotate in Hin; destruct (preRotate_defined env)|];
        now destruct Hin. }
    destruct (if respect_rotation a && negb (rotation page =? 0)
              then preRotate env turned (rotation page) else ret turned)
      as [r t] eqn:Hm; simpl in Hmat; subst r.
    apply page_matrix in Hm as (_ & Hmat & Hdef).
    assert (m = n /\ rotate = mat
            /\ ((clip = Some (rect_and crop_rect (page_rect page))
                 /\ name = out_name a n "_crop.")
                \/ (clip = None /\ name = out_name a n "_full.")))
      as (Hm' & Hr & Hc).
    { destruct (crop_image page) as [[]|e1]; [|destruct Hin].
      destruct (full_image page) as [[]|e2]; simpl in Hin;
        repeat (destruct Hin as [Hi|Hin]; [inversion Hi; subst; auto|]);
        destruct Hin. }
    split; [exact Hm'|]. exists page. repeat split; auto. congruence.
Qed.

(** A turn that returns: the counter, the two kinds of images, and
    the rotation of the shared matrix afterwards. *)
Lemma crop_page_normal a env pages crop_rect saved turned n saved' turned' t :
  crop_page a env pages crop_rect (saved, turned) n = (Normal (saved', turned'), t) ->
  saved' = saved + Z.of_nat (length (crop_images t))
  /\ crop_images t = full_images t
  /\ turned' = turned + (if respect_rotation a
                         then rendered_rotation pages crop_rect n else 0)
  /\ (respect_rotation a = true -> preRotate_defined env = false ->
      rendered_rotation pages crop_rect n = 0).
Proof.
  unfold crop_page.
  destruct (nth_error pages (Z.to_nat (n - 1))) as [page|] eqn:Hp; [|discriminate].
  rewrite (rendered_rotation_page _ _ _ _ Hp).
  destruct (is_empty (rect_and crop_rect (page_rect page))).
  - simpl. intros Heq. injection Heq as <- <- <-. simpl.
    repeat split; auto; destruct (respect_rotation a); lia.
  - intros Heq. apply bind_normal_inv in Heq as (mat & t1 & t2 & Hm & Heq & ->).
    apply page_matrix in Hm as (-> & Hmat & Hdef).
    destruct (crop_image page) as [[]|e1]; [|discriminate].
    destruct (full_image page) as [[]|e2]; [|discriminate].
    simpl in Heq. injection Heq as <- <- <-. simpl.
    repeat split; auto; lia.
Qed.

Lemma rotation_sum_cons pages crop_rect n l :
  rotation_sum pages crop_rect (n :: l)
  = rendered_rotation pages crop_rect n + rotation_sum pages crop_rect l.
Proof. reflexivity. Qed.

(** An image of the loop: its page is one of the numbers of the loop;
    the matrix it is rendered with has been turned by every page of
    the loop up to this one that was rendered. *)
Lemma crop_pages_image a env pages crop_rect nums :
  forall saved turned m name clip rotate,
  In (Image m name clip rotate)
     (snd (crop_pages a env pages crop_rect (saved, turned) nums)) ->
  exists page before after,
    nums = before ++ m :: after
    /\ nth_error pages (Z.to_nat (m - 1)) = Some page
    /\ is_empty (rect_and crop_rect (page_rect page)) = false
    /\ rotate = turned + (if respect_rotation a
                          then rotation_sum pages crop_rect (before ++ [m]) else 0)
    /\ (respect_rotation a = true -> preRotate_defined env = false ->
        rotation_sum pages crop_rect (before ++ [m]) = 0 /\ rotation page = 0)
    /\ ((clip = Some (rect_and crop_rect (page_rect page))
         /\ name = out_name a m "_crop.")
        \/ (clip = None /\ name = out_name a m "_full.")).
Proof.
  induction nums as [|n rest IH]; intros saved turned m name clip rotate;
    cbn [crop_pages].
  - intros [].
  - intros Hin. apply in_bind in Hin as [Hin|([saved' turned'] & Hst & Hin)].
    + apply crop_page_image in Hin as (-> & page & Hp & He & Hr & Hdef & Hname).
      exists page, [], rest.
      assert (Hsum : rotation_sum pages crop_rect ([] ++ [n]) = rotation page).
      { unfold rotation_sum. cbn [app map fold_right].
        rewrite (rendered_rotation_page _ _ _ _ Hp), He. lia. }
      rewrite Hsum. split; [reflexivity|]. split; [exact Hp|]. split; [exact He|].
      split; [exact Hr|]. split; [|exact Hname].
      intros Hresp Hno. split; apply (Hdef Hresp Hno).
    + destruct (crop_page a env pages crop_rect (saved, turned) n) as [r t] eqn:Hn.
      simpl in Hst. subst r.
      apply crop_page_normal in Hn as (_ & _ & Ht & Hz).
      destruct (IH _ _ _ _ _ _ Hin)
        as (page & before & after & -> & Hp & He & Hr & Hdef & Hname).
      exists page, (n :: before), after.
      change ((n :: before) ++ [m]) with (n :: (before ++ [m])).
      rewrite rotation_sum_cons.
      split; [reflexivity|]. split; [exact Hp|]. split; [exact He|].
      split; [|split; [|exact Hname]].
      * rewrite Hr, Ht. destruct (respect_rotation a); lia.
      * intros Hresp Hno. destruct (Hdef Hresp Hno) as [Hs0 Hr0].
        rewrite (Hz Hresp Hno), Hs0. split; [reflexivity | exact Hr0].
Qed.

Lemma crop_pages_normal a env pages crop_rect nums : forall saved turned saved' turned' t,
  crop_pages a env pages crop_rect (saved, turned) nums = (Normal (saved', turned'), t) ->
  saved' = saved + Z.of_nat (length (crop_images t))
  /\ crop_images t = full_images t.
Proof.
  induction nums as [|n rest IH]; intros saved turned saved' turned' t;
    cbn [crop_pages].
  - intros Heq. injection Heq as <- <- <-. simpl. split; [lia | reflexivity].
  - intros Heq. apply bind_normal_inv in Heq as ([s1 r1] & t1 & t2 & H1 & H2 & ->).
    apply crop_page_normal in H1 as (-> & Hc1 & _). apply IH in H2 as [-> Hc2].
    unfold crop_images, full_images in *. rewrite !flat_map_app, length_app.
    split; [lia | congruence].
Qed.

Lemma page_range_In p_start p_end n :
  In n (page_range p_start p_end) <-> p_start <= n <= p_end.
Proof.
  unfold page_range. rewrite in_map_iff. split.
  - intros (k & <- & Hk). apply in_seq in Hk. lia.
  - intros Hn. exists (Z.to_nat (n - p_start)). split; [lia|]. apply in_seq. lia.
Qed.

(** The images of a whole run are those of its page loop, on the page
    numbers from the first to the last page asked for and present,
    the shared matrix not being turned at the start. *)
Lemma main_image a env m name clip rotate :
  In (Image m name clip rotate) (snd (main (Accepted a) env)) ->
  exists pages cx cy,
    opened env = Returns pages /\ far_corner a = Some (cx, cy)
    /\ In (Image m name clip rotate)
          (snd (crop_pages a env pages (make_rect (x a) (y a) cx cy) (0, 0)
                  (page_range (Z.max 1 (page_start a))
                     match page_end a with
                     | None => Z.of_nat (length pages)
                     | Some e => Z.min e (Z.of_nat (length pages))
                     end))).
Proof.
  unfold main, parse_args. rewrite bind_ret_l. intros Hin.
  apply in_bind in Hin as [Hin|(_ & _ & Hin)].
  { destruct (path_exists env); [destruct Hin|].
    simpl in Hin. destruct Hin as [Hi|[]]. discriminate Hi. }
  apply in_bind in Hin as [Hin|(pages & Hop & Hin)].
  { rewrite snd_call in Hin. destruct Hin. }
  assert (Hpages : opened env = Returns pages).
  { destruct (opened env); simpl in Hop; congruence. }
  apply in_bind in Hin as [Hin|(_ & _ & Hin)].
  { destruct (_ >? _)%Z; [|destruct Hin].
    simpl in Hin. destruct Hin as [Hi|[]]. discriminate Hi. }
  apply in_bind in Hin as [Hin|([cx cy] & Hc & Hin)].
  { destruct (far_corner a); [destruct Hin|].
    simpl in Hin. destruct Hin as [Hi|[]]. discriminate Hi. }
  assert (Hcorner : far_corner a = Some (cx, cy)).
  { destruct (far_corner a); simpl in Hc; congruence. }
  apply in_bind in Hin as [Hin|(_ & _ & Hin)].
  { destruct (_ || _); [|destruct Hin].
    simpl in Hin. destruct Hin as [Hi|[]]. discriminate Hi. }
  apply in_bind in Hin as [Hin|(zoom & _ & Hin)].
  { rewrite snd_call in Hin. destruct Hin. }
  apply in_bind in Hin as [Hin|(st & _ & Hin)].
  - simpl in Hin. exists pages, cx, cy. auto.
  - simpl in Hin. destruct Hin as [Hi|[]]. discriminate Hi.
Qed.

(** A run that returns is its page loop, then the closing line. *)
Lemma main_returns cl env t :
  main cl env = (Normal tt, t) ->
  exists a pages crop_rect nums saved turned t',
    cl = Accepted a
    /\ opened env = Returns pages
    /\ crop_pages a env pages crop_rect (0, 0) nums = (Normal (saved, turned), t')
    /\ t = t' ++ [Stdout (LDone saved)].
Proof.
  unfold main. intros Hm.
  apply bind_normal_inv in Hm as (a & t0 & t2 & H0 & Hm & ->).
  destruct cl as [a'| |msg]; try discriminate H0. injection H0 as -> <-.
  apply bind_normal_inv in Hm as ([] & t1 & t2' & H1 & Hm & ->).
  destruct (path_exists env); [|discriminate H1]. injection H1 as <-.
  apply bind_normal_inv in Hm as (pages & t1 & t3 & H1 & Hm & ->).
  destruct (opened env) as [pages'|e]; [|discriminate H1]. injection H1 as -> <-.
  apply bind_normal_inv in Hm as ([] & t1 & t4 & H1 & Hm & ->).
  destruct (_ >? _); [discriminate H1|]. injection H1 as <-.
  apply bind_normal_inv in Hm as (corner & t1 & t5 & H1 & Hm & ->).
  destruct (far_corner a) as [c|]; [|discriminate H1]. injection H1 as -> <-.
  apply bind_normal_inv in Hm as ([] & t1 & t6 & H1 & Hm & ->).
  destruct (_ || _); [discriminate H1|]. injection H1 as <-.
  apply bind_normal_inv in Hm as (zoom & t1 & t7 & H1 & Hm & ->).
  destruct (int_div_float (dpi a) 72) as [z|e]; [|discriminate H1].
  injection H1 as -> <-.
  apply bind_normal_inv in Hm as ([saved turned] & t1 & t8 & H1 & Hm & ->).
  injection Hm as <-. simpl. eauto 12.
Qed.
End CropRun.

(** ** The ingestion run: where a failure stops it *)

Section LoopFacts.
Context {E A : Type}.
Implicit Types (body : A -> M E unit).

Lemma normal_unit (m : M E unit) : fst m = Normal tt -> m = (Normal tt, snd m).
Proof. destruct m as [r t]. simpl. now intros ->. Qed.

(** The loop ends at the first element whose body stops. *)
Lemma for_each_stops l1 x l2 body s t :
  fst (for_each l1 body) = Normal tt ->
  body x = (Stop s, t) ->
  for_each (l1 ++ x :: l2) body = (Stop s, snd (for_each l1 body) ++ t).
Proof.
  intros H1 Hx. rewrite for_each_app, (bind_normal _ _ _ _ (normal_unit _ H1)).
  simpl. now rewrite Hx.
Qed.

(** The loop goes on after an element whose body returns. *)
Lemma for_each_goes_on x l body t :
  body x = (Normal tt, t) ->
  for_each (x :: l) body = (fst (for_each l body), t ++ snd (for_each l body)).
Proof. intros Hx. simpl. now rewrite Hx; destruct (for_each l body). Qed.
End LoopFacts.

Lemma combine_seq_app {A} (l1 l2 : list A) k :
  combine (seq k (length (l1 ++ l2))) (l1 ++ l2)
  = combine (seq k (length l1)) l1 ++ combine (seq (k + length l1) (length l2)) l2.
Proof.
  revert k. induction l1 as [|a l1 IH]; intros k; simpl.
  - now rewrite Nat.add_0_r.
  - rewrite IH. now rewrite Nat.add_succ_r.
Qed.

Section RunFacts.
Context `{PyRuntime}.
Import Ingest.

Lemma env_values_set env :
  SUPABASE_URL env <> [] -> SUPABASE_ANON_KEY env <> [] -> SUPABASE_BUCKET env <> [] ->
  supabase_client_from_env env = call (create_client env).
Proof.
  unfold supabase_client_from_env. cbn [flat_map fst snd app].
  destruct (SUPABASE_URL env); [contradiction|].
  destruct (SUPABASE_ANON_KEY env); [contradiction|].
  destruct (SUPABASE_BUCKET env); [contradiction|]. reflexivity.
Qed.

(** Past its start, a run is its document loop, then [Done.]. *)
Lemma main_started args env crop :
  started args env crop -> pdf_files env <> [] ->
  main (Accepted args) env
  = bind (docs_loop args crop (pdf_files env)) (fun _ => emit (Stdout LDone)).
Proof.
  intros (Hdir & Hu & Hk & Hb & Hcc & Hc) Hne. unfold main, parse_args, docs_loop.
  rewrite bind_ret_l, Hdir, (env_values_set env Hu Hk Hb), Hcc, Hc. simpl.
  destruct (pdf_files env) as [|d ds]; [contradiction|].
  destruct (bind _ _) as [r t]. reflexivity.
Qed.

(** A run whose document loop stops, stops the same way. *)
Lemma main_stops args env crop s t :
  started args env crop ->
  docs_loop args crop (pdf_files env) = (Stop s, t) ->
  main (Accepted args) env = (Stop s, t) /\ exit_code (main (Accepted args) env) = exit_code_of_stop s.
Proof.
  intros Hs Hl.
  assert (Hne : pdf_files env <> []).
  { intros He. rewrite He in Hl. discriminate Hl. }
  rewrite (main_started _ _ _ Hs Hne), Hl. split; reflexivity.
Qed.

Lemma document_upload_raises args crop d e :
  doc_full_upload d = Raises e ->
  process_document args (prefix_of args) crop (lang_list_of args) d
  = (Stop (Uncaught e), [Stdout (LProcessing (doc_name d))]).
Proof. intros Hu. unfold process_document, upload_and_get_url. now rewrite Hu. Qed.

(** A document whose upload and opening return is its head and its
    page loop. *)
Lemma document_pages args crop d full_url pages :
  doc_full_upload d = Returns full_url -> doc_open d = Returns pages ->
  process_document args (prefix_of args) crop (lang_list_of args) d
  = (fst (pages_loop (ctx_of args crop d full_url) 0 pages),
     doc_head args d full_url ++ snd (pages_loop (ctx_of args crop d full_url) 0 pages)).
Proof.
  intros Hu Ho. unfold process_document, upload_and_get_url, pages_loop, enumerate, ctx_of.
  rewrite Hu, Ho. simpl. now destruct (for_each _ _).
Qed.

Lemma page_ocr_raises c i pg single_url resp :
  pg_split pg = Returns tt -> pg_single_upload pg = Returns single_url ->
  render_page_for_ocr (pg_render pg) (dpi (c_args c)) (c_crop c) = (Normal tt, []) ->
  pg_detect pg = Returns resp -> Ocr.error_message resp <> [] ->
  process_page c (i, pg)
  = (Stop (Uncaught (RuntimeError (Ocr.vision_error_text (Ocr.error_message resp)))),
     page_head c (i + 1) single_url).
Proof.
  intros Hs Hu Hr Hd He.
  unfold process_page, upload_and_get_url, Ocr.ocr_image_texts.
  rewrite Hs, Hu, Hr, Hd. simpl.
  destruct (Ocr.error_message resp); [contradiction | reflexivity].
Qed.

Lemma page_render_raises c i pg single_url e :
  pg_split pg = Returns tt -> pg_single_upload pg = Returns single_url ->
  render_page_for_ocr (pg_render pg) (dpi (c_args c)) (c_crop c)
  = (Stop (Uncaught e), []) ->
  process_page c (i, pg) = (Stop (Uncaught e), page_head c (i + 1) single_url).
Proof.
  intros Hs Hu Hr. unfold process_page, upload_and_get_url.
  rewrite Hs, Hu, Hr. reflexivity.
Qed.

Lemma page_insert_raises c i pg single_url lines vid vids e :
  pg_split pg = Returns tt -> pg_single_upload pg = Returns single_url ->
  render_page_for_ocr (pg_render pg) (dpi (c_args c)) (c_crop c) = (Normal tt, []) ->
  @Ocr.ocr_image_texts event (pg_detect pg) = (Normal lines, []) ->
  extract_ids_from_lines lines (regex (c_args c)) = vid :: vids ->
  pg_insert pg = Raises e ->
  process_page c (i, pg) = (Stop (Uncaught e), page_head c (i + 1) single_url).
Proof.
  intros Hs Hu Hr Ho Hx Hi.
  unfold process_page, upload_and_get_url.
  rewrite Hs, Hu, Hr, Ho. simpl. rewrite Hx, Hi. reflexivity.
Qed.

Lemma page_insert_error c i pg single_url lines vid vids err :
  pg_split pg = Returns tt -> pg_single_upload pg = Returns single_url ->
  render_page_for_ocr (pg_render pg) (dpi (c_args c)) (c_crop c) = (Normal tt, []) ->
  @Ocr.ocr_image_texts event (pg_detect pg) = (Normal lines, []) ->
  extract_ids_from_lines lines (regex (c_args c)) = vid :: vids ->
  pg_insert pg = Returns (Some err) ->
  process_page c (i, pg)
  = (Normal tt,
     page_head c (i + 1) single_url
     ++ [InsertReturned (table (c_args c))
           (rows_of (vid :: vids) single_url (c_full_url c)) (Some err);
         Stderr (LInsertError err)]).
Proof.
  intros Hs Hu Hr Ho Hx Hi.
  unfold process_page, upload_and_get_url.
  rewrite Hs, Hu, Hr, Ho. simpl. rewrite Hx, Hi. reflexivity.
Qed.

(** The run stops with [s] in document [d] when the documents before
    it went through and [d] itself stops with [s]. *)
Lemma run_stops_in_document args env crop before d after s t :
  started args env crop ->
  pdf_files env = before ++ d :: after ->
  fst (docs_loop args crop before) = Normal tt ->
  process_document args (prefix_of args) crop (lang_list_of args) d = (Stop s, t) ->
  main (Accepted args) env = (Stop s, snd (docs_loop args crop before) ++ t)
  /\ exit_code (main (Accepted args) env) = exit_code_of_stop s.
Proof.
  intros Hs Hf Hb Hd. apply (main_stops _ _ crop); [exact Hs|].
  rewrite Hf. unfold docs_loop. now apply for_each_stops.
Qed.
End RunFacts.

(** Side conditions on concrete runs, by evaluation. *)
Ltac run_side :=
  first [ reflexivity
        | vm_compute; reflexivity
        | let Hx := fresh in intros Hx; vm_compute in Hx; discriminate Hx ].

(** C1, as stated: in the run on the 3-page document whose page 2
    fails at OCR, the exit code is 1, not 0; the artifacts are those
    of the document and of pages 1 and 2, the rows those of page 1;
    page 3 is never reached. *)
Lemma ocr_error_on_page_2_ends_run :
  @Ingest.main AsciiRuntime.runtime (Accepted usage_args) (env_with [three_pages])
  = (Stop (Uncaught (RuntimeError (Ocr.vision_error_text (py "quota")))),
     @doc_head AsciiRuntime.runtime usage_args three_pages (py "u/roll")
     ++ @page_head AsciiRuntime.runtime
          (ctx_of usage_args None three_pages (py "u/roll")) 1 (py "u/1")
     ++ [Ingest.InsertReturned (py "2002_voter_details")
           (Ingest.rows_of [py "WB241"] (py "u/1") (py "u/roll")) None;
         Ingest.Stdout (Ingest.LInserted 1 1)]
     ++ @page_head AsciiRuntime.runtime
          (ctx_of usage_args None three_pages (py "u/roll")) 2 (py "u/2"))
  /\ exit_code (@Ingest.main AsciiRuntime.runtime (Accepted usage_args) (env_with [three_pages]))
     = 1%Z.
Proof. split; vm_compute; reflexivity. Qed.

(** A run stops with [s] in a page when the documents before its
    document and the pages before it went through and the page itself
    stops with [s]. *)
Lemma run_stops_in_page `{PyRuntime} args env crop before d after full_url pb pg pa s t :
  started args env crop ->
  Ingest.pdf_files env = before ++ d :: after ->
  fst (docs_loop args crop before) = Normal tt ->
  Ingest.doc_full_upload d = Returns full_url ->
  Ingest.doc_open d = Returns (pb ++ pg :: pa) ->
  fst (pages_loop (ctx_of args crop d full_url) 0 pb) = Normal tt ->
  Ingest.process_page (ctx_of args crop d full_url) (length pb, pg) = (Stop s, t) ->
  Ingest.main (Accepted args) env
  = (Stop s,
     snd (docs_loop args crop before)
     ++ doc_head args d full_url
     ++ snd (pages_loop (ctx_of args crop d full_url) 0 pb) ++ t)
  /\ exit_code (Ingest.main (Accepted args) env) = exit_code_of_stop s.
Proof.
  intros Hs Hf Hb Hu Ho Hpb Hpage.
  pose proof (document_pages args crop d full_url _ Hu Ho) as Hdoc.
  unfold pages_loop in Hdoc at 1 2. rewrite combine_seq_app in Hdoc.
  simpl combine in Hdoc.
  rewrite (for_each_stops _ _ _ _ _ _ Hpb Hpage) in Hdoc. simpl fst in Hdoc.
  simpl snd in Hdoc.
  exact (run_stops_in_document args env crop before d after _ _ Hs Hf Hb Hdoc).
Qed.

(** C1, amended. Page-level failure isolation holds for an insert
    whose response carries an error: the error is printed and the
    page loop goes on with the next page.  An error raised by the
    render, the OCR or the insert call of a page is not caught: the
    run ends at that page with that error and exit code 1, its trace
    being the documents before, the head of the document, the pages
    before and the upload of the page; no later page or document is
    processed. *)
Theorem page_failure_semantics `{PyRuntime}
    (args : Ingest.Args) (env : Ingest.Env) (crop : option Ingest.rect)
    (before after : list Ingest.DocScript) (d : Ingest.DocScript) (full_url : str)
    (pb pa : list Ingest.PageScript) (pg : Ingest.PageScript) (single_url : str) :
  started args env crop ->
  Ingest.pdf_files env = before ++ d :: after ->
  fst (docs_loop args crop before) = Normal tt ->
  Ingest.doc_full_upload d = Returns full_url ->
  Ingest.doc_open d = Returns (pb ++ pg :: pa) ->
  fst (pages_loop (ctx_of args crop d full_url) 0 pb) = Normal tt ->
  Ingest.pg_split pg = Returns tt ->
  Ingest.pg_single_upload pg = Returns single_url ->
  (forall e,
     Ingest.render_page_for_ocr (Ingest.pg_render pg) (Ingest.dpi args) crop
     = (Stop (Uncaught e), []) ->
     Ingest.main (Accepted args) env
     = (Stop (Uncaught e),
        snd (docs_loop args crop before)
        ++ doc_head args d full_url
        ++ snd (pages_loop (ctx_of args crop d full_url) 0 pb)
        ++ page_head (ctx_of args crop d full_url) (length pb + 1) single_url)
     /\ exit_code (Ingest.main (Accepted args) env) = 1%Z)
  /\ (forall resp,
        Ingest.render_page_for_ocr (Ingest.pg_render pg) (Ingest.dpi args) crop
        = (Normal tt, []) ->
        Ingest.pg_detect pg = Returns resp -> Ocr.error_message resp <> [] ->
        Ingest.main (Accepted args) env
        = (Stop (Uncaught (RuntimeError
                             (Ocr.vision_error_text (Ocr.error_message resp)))),
           snd (docs_loop args crop before)
           ++ doc_head args d full_url
           ++ snd (pages_loop (ctx_of args crop d full_url) 0 pb)
           ++ page_head (ctx_of args crop d full_url) (length pb + 1) single_url)
        /\ exit_code (Ingest.main (Accepted args) env) = 1%Z)
  /\ (forall lines vid vids e,
        Ingest.render_page_for_ocr (Ingest.pg_render pg) (Ingest.dpi args) crop
        = (Normal tt, []) ->
        @Ocr.ocr_image_texts Ingest.event (Ingest.pg_detect pg) = (Normal lines, []) ->
        Ingest.extract_ids_from_lines lines (Ingest.regex args) = vid :: vids ->
        Ingest.pg_insert pg = Raises e ->
        Ingest.main (Accepted args) env
        = (Stop (Uncaught e),
           snd (docs_loop args crop before)
           ++ doc_head args d full_url
           ++ snd (pages_loop (ctx_of args crop d full_url) 0 pb)
           ++ page_head (ctx_of args crop d full_url) (length pb + 1) single_url)
        /\ exit_code (Ingest.main (Accepted args) env) = 1%Z)
  /\ (forall lines vid vids err,
        Ingest.render_page_for_ocr (Ingest.pg_render pg) (Ingest.dpi args) crop
        = (Normal tt, []) ->
        @Ocr.ocr_image_texts Ingest.event (Ingest.pg_detect pg) = (Normal lines, []) ->
        Ingest.extract_ids_from_lines lines (Ingest.regex args) = vid :: vids ->
        Ingest.pg_insert pg = Returns (Some err) ->
        pages_loop (ctx_of args crop d full_url) 0 (pb ++ pg :: pa)
        = (fst (pages_loop (ctx_of args crop d full_url) (S (length pb)) pa),
           snd (pages_loop (ctx_of args crop d full_url) 0 pb)
           ++ (page_head (ctx_of args crop d full_url) (length pb + 1) single_url
               ++ [Ingest.InsertReturned (Ingest.table args)
                     (Ingest.rows_of (vid :: vids) single_url full_url) (Some err);
                   Ingest.Stderr (Ingest.LInsertError err)])
           ++ snd (pages_loop (ctx_of args crop d full_url) (S (length pb)) pa))).
Proof.
  intros Hs Hf Hb Hu Ho Hpb Hsp Hsu.
  pose proof (run_stops_in_page args env crop before d after full_url pb pg pa)
    as Hstop.
  split; [|split; [|split]].
  - intros e Hr.
    exact (Hstop _ _ Hs Hf Hb Hu Ho Hpb
             (page_render_raises (ctx_of args crop d full_url) _ _ _ _ Hsp Hsu Hr)).
  - intros resp Hr Hd He.
    exact (Hstop _ _ Hs Hf Hb Hu Ho Hpb
             (page_ocr_raises (ctx_of args crop d full_url) _ _ _ _ Hsp Hsu Hr Hd He)).
  - intros lines vid vids e Hr Hocr Hx Hi.
    exact (Hstop _ _ Hs Hf Hb Hu Ho Hpb
             (page_insert_raises (ctx_of args crop d full_url) _ _ _ _ _ _ _
                Hsp Hsu Hr Hocr Hx Hi)).
  - intros lines vid vids err Hr Hocr Hx Hi.
    pose proof (page_insert_error (ctx_of args crop d full_url) (length pb) pg
                  single_url lines vid vids err Hsp Hsu Hr Hocr Hx Hi) as Hpage.
    unfold pages_loop at 1. rewrite combine_seq_app, for_each_app.
    simpl combine.
    rewrite (bind_normal _ _ _ _ (normal_unit _ Hpb)).
    rewrite (for_each_goes_on _ _ _ _ Hpage). reflexivity.
Qed.

Lemma page_failure_semantics_witness :
  exit_code (@Ingest.main AsciiRuntime.runtime (Accepted usage_args) (env_with [three_pages]))
  = 1%Z.
Proof.
  refine (proj2 (proj1 (proj2
    (@page_failure_semantics AsciiRuntime.runtime usage_args (env_with [three_pages])
       None [] [] three_pages (py "u/roll")
       [good_page "u/1" "WB/24/1"] [good_page "u/3" "WB/24/3"] (ocr_error_page "u/2")
       (py "u/2") _ _ _ _ _ _ _ _))
    {| Ocr.error_message := py "quota"; Ocr.full_text := [];
       Ocr.text_annotations := [] |} _ _ _)).
  - repeat split; run_side.
  - run_side.
  - run_side.
  - run_side.
  - run_side.
  - run_side.
  - run_side.
  - run_side.
  - run_side.
  - run_side.
  - run_side.
Defined.

(** C2, as stated: in a run over two documents the first of which
    cannot be uploaded, the failure ends the run: the second document
    is never processed and the exit code is 1. *)
Lemma refused_upload_ends_run :
  @Ingest.main AsciiRuntime.runtime (Accepted usage_args) (env_with [first_doc; second_doc])
  = (Stop (Uncaught upload_refused), [Ingest.Stdout (Ingest.LProcessing (py "a.pdf"))])
  /\ exit_code (@Ingest.main AsciiRuntime.runtime (Accepted usage_args)
                  (env_with [first_doc; second_doc])) = 1%Z.
Proof. split; vm_compute; reflexivity. Qed.

(** C2, amended. A failure of the full-document upload of one document
    is raised and not caught: the run ends there with that error and
    exit code 1, its trace being that of the documents before and the
    announcement of the document; no page of the document and no later
    document is processed. *)
Theorem full_upload_failure_ends_run `{PyRuntime}
    (args : Ingest.Args) (env : Ingest.Env) (crop : option Ingest.rect)
    (before after : list Ingest.DocScript) (d : Ingest.DocScript) (e : exn) :
  started args env crop ->
  Ingest.pdf_files env = before ++ d :: after ->
  fst (docs_loop args crop before) = Normal tt ->
  Ingest.doc_full_upload d = Raises e ->
  Ingest.main (Accepted args) env
  = (Stop (Uncaught e),
     snd (docs_loop args crop before)
     ++ [Ingest.Stdout (Ingest.LProcessing (Ingest.doc_name d))])
  /\ exit_code (Ingest.main (Accepted args) env) = 1%Z.
Proof.
  intros Hs Hf Hb Hu.
  exact (run_stops_in_document args env crop before d after _ _ Hs Hf Hb
           (document_upload_raises args crop d e Hu)).
Qed.

Lemma full_upload_failure_ends_run_witness :
  @Ingest.main AsciiRuntime.runtime (Accepted usage_args) (env_with [first_doc; second_doc])
  = (Stop (Uncaught upload_refused),
     [] ++ [Ingest.Stdout (Ingest.LProcessing (Ingest.doc_name first_doc))])
  /\ exit_code (@Ingest.main AsciiRuntime.runtime (Accepted usage_args)
                  (env_with [first_doc; second_doc])) = 1%Z.
Proof.
  apply (@full_upload_failure_ends_run AsciiRuntime.runtime usage_args
           (env_with [first_doc; second_doc]) None [] [second_doc] first_doc
           upload_refused).
  - repeat split; run_side.
  - run_side.
  - run_side.
  - run_side.
Defined.

(** ** A crop rectangle outside the page *)

(** On the ingestion side no page is skipped at rendering: when the
    turn of a page returns, the engine was asked for the page with
    the crop rectangle itself as clip, and delivered. *)
Lemma page_returns_after_render `{PyRuntime} (c : Ingest.Ctx) (i : nat)
    (pg : Ingest.PageScript) (t : list Ingest.event) :
  Ingest.process_page c (i, pg) = (Normal tt, t) ->
  exists zoom,
    int_div_float (Ingest.dpi (Ingest.c_args c)) 72 = Returns zoom
    /\ Ingest.pg_render pg zoom (Ingest.c_crop c) = Returns tt.
Proof.
  unfold Ingest.process_page. intros Hp.
  apply bind_normal_inv in Hp as ([] & t1 & t2 & _ & Hp & _).
  apply bind_normal_inv in Hp as (url & t3 & t4 & _ & Hp & _).
  apply bind_normal_inv in Hp as ([] & t5 & t6 & _ & Hp & _).
  apply bind_normal_inv in Hp as ([] & t7 & t8 & Hr & _ & _).
  unfold Ingest.render_page_for_ocr in Hr.
  apply bind_normal_inv in Hr as (zoom & t9 & t10 & Hz & Hr & _).
  exists zoom. split.
  - destruct (int_div_float _ _) as [z|e]; [|discriminate Hz].
    now injection Hz as ->.
  - destruct (Ingest.pg_render pg zoom (Ingest.c_crop c)) as [[]|e];
      [reflexivity | discriminate Hr].
Qed.

(** C8. On the ingestion side [render_page_for_ocr] hands the crop
    rectangle to the engine as it is: the turn of a page returns only
    when the engine delivered the image for that very clip.  The crop
    rectangle of the usage note lies outside a page of 100 by 100
    points.  [pdf_crop.py] skips such a page with a warning and ends
    normally with no image.  The ingestion run does not: the engine
    refuses the clip, and the run ends there with that error and exit
    code 1, after the uploads of the document and of the single page;
    the second page, which the rectangle meets, is never processed. *)
Theorem crop_outside_page_ends_ingest_run :
  (forall (runtime : PyRuntime) c i pg t,
     @Ingest.process_page runtime c (i, pg) = (Normal tt, t) ->
     exists zoom,
       int_div_float (Ingest.dpi (Ingest.c_args c)) 72 = Returns zoom
       /\ Ingest.pg_render pg zoom (Ingest.c_crop c) = Returns tt)
  /\ @Ingest.convert_crop_units AsciiRuntime.runtime
     (Ingest.ocr_crop cropped_usage_args) (Ingest.units cropped_usage_args)
     (Ingest.dpi cropped_usage_args)
  = Returns (Some (45744 # 100, 108, (45744 # 100) + (1056 # 10), 108 + 702)%Q)
  /\ @is_empty PlainRect.fitz
       (@rect_and PlainRect.fitz
          (45744 # 100, 108, (45744 # 100) + (1056 # 10), 108 + 702)%Q
          (PdfCrop.page_rect small_page)) = true
  /\ @PdfCrop.main PlainRect.fitz (Accepted crop_args) small_env
     = (Normal tt, [PdfCrop.Stdout (PdfCrop.LSkipping 1);
                    PdfCrop.Stdout (PdfCrop.LDone 0)])
  /\ @Ingest.main AsciiRuntime.runtime (Accepted cropped_usage_args)
       (env_with [small_scan])
     = (Stop (Uncaught clip_outside_page),
        @doc_head AsciiRuntime.runtime cropped_usage_args small_scan (py "u/scan")
        ++ @page_head AsciiRuntime.runtime
             (ctx_of cropped_usage_args
                (Some (45744 # 100, 108, (45744 # 100) + (1056 # 10), 108 + 702)%Q)
                small_scan (py "u/scan")) 1 (py "u/1"))
  /\ exit_code (@Ingest.main AsciiRuntime.runtime (Accepted cropped_usage_args)
                  (env_with [small_scan])) = 1%Z.
Proof.
  split; [intros runtime c i pg t; apply page_returns_after_render|].
  repeat split; vm_compute; reflexivity.
Qed.

(** * Further properties of the code *)

(** ** Identifier extraction *)

Lemma filter_filter_and {A} (f g : A -> bool) l :
  List.filter f (List.filter g l) = List.filter (fun x => g x && f x) l.
Proof.
  induction l as [|a l IH]; simpl; [reflexivity|].
  destruct (g a); simpl; [destruct (f a)|]; now rewrite IH.
Qed.

(** The loop with its set of seen identifiers keeps, of the
    identifiers to come, the first occurrences not seen yet. *)
Lemma dedup_loop_first_occurrences ids : forall (seen : gset str) uniq,
  Ingest.dedup_loop ids seen uniq
  = uniq ++ List.filter (fun y => negb (bool_decide (y ∈ seen))) (first_occurrences ids).
Proof.
  induction ids as [|x l IH]; intros seen uniq; simpl.
  - now rewrite app_nil_r.
  - destruct (decide (x ∈ seen)) as [Hin|Hout].
    + rewrite IH, (bool_decide_eq_true_2 _ Hin). simpl. f_equal.
      rewrite filter_filter_and. apply filter_ext. intros y.
      destruct (bool_decide_reflect (y = x)) as [->|Hne]; simpl; [|reflexivity].
      now rewrite (bool_decide_eq_true_2 _ Hin).
    + rewrite IH, (bool_decide_eq_false_2 _ Hout), <- app_assoc. simpl. do 2 f_equal.
      rewrite filter_filter_and. apply filter_ext. intros y.
      destruct (bool_decide_reflect (y = x)) as [->|Hne]; simpl.
      * apply negb_false_iff, bool_decide_eq_true_2, elem_of_union. left.
        now apply elem_of_singleton.
      * f_equal. apply bool_decide_ext. rewrite elem_of_union, elem_of_singleton.
        tauto.
Qed.

Lemma first_occurrences_In ids x : In x (first_occurrences ids) <-> In x ids.
Proof.
  induction ids as [|y l IH]; simpl; [tauto|].
  rewrite filter_In, IH. split.
  - intros [->|[Hin _]]; auto.
  - intros [->|Hin]; [now left|].
    destruct (decide (x = y)) as [->|Hne]; [now left|].
    right. split; [exact Hin|]. now apply negb_true_iff, bool_decide_eq_false_2.
Qed.

Lemma first_occurrences_NoDup ids : List.NoDup (first_occurrences ids).
Proof.
  induction ids as [|y l IH]; simpl; constructor.
  - rewrite filter_In. intros [_ Hne].
    now rewrite bool_decide_eq_true_2 in Hne.
  - now apply List.NoDup_filter.
Qed.

Lemma extract_ids_unfold (lines : list str) (findall : str -> list str) :
  Ingest.extract_ids_from_lines lines findall
  = first_occurrences (Ingest.collect_ids lines findall).
Proof.
  unfold Ingest.extract_ids_from_lines. rewrite dedup_loop_first_occurrences. simpl.
  rewrite <- (filter_ext (fun _ => true)).
  - induction (first_occurrences _) as [|a l IH]; simpl; congruence.
  - intros y. symmetry. apply negb_true_iff, bool_decide_eq_false_2.
    apply not_elem_of_empty.
Qed.

(** The candidates of a page: the matches of its lines, cleaned, the
    empty ones left out. *)
Lemma collect_ids_In lines findall vid :
  In vid (Ingest.collect_ids lines findall)
  <-> vid <> [] /\ exists ln m, In ln lines /\ In m (findall ln)
                               /\ vid = Ingest.clean_voter_id m.
Proof.
  unfold Ingest.collect_ids. rewrite in_flat_map. split.
  - intros (ln & Hln & Hin). apply in_flat_map in Hin as (m & Hm & Hin).
    destruct (Ingest.clean_voter_id m) as [|c t] eqn:Hc; [destruct Hin|].
    destruct Hin as [<-|[]]. split; [discriminate|]. exists ln, m. now rewrite Hc.
  - intros (Hne & ln & m & Hln & Hm & ->). exists ln. split; [exact Hln|].
    apply in_flat_map. exists m. split; [exact Hm|].
    destruct (Ingest.clean_voter_id m); [contradiction | now left].
Qed.

(** X1. First-seen order: the identifiers extracted from a page are the
    candidates of its lines, each kept at the place of its first
    occurrence; in particular an identifier met again later never
    moves or comes back. *)
Theorem extract_ids_first_seen_order (lines : list str) (findall : str -> list str) :
  Ingest.extract_ids_from_lines lines findall
  = first_occurrences (Ingest.collect_ids lines findall)
  /\ forall more,
      exists rest,
        Ingest.extract_ids_from_lines (lines ++ more) findall
        = Ingest.extract_ids_from_lines lines findall ++ rest.
Proof.
  split; [apply extract_ids_unfold|].
  intros more. unfold Ingest.extract_ids_from_lines, Ingest.collect_ids.
  rewrite flat_map_app.
  assert (Hpre : forall l1 l2 (seen : gset str) uniq,
            exists rest, Ingest.dedup_loop (l1 ++ l2) seen uniq
                         = Ingest.dedup_loop l1 seen uniq ++ rest).
  { induction l1 as [|x l1 IH]; intros l2 seen uniq; simpl.
    - rewrite dedup_loop_first_occurrences. eauto.
    - destruct (decide (x ∈ seen)); apply IH. }
  apply Hpre.
Qed.

(** X2. No identifier is returned twice for a page, and the identifiers
    returned are exactly the cleaned, non-empty matches of the lines. *)
Theorem extract_ids_no_duplicates (lines : list str) (findall : str -> list str) :
  List.NoDup (Ingest.extract_ids_from_lines lines findall)
  /\ forall vid,
      In vid (Ingest.extract_ids_from_lines lines findall)
      <-> vid <> [] /\ exists ln m, In ln lines /\ In m (findall ln)
                                   /\ vid = Ingest.clean_voter_id m.
Proof.
  rewrite extract_ids_unfold. split; [apply first_occurrences_NoDup|].
  intros vid. rewrite first_occurrences_In. apply collect_ids_In.
Qed.

Lemma remove_char_not_In c s : ~ In c (remove_char c s).
Proof.
  unfold remove_char. rewrite filter_In. intros [_ Hc].
  now rewrite N.eqb_refl in Hc.
Qed.

Lemma strip_by_incl p s c : In c (strip_by p s) -> In c s.
Proof.
  intros Hin.
  assert (Hall : Forall (fun d => In d s) s) by (apply List.Forall_forall; auto).
  apply (Forall_strip_by p _ _) in Hall.
  rewrite List.Forall_forall in Hall. now apply Hall.
Qed.

Lemma clean_voter_id_shape m :
  Ingest.clean_voter_id m <> [] -> cleaned_id (Ingest.clean_voter_id m).
Proof.
  intros Hne. repeat split; [exact Hne| |].
  - intros Hin. apply strip_by_incl in Hin. exact (remove_char_not_In _ _ Hin).
  - apply strip_by_idem.
Qed.

(** X3. Whatever the pattern, every identifier extracted from a page is
    not empty, does not contain the separator and has no white space
    at either end; cleaning it again changes nothing. *)
Theorem extract_ids_are_cleaned (lines : list str) (findall : str -> list str) :
  Forall (fun vid => cleaned_id vid /\ Ingest.clean_voter_id vid = vid)
         (Ingest.extract_ids_from_lines lines findall).
Proof.
  apply List.Forall_forall. intros vid Hin.
  rewrite extract_ids_unfold, first_occurrences_In in Hin.
  apply collect_ids_In in Hin as (Hne & ln & m & _ & _ & ->).
  split; [now apply clean_voter_id_shape|].
  apply clean_voter_id_fixed; [|apply strip_by_idem].
  apply Forall_strip_by, remove_char_gone.
Qed.

(** The matches of a one-class pattern are non-empty runs of the class. *)
Lemma findall_runs_class cls s : forall cur m,
  Forall (fun c => cls c = true) cur ->
  In m (findall_runs cls s cur) ->
  m <> [] /\ Forall (fun c => cls c = true) m.
Proof.
  assert (Hrev : forall c cur, Forall (fun c => cls c = true) (c :: cur) ->
            rev (c :: cur) <> [] /\ Forall (fun c => cls c = true) (rev (c :: cur))).
  { intros c cur Hc. split.
    - simpl. now destruct (rev cur).
    - apply List.Forall_forall. intros d Hd. apply in_rev in Hd.
      rewrite List.Forall_forall in Hc. now apply Hc. }
  induction s as [|c t IH]; intros cur m Hcur; simpl.
  - destruct cur as [|d cur]; [intros []|]. intros [<-|[]]. now apply Hrev.
  - destruct (cls c) eqn:Hc.
    + apply IH. now constructor.
    + destruct cur as [|d cur]; [now apply IH|].
      intros [<-|Hin]; [now apply Hrev | now apply (IH [])].
Qed.

(** X4. With the default pattern the identifiers of a page are runs of
    ASCII letters and digits: nothing else reaches the table. *)
Theorem default_pattern_ids_are_alphanumeric (lines : list str) :
  Forall (fun vid => vid <> []
                     /\ Forall (fun c => is_AZ c || is_az c || is_09 c = true) vid)
         (Ingest.extract_ids_from_lines lines Ingest.default_regex_findall).
Proof.
  apply List.Forall_forall. intros vid Hin.
  rewrite extract_ids_unfold, first_occurrences_In in Hin.
  apply collect_ids_In in Hin as (Hne & ln & m & _ & Hm & ->).
  split; [exact Hne|].
  apply (findall_runs_class _ _ [] m (List.Forall_nil _)) in Hm as [_ Hm].
  unfold Ingest.clean_voter_id, strip. apply Forall_strip_by.
  unfold remove_char. apply List.Forall_forall. intros c Hc.
  apply filter_In in Hc as [Hc Hs]. rewrite List.Forall_forall in Hm.
  specialize (Hm c Hc). unfold Ingest.default_regex_class in Hm.
  apply negb_true_iff in Hs. rewrite Hs, orb_false_r in Hm. exact Hm.
Qed.

(** ** ocr_cloud_vision.py: the lines returned *)

Lemma splitlines_from_no_break n : forall s cur l,
  (length s <= n)%nat ->
  Forall (fun c => Ocr.is_linebreak c = false) cur ->
  In l (Ocr.splitlines_from s cur) ->
  Forall (fun c => Ocr.is_linebreak c = false) l.
Proof.
  assert (Hrev : forall cur, Forall (fun c => Ocr.is_linebreak c = false) cur ->
            Forall (fun c => Ocr.is_linebreak c = false) (rev cur)).
  { intros cur Hc. apply List.Forall_forall. intros d Hd. apply in_rev in Hd.
    rewrite List.Forall_forall in Hc. now apply Hc. }
  induction n as [|n IH]; intros s cur l Hlen Hcur.
  - destruct s; [|simpl in Hlen; lia]. simpl.
    destruct cur; [intros [] | intros [<-|[]]; now apply Hrev].
  - destruct s as [|c t]; simpl.
    { destruct cur; [intros [] | intros [<-|[]]; now apply Hrev]. }
    simpl in Hlen. destruct (Ocr.is_linebreak c) eqn:Hc.
    + intros [<-|Hin]; [now apply Hrev|].
      destruct (c =? 13).
      * destruct t as [|d t']; [now apply (IH [] [])|].
        simpl in Hlen.
        destruct (d =? 10); [apply (IH t' []) in Hin | apply (IH (d :: t') []) in Hin];
          simpl; auto; lia.
      * apply (IH t []) in Hin; auto. lia.
    + apply IH; [lia|]. now constructor.
Qed.

Lemma stripped_lines_shape text :
  Forall ocr_line (Ocr.stripped_lines text).
Proof.
  apply List.Forall_forall. intros l Hin. unfold Ocr.stripped_lines in Hin.
  apply in_flat_map in Hin as (line & Hline & Hin).
  destruct (strip line) as [|c t] eqn:Hs; [destruct Hin|].
  destruct Hin as [<-|[]]. rewrite <- Hs. repeat split.
  - rewrite Hs. discriminate.
  - apply strip_by_idem.
  - apply Forall_strip_by.
    apply (splitlines_from_no_break (length text) text [] line); auto.
Qed.

(** X5. [ocr_image_texts] prints nothing; when it returns, every line is
    not empty, has no white space at either end and no line break
    inside; it returns whenever the provider answers without an error
    message, and raises, with the provider's message, whenever the
    answer carries one; an error of the call itself is passed on. *)
Theorem ocr_image_texts_lines (detect : outcome Ocr.VisionResponse) :
  (forall lines t,
     @Ocr.ocr_image_texts Ingest.event detect = (Normal lines, t) ->
     t = [] /\ Forall ocr_line lines
     /\ exists resp, detect = Returns resp /\ Ocr.error_message resp = [])
  /\ (forall resp,
        detect = Returns resp -> Ocr.error_message resp = [] ->
        exists lines, @Ocr.ocr_image_texts Ingest.event detect = (Normal lines, []))
  /\ (forall resp,
        detect = Returns resp -> Ocr.error_message resp <> [] ->
        @Ocr.ocr_image_texts Ingest.event detect
        = (Stop (Uncaught (RuntimeError
                             (Ocr.vision_error_text (Ocr.error_message resp)))), []))
  /\ (forall e,
        detect = Raises e ->
        @Ocr.ocr_image_texts Ingest.event detect = (Stop (Uncaught e), [])).
Proof.
  unfold Ocr.ocr_image_texts. split; [|split; [|split]].
  - intros lines t. destruct detect as [resp|e]; simpl; [|discriminate].
    destruct (Ocr.error_message resp) eqn:He; [|discriminate].
    destruct (Ocr.full_text resp) eqn:Hf.
    + destruct (Ocr.text_annotations resp) as [|description rest];
        simpl; intros Heq; injection Heq as <- <-;
        (split; [reflexivity | split; [|eauto]]);
        [constructor | apply stripped_lines_shape].
    + simpl. intros Heq. injection Heq as <- <-.
      split; [reflexivity | split; [apply stripped_lines_shape | eauto]].
  - intros resp -> He. simpl. rewrite He.
    destruct (Ocr.full_text resp); [destruct (Ocr.text_annotations resp)|];
      simpl; eauto.
  - intros resp -> He. simpl.
    destruct (Ocr.error_message resp); [contradiction | reflexivity].
  - intros e ->. reflexivity.
Qed.

(** ** The ingestion run: what its trace contains *)

(** An event of a loop is an event of the body on one element, and
    every event of the body on that element is in the loop's trace. *)
Lemma in_for_each {E A} (l : list A) (body : A -> M E unit) (e : E) :
  In e (snd (for_each l body)) ->
  exists x, In x l /\ In e (snd (body x))
            /\ forall e', In e' (snd (body x)) -> In e' (snd (for_each l body)).
Proof.
  induction l as [|x rest IH]; simpl; [intros []|].
  intros Hin. apply in_bind in Hin as [Hin|([] & Hn & Hin)].
  - exists x. repeat split; auto. intros e' He'. rewrite snd_bind.
    apply in_or_app. now left.
  - destruct (IH Hin) as (y & Hy & Hey & Hincl). exists y. repeat split; auto.
    intros e' He'. rewrite snd_bind, Hn. apply in_or_app. right. now apply Hincl.
Qed.

Lemma ocr_prints_nothing {E} detect : snd (@Ocr.ocr_image_texts E detect) = [].
Proof.
  unfold Ocr.ocr_image_texts. destruct detect as [resp|e]; [|reflexivity]. simpl.
  destruct (Ocr.error_message resp); [|reflexivity].
  destruct (Ocr.full_text resp); [|reflexivity].
  now destruct (Ocr.text_annotations resp).
Qed.

Lemma render_prints_nothing get_pixmap dpi crop :
  snd (Ingest.render_page_for_ocr get_pixmap dpi crop) = [].
Proof.
  unfold Ingest.render_page_for_ocr. rewrite snd_bind, snd_call.
  destruct (fst (call _)); [apply snd_call | reflexivity].
Qed.

Section TraceFacts.
Context `{PyRuntime}.
Import Ingest.

(** The events of a page: its upload and the line announcing it, then
    either the line for a page without identifiers or the insert and
    the line that reports it.  All of them come after the upload of
    the single page returned. *)
Lemma process_page_events c i pg e :
  In e (snd (process_page c (i, pg))) ->
  exists url,
    pg_single_upload pg = Returns url
    /\ In (Uploaded (single_storage_path (c_prefix c) (c_stem c) (i + 1))
             (content_type_of (single_local_name (c_stem c) (i + 1))) url)
          (snd (process_page c (i, pg)))
    /\ (e = Uploaded (single_storage_path (c_prefix c) (c_stem c) (i + 1))
              (content_type_of (single_local_name (c_stem c) (i + 1))) url
        \/ e = Stdout (LUploadedSingle (i + 1) url)
        \/ e = Stdout (LNoIds (i + 1))
        \/ exists lines vid vids err,
             @Ocr.ocr_image_texts event (pg_detect pg) = (Normal lines, [])
             /\ extract_ids_from_lines lines (regex (c_args c)) = vid :: vids
             /\ pg_insert pg = Returns err
             /\ (e = InsertReturned (table (c_args c))
                       (rows_of (vid :: vids) url (c_full_url c)) err
                 \/ (exists msg, err = Some msg /\ e = Stderr (LInsertError msg))
                 \/ (err = None
                     /\ e = Stdout (LInserted
                                      (length (rows_of (vid :: vids) url (c_full_url c)))
                                      (i + 1))))).
Proof.
  unfold process_page, upload_and_get_url.
  destruct (pg_split pg) as [[]|e0]; [|intros []].
  destruct (pg_single_upload pg) as [url|e0]; [|intros []].
  intros Hin. exists url. split; [reflexivity|].
  split.
  { rewrite snd_bind. cbn [call ret fst snd app]. rewrite snd_bind.
    apply in_or_app. left. now left. }
  pose proof (render_prints_nothing (pg_render pg) (dpi (c_args c)) (c_crop c))
    as Hrnil.
  destruct (render_page_for_ocr (pg_render pg) (dpi (c_args c)) (c_crop c))
    as [[[]|s] t]; simpl in Hrnil; subst t; simpl in Hin;
    [|destruct Hin as [<-|[<-|[]]]; auto].
  pose proof (ocr_prints_nothing (E := event) (pg_detect pg)) as Hnil.
  destruct (Ocr.ocr_image_texts (pg_detect pg)) as [[lines|s] t] eqn:Ho;
    simpl in Hnil; subst t; simpl in Hin;
    [|destruct Hin as [<-|[<-|[]]]; auto].
  destruct (extract_ids_from_lines lines (regex (c_args c))) as [|vid vids] eqn:Hx;
    simpl in Hin.
  { destruct Hin as [<-|[<-|[<-|[]]]]; auto. }
  destruct (pg_insert pg) as [err|e0] eqn:Hi; simpl in Hin;
    [|destruct Hin as [<-|[<-|[]]]; auto].
  destruct err as [msg|]; simpl in Hin;
    destruct Hin as [<-|[<-|[<-|[<-|[]]]]]; auto;
    do 3 right; exists lines, vid, vids; eauto 10.
Qed.

(** The events of a document: its announcement, its upload and the
    line for it, and the events of its pages. *)
Lemma process_document_events args crop d e :
  In e (snd (process_document args (prefix_of args) crop (lang_list_of args) d)) ->
  e = Stdout (LProcessing (doc_name d))
  \/ exists full_url,
       doc_full_upload d = Returns full_url
       /\ In (Uploaded (full_storage_path (prefix_of args) (doc_name d))
                (content_type_of (doc_name d)) full_url)
             (snd (process_document args (prefix_of args) crop (lang_list_of args) d))
       /\ (e = Uploaded (full_storage_path (prefix_of args) (doc_name d))
                 (content_type_of (doc_name d)) full_url
           \/ e = Stdout (LUploadedFull full_url)
           \/ exists pages i pg,
                doc_open d = Returns pages
                /\ nth_error pages i = Some pg
                /\ In e (snd (process_page (ctx_of args crop d full_url) (i, pg)))
                /\ forall e', In e' (snd (process_page (ctx_of args crop d full_url) (i, pg))) ->
                     In e' (snd (process_document args (prefix_of args) crop
                                   (lang_list_of args) d))).
Proof.
  destruct (doc_full_upload d) as [full_url|e0] eqn:Hu.
  2:{ rewrite (document_upload_raises _ _ _ _ Hu). intros [<-|[]]. now left. }
  assert (Hgen : forall k (pages : list PageScript) i pg,
            In (i, pg) (combine (seq k (length pages)) pages) ->
            nth_error pages (i - k) = Some pg /\ (k <= i)%nat).
  { intros k pages. revert k.
    induction pages as [|p ps IH]; intros k i pg; simpl; [intros []|].
    intros [Heq|Hin].
    - injection Heq as <- <-. now rewrite Nat.sub_diag.
    - destruct (IH _ _ _ Hin) as [Hn Hk].
      replace (i - k)%nat with (S (i - S k)) by lia. split; [exact Hn | lia]. }
  destruct (doc_open d) as [pages|e0] eqn:Ho.
  - rewrite (document_pages _ _ _ _ _ Hu Ho). cbn [snd]. unfold doc_head.
    intros Hin. apply in_app_or in Hin as [Hin|Hin].
    + destruct Hin as [<-|[<-|[<-|[]]]]; [now left|right..];
        exists full_url; (split; [reflexivity|]);
        (split; [apply in_or_app; left; right; now left|]); auto.
    + right. exists full_url. split; [reflexivity|].
      split; [apply in_or_app; left; right; now left|].
      unfold pages_loop in Hin.
      apply in_for_each in Hin as ([i pg] & Hip & He & Hincl).
      do 2 right. exists pages, i, pg.
      destruct (Hgen _ _ _ _ Hip) as [Hn _]. rewrite Nat.sub_0_r in Hn.
      repeat split; auto.
      intros e' He'. apply in_or_app. right. now apply Hincl.
  - assert (Hdoc : process_document args (prefix_of args) crop (lang_list_of args) d
                   = (Stop (Uncaught e0), doc_head args d full_url)).
    { unfold process_document, upload_and_get_url. now rewrite Hu, Ho. }
    rewrite Hdoc. cbn [snd]. unfold doc_head.
    intros [<-|[<-|[<-|[]]]]; [now left|right..];
      exists full_url; (split; [reflexivity|]);
      (split; [right; now left|]); auto.
Qed.
End TraceFacts.

Section RunTrace.
Context `{PyRuntime}.
Import Ingest.

(** [supabase_client_from_env] either finds the three values and
    creates the client, or prints the names of the missing ones and
    exits with code 1. *)
Lemma supabase_client_cases env :
  (SUPABASE_URL env <> [] /\ SUPABASE_ANON_KEY env <> [] /\ SUPABASE_BUCKET env <> []
   /\ supabase_client_from_env env = call (create_client env))
  \/ ((SUPABASE_URL env = [] \/ SUPABASE_ANON_KEY env = [] \/ SUPABASE_BUCKET env = [])
      /\ exists names,
           supabase_client_from_env env
           = (Stop (SysExit 1), [Stderr (LMissingEnv names)])
           /\ (In (py "SUPABASE_URL") names <-> SUPABASE_URL env = [])
           /\ (In (py "SUPABASE_ANON_KEY") names <-> SUPABASE_ANON_KEY env = [])
           /\ (In (py "SUPABASE_BUCKET") names <-> SUPABASE_BUCKET env = [])).
Proof.
  unfold supabase_client_from_env. cbn [flat_map fst snd app].
  destruct (SUPABASE_URL env) as [|u us], (SUPABASE_ANON_KEY env) as [|k ks],
    (SUPABASE_BUCKET env) as [|b bs]; cbn [app];
    try (left; repeat split; (discriminate || reflexivity));
    right; (split; [tauto|]); eexists; (split; [reflexivity|]);
    repeat split; intros Hx; try reflexivity; try discriminate Hx;
    try (vm_compute; tauto);
    vm_compute in Hx; repeat destruct Hx as [Hx|Hx]; try discriminate Hx;
    destruct Hx.
Qed.

(** The ways a run can go before its first document, once the
    command line is accepted. *)
Lemma main_not_started args env :
  (folder_is_dir env = false
   /\ main (Accepted args) env
      = (Stop (SysExit 1), [Stderr (LFolderNotFound (pdf_folder args))]))
  \/ (folder_is_dir env = true
      /\ (SUPABASE_URL env = [] \/ SUPABASE_ANON_KEY env = [] \/ SUPABASE_BUCKET env = [])
      /\ exists names,
           main (Accepted args) env = (Stop (SysExit 1), [Stderr (LMissingEnv names)]))
  \/ (folder_is_dir env = true
      /\ SUPABASE_URL env <> [] /\ SUPABASE_ANON_KEY env <> [] /\ SUPABASE_BUCKET env <> []
      /\ exists e, create_client env = Raises e
                   /\ main (Accepted args) env = (Stop (Uncaught e), []))
  \/ (folder_is_dir env = true
      /\ SUPABASE_URL env <> [] /\ SUPABASE_ANON_KEY env <> [] /\ SUPABASE_BUCKET env <> []
      /\ create_client env = Returns tt
      /\ exists e, convert_crop_units (ocr_crop args) (units args) (dpi args) = Raises e
                   /\ main (Accepted args) env = (Stop (Uncaught e), []))
  \/ (exists crop, started args env crop /\ pdf_files env = []
                   /\ main (Accepted args) env = (Stop (SysExit 1), [Stderr LNoPdfs]))
  \/ (exists crop, started args env crop /\ pdf_files env <> []).
Proof.
  unfold main, parse_args. rewrite bind_ret_l.
  destruct (folder_is_dir env) eqn:Hdir.
  2:{ left. split; reflexivity. }
  right.
  destruct (supabase_client_cases env) as [(Hu & Hk & Hb & Hc)|(Hm & names & Hc & _)].
  2:{ left. split; [reflexivity|]. split; [exact Hm|]. exists names.
      now rewrite Hc. }
  right. rewrite Hc.
  destruct (create_client env) as [[]|e] eqn:Hcc.
  2:{ left. repeat split; auto. exists e. split; reflexivity. }
  right.
  destruct (convert_crop_units (ocr_crop args) (units args) (dpi args))
    as [crop|e] eqn:Hcv.
  2:{ left. repeat split; auto. exists e. split; reflexivity. }
  right.
  assert (Hs : started args env crop) by (repeat split; auto).
  destruct (pdf_files env) as [|d ds] eqn:Hf.
  - left. exists crop. repeat split; auto.
  - right. exists crop. split; [exact Hs | discriminate].
Qed.

(** No page and no document prints the closing line. *)
Lemma docs_loop_no_done args crop docs :
  ~ In (Stdout LDone) (snd (docs_loop args crop docs)).
Proof.
  intros Hin. unfold docs_loop in Hin.
  apply in_for_each in Hin as (d & _ & Hin & _).
  apply process_document_events in Hin
    as [Hin|(full_url & _ & _ & [Hin|[Hin|(pages & i & pg & _ & _ & Hin & _)]])];
    try discriminate Hin.
  apply process_page_events in Hin
    as (url & _ & _ & [Hin|[Hin|[Hin|(l & v & vs & err & _ & _ & _ & Hin)]]]);
    try discriminate Hin.
  destruct Hin as [Hin|[(msg & _ & Hin)|[_ Hin]]]; discriminate Hin.
Qed.

(** The events of a run: lines on the error output, the closing line,
    or the events of one of its documents. *)
Lemma main_events args env e :
  In e (snd (main (Accepted args) env)) ->
  (exists l, e = Stderr l)
  \/ e = Stdout LDone
  \/ exists crop d,
       started args env crop /\ In d (pdf_files env)
       /\ In e (snd (process_document args (prefix_of args) crop (lang_list_of args) d))
       /\ forall e',
            In e' (snd (process_document args (prefix_of args) crop
                          (lang_list_of args) d)) ->
            In e' (snd (main (Accepted args) env)).
Proof.
  destruct (main_not_started args env)
    as [(_ & ->)|[(_ & _ & names & ->)|[(_ & _ & _ & _ & e0 & _ & ->)
       |[(_ & _ & _ & _ & _ & e0 & _ & ->)
       |[(crop & _ & _ & ->)|(crop & Hs & Hne)]]]]];
    try (intros [<-|[]]; left; eauto); try (intros []).
  rewrite (main_started _ _ _ Hs Hne). intros Hin.
  apply in_bind in Hin as [Hin|([] & _ & Hin)].
  - do 2 right. unfold docs_loop in Hin.
    apply in_for_each in Hin as (d & Hd & Hin & Hincl).
    exists crop, d. split; [exact Hs|]. split; [exact Hd|]. split; [exact Hin|].
    intros e' He'. rewrite snd_bind. apply in_or_app. left. now apply Hincl.
  - destruct Hin as [<-|[]]. now right; left.
Qed.
End RunTrace.

(** X6. The run fails fast: when the folder is missing, one of the
    three environment values is not set, the client cannot be
    created, the crop rectangle is refused or the folder holds no PDF,
    the exit code is 1 and the run has printed on the error output at
    most; no upload and no insert was made, and the closing line is
    not printed. *)
Theorem main_fails_fast `{PyRuntime} (args : Ingest.Args) (env : Ingest.Env) :
  Ingest.folder_is_dir env = false
  \/ Ingest.SUPABASE_URL env = [] \/ Ingest.SUPABASE_ANON_KEY env = []
  \/ Ingest.SUPABASE_BUCKET env = []
  \/ (exists e, Ingest.create_client env = Raises e)
  \/ (exists e, Ingest.convert_crop_units (Ingest.ocr_crop args) (Ingest.units args)
                  (Ingest.dpi args) = Raises e)
  \/ Ingest.pdf_files env = [] ->
  exit_code (Ingest.main (Accepted args) env) = 1%Z
  /\ Forall (fun e => (exists l, e = Ingest.Stderr l) /\ ~ service_event e)
            (snd (Ingest.main (Accepted args) env)).
Proof.
  intros Hbad.
  destruct (main_not_started args env)
    as [(_ & ->)|[(_ & _ & names & ->)|[(_ & _ & _ & _ & e0 & _ & ->)
       |[(_ & _ & _ & _ & _ & e0 & _ & ->)
       |[(crop & _ & _ & ->)|(crop & (Hd & Hu & Hk & Hb & Hcc & Hc) & Hne)]]]]].
  - split; [reflexivity|]. repeat constructor; eauto.
  - split; [reflexivity|]. repeat constructor; eauto.
  - split; [reflexivity|]. constructor.
  - split; [reflexivity|]. constructor.
  - split; [reflexivity|]. repeat constructor; eauto.
  - exfalso. destruct Hbad as [Hx|[Hx|[Hx|[Hx|[[e Hx]|[[e Hx]|Hx]]]]]]; congruence.
Qed.

Lemma main_fails_fast_witness :
  exit_code (@Ingest.main AsciiRuntime.runtime (Accepted usage_args) (env_with [])) = 1%Z
  /\ Forall (fun e => (exists l, e = Ingest.Stderr l) /\ ~ service_event e)
            (snd (@Ingest.main AsciiRuntime.runtime (Accepted usage_args) (env_with []))).
Proof.
  apply (@main_fails_fast AsciiRuntime.runtime usage_args (env_with [])).
  do 6 right. reflexivity.
Defined.

Section StopFacts.
Context `{PyRuntime}.
Import Ingest.

Lemma for_each_stop_kind {E A} (P : stop -> Prop) (l : list A) (body : A -> M E unit) s :
  (forall x s', fst (body x) = Stop s' -> P s') ->
  fst (for_each l body) = Stop s -> P s.
Proof.
  intros Hbody. induction l as [|x rest IH]; simpl; [discriminate|].
  rewrite fst_bind. destruct (fst (body x)) as [[]|s'] eqn:Hx; [exact IH|].
  intros Heq. injection Heq as <-. now apply (Hbody x).
Qed.

(** The elements of a loop that returned all ran and returned. *)
Lemma for_each_normal {E A} (l : list A) (body : A -> M E unit) x :
  fst (for_each l body) = Normal tt -> In x l ->
  fst (body x) = Normal tt
  /\ forall e, In e (snd (body x)) -> In e (snd (for_each l body)).
Proof.
  induction l as [|y rest IH]; simpl; [intros _ []|].
  rewrite fst_bind, snd_bind. destruct (fst (body y)) as [[]|s] eqn:Hy; [|discriminate].
  intros Hn [<-|Hin].
  - split; [exact Hy|]. intros e He. apply in_or_app. now left.
  - destruct (IH Hn Hin) as [Hx Hincl]. split; [exact Hx|].
    intros e He. apply in_or_app. right. now apply Hincl.
Qed.

Lemma only_raises_ret {E A} (a : A) : only_raises (@ret E A a).
Proof. intros s Hs. discriminate Hs. Qed.

Lemma only_raises_emit {E} (e : E) : only_raises (emit e).
Proof. intros s Hs. discriminate Hs. Qed.

Lemma only_raises_raise {E A} (e : exn) : only_raises (@raise E A e).
Proof. intros s Hs. injection Hs as <-. eauto. Qed.

Lemma only_raises_call {E A} (o : outcome A) : only_raises (@call E A o).
Proof. destruct o; [apply only_raises_ret | apply only_raises_raise]. Qed.

Lemma only_raises_bind {E A B} (m : M E A) (k : A -> M E B) :
  only_raises m -> (forall a, only_raises (k a)) -> only_raises (bind m k).
Proof.
  intros Hm Hk s. rewrite fst_bind. destruct (fst m) as [a|s'] eqn:Hf.
  - apply Hk.
  - intros Heq. injection Heq as <-. now apply Hm.
Qed.

Ltac only_raises :=
  repeat first
    [ apply only_raises_ret | apply only_raises_emit | apply only_raises_call
    | apply only_raises_raise
    | apply only_raises_bind; [|intros ?]
    | match goal with
      | |- only_raises (match ?x with _ => _ end) => destruct x
      end ].

(** A page or a document stops only on an exception. *)
Lemma process_page_stop c ip s :
  fst (process_page c ip) = Stop s -> exists e, s = Uncaught e.
Proof.
  revert s. change (only_raises (process_page c ip)). destruct ip as [i pg].
  unfold process_page, upload_and_get_url, Ocr.ocr_image_texts.
  only_raises.
Qed.

Lemma process_document_stop args crop d s :
  fst (process_document args (prefix_of args) crop (lang_list_of args) d) = Stop s ->
  exists e, s = Uncaught e.
Proof.
  destruct (doc_full_upload d) as [full_url|e0] eqn:Hu.
  2:{ rewrite (document_upload_raises _ _ _ _ Hu). intros Heq. injection Heq as <-. eauto. }
  destruct (doc_open d) as [pages|e0] eqn:Ho.
  - rewrite (document_pages _ _ _ _ _ Hu Ho). cbn [fst]. unfold pages_loop.
    apply (for_each_stop_kind (fun s => exists e, s = Uncaught e)).
    intros ip s'. apply process_page_stop.
  - unfold process_document, upload_and_get_url. rewrite Hu, Ho. simpl.
    intros Heq. injection Heq as <-. eauto.
Qed.

(** A document that returned was uploaded and opened, after being
    announced. *)
Lemma process_document_normal args crop d :
  fst (process_document args (prefix_of args) crop (lang_list_of args) d) = Normal tt ->
  In (Stdout (LProcessing (doc_name d)))
     (snd (process_document args (prefix_of args) crop (lang_list_of args) d))
  /\ exists full_url pages,
       doc_full_upload d = Returns full_url /\ doc_open d = Returns pages.
Proof.
  destruct (doc_full_upload d) as [full_url|e0] eqn:Hu.
  2:{ now rewrite (document_upload_raises _ _ _ _ Hu). }
  destruct (doc_open d) as [pages|e0] eqn:Ho.
  - rewrite (document_pages _ _ _ _ _ Hu Ho). intros _. split; [now left | eauto].
  - unfold process_document, upload_and_get_url. now rewrite Hu, Ho.
Qed.
End StopFacts.

(** A run whose command line is accepted ends with code 1 without
    the closing line, or with code 0 after it, every PDF of the
    folder having been announced, uploaded whole and opened. *)
Lemma accepted_run_ends `{PyRuntime} (args : Ingest.Args) (env : Ingest.Env) :
  (exit_code (Ingest.main (Accepted args) env) = 1%Z
   /\ ~ In (Ingest.Stdout Ingest.LDone) (snd (Ingest.main (Accepted args) env)))
  \/ (exit_code (Ingest.main (Accepted args) env) = 0%Z
      /\ In (Ingest.Stdout Ingest.LDone) (snd (Ingest.main (Accepted args) env))
      /\ Ingest.pdf_files env <> []
      /\ forall d, In d (Ingest.pdf_files env) ->
           In (Ingest.Stdout (Ingest.LProcessing (Ingest.doc_name d)))
              (snd (Ingest.main (Accepted args) env))
           /\ exists full_url pages,
                Ingest.doc_full_upload d = Returns full_url
                /\ Ingest.doc_open d = Returns pages).
Proof.
  destruct (main_not_started args env)
    as [(_ & ->)|[(_ & _ & names & ->)|[(_ & _ & _ & _ & e0 & _ & ->)
       |[(_ & _ & _ & _ & _ & e0 & _ & ->)
       |[(crop & _ & _ & ->)|(crop & Hs & Hne)]]]]];
    try (left; split; [reflexivity|];
         simpl; intros Hin; repeat destruct Hin as [Hin|Hin]; try discriminate Hin;
         destruct Hin).
  rewrite (main_started _ _ _ Hs Hne).
  destruct (docs_loop args crop (Ingest.pdf_files env)) as [[[]|s] t] eqn:Hloop.
  - right. simpl. split; [reflexivity|].
    split; [apply in_or_app; right; now left|]. split; [exact Hne|].
    intros d Hd.
    assert (Hn : fst (docs_loop args crop (Ingest.pdf_files env)) = Normal tt)
      by now rewrite Hloop.
    destruct (for_each_normal _ _ d Hn Hd) as [Hdn Hincl].
    destruct (process_document_normal _ _ _ Hdn) as [Hp Hret].
    split; [|exact Hret].
    apply in_or_app. left. apply Hincl in Hp. unfold docs_loop in Hloop.
    now rewrite Hloop in Hp.
  - assert (Hstop : exists e, s = Uncaught e).
    { apply (for_each_stop_kind (fun s => exists e, s = Uncaught e)
               (Ingest.pdf_files env)
               (Ingest.process_document args (Ingest.prefix_of args) crop
                  (Ingest.lang_list_of args))).
      - intros d s'. apply process_document_stop.
      - unfold docs_loop in Hloop. now rewrite Hloop. }
    destruct Hstop as [e ->]. left. simpl. split; [reflexivity|].
    intros Hin. apply (docs_loop_no_done args crop (Ingest.pdf_files env)).
    now rewrite Hloop.
Qed.

(** X7. How a run ends, by its exit code, which is 0, 1 or 2: it is 2
    exactly when the command line is refused, and 0 exactly when help
    was asked for or the closing line [Done.] is printed.  When the
    closing line is printed, the command line was accepted and every
    PDF of the folder was announced, uploaded whole and opened. *)
Theorem run_completes_iff_done `{PyRuntime}
    (cl : cmdline Ingest.Args) (env : Ingest.Env) :
  (exit_code (Ingest.main cl env) = 0%Z \/ exit_code (Ingest.main cl env) = 1%Z
   \/ exit_code (Ingest.main cl env) = 2%Z)
  /\ (exit_code (Ingest.main cl env) = 2%Z <-> exists message, cl = Refused message)
  /\ (exit_code (Ingest.main cl env) = 0%Z
      <-> cl = HelpRequested
          \/ In (Ingest.Stdout Ingest.LDone) (snd (Ingest.main cl env)))
  /\ (In (Ingest.Stdout Ingest.LDone) (snd (Ingest.main cl env)) ->
      exists args,
        cl = Accepted args
        /\ Ingest.pdf_files env <> []
        /\ forall d, In d (Ingest.pdf_files env) ->
             In (Ingest.Stdout (Ingest.LProcessing (Ingest.doc_name d)))
                (snd (Ingest.main cl env))
             /\ exists full_url pages,
                  Ingest.doc_full_upload d = Returns full_url
                  /\ Ingest.doc_open d = Returns pages).
Proof.
  destruct cl as [args| |message].
  - destruct (accepted_run_ends args env) as [[Hc Hnd]|(Hc & Hd & Hne & Hall)];
      rewrite Hc.
    + split; [auto|]. split; [split; [discriminate | intros [m Hm]; discriminate Hm]|].
      split; [split; [discriminate | intros [Hh|Hin]; [discriminate Hh | contradiction]]|].
      intros Hin. contradiction.
    + split; [auto|]. split; [split; [discriminate | intros [m Hm]; discriminate Hm]|].
      split; [split; [auto | reflexivity]|].
      intros _. exists args. auto.
  - assert (Hm : Ingest.main HelpRequested env
                 = (Stop (SysExit 0), [Ingest.Stdout Ingest.LHelp])) by reflexivity.
    rewrite Hm. simpl. split; [auto|].
    split; [split; [discriminate | intros [m Hx]; discriminate Hx]|].
    split; [split; [auto | reflexivity]|].
    intros [Hx|[]]. discriminate Hx.
  - assert (Hm : Ingest.main (Refused message) env
                 = (Stop (SysExit 2), [Ingest.Stderr (Ingest.LUsage message)]))
      by reflexivity.
    rewrite Hm. simpl. split; [auto|].
    split; [split; [eauto | reflexivity]|].
    split; [split; [discriminate | intros [Hx|[Hx|[]]]; discriminate Hx]|].
    intros [Hx|[]]. discriminate Hx.
Qed.

Lemma rows_of_ids ids single_url full_url :
  map Ingest.voter_id (Ingest.rows_of ids single_url full_url) = ids.
Proof. induction ids as [|v l IH]; simpl; [reflexivity|]. now rewrite IH. Qed.

Lemma rows_of_links ids single_url full_url :
  Forall (fun r => Ingest.single_page_pdf_link r = single_url
                   /\ Ingest.full_pdf_link r = full_url)
         (Ingest.rows_of ids single_url full_url).
Proof. induction ids as [|v l IH]; simpl; constructor; auto. Qed.

(** X8. Every batch of rows a run inserts goes to the table of the
    command line and is not empty; its identifiers are distinct,
    not empty, without separator and trimmed; and all its rows carry
    one single-page link and one full-document link, each the URL of
    an upload made in the same run. *)
Theorem inserted_rows_link_uploads `{PyRuntime}
    (args : Ingest.Args) (env : Ingest.Env)
    (tbl : str) (rows : list Ingest.Row) (err : option str) :
  In (Ingest.InsertReturned tbl rows err) (snd (Ingest.main (Accepted args) env)) ->
  tbl = Ingest.table args
  /\ rows <> []
  /\ List.NoDup (map Ingest.voter_id rows)
  /\ Forall (fun r => cleaned_id (Ingest.voter_id r)) rows
  /\ exists single_url full_url,
       Forall (fun r => Ingest.single_page_pdf_link r = single_url
                        /\ Ingest.full_pdf_link r = full_url) rows
       /\ (exists p ct, In (Ingest.Uploaded p ct single_url) (snd (Ingest.main (Accepted args) env)))
       /\ (exists p ct, In (Ingest.Uploaded p ct full_url) (snd (Ingest.main (Accepted args) env))).
Proof.
  intros Hin.
  apply main_events in Hin as [[l Hl]|[Hl|(crop & d & _ & _ & Hin & Hmain)]];
    try discriminate Hl.
  apply process_document_events in Hin
    as [Hl|(full_url & _ & Hfull & [Hl|[Hl|(pages & i & pg & _ & _ & Hin & Hdoc)]])];
    try discriminate Hl.
  apply process_page_events in Hin
    as (url & _ & Hsingle & [Hl|[Hl|[Hl|(lines & vid & vids & err' & _ & Hx & _ & Hl)]]]);
    try discriminate Hl.
  destruct Hl as [Hl|[(msg & _ & Hl)|[_ Hl]]]; try discriminate Hl.
  injection Hl as -> -> ->. unfold ctx_of in *.
  cbn [Ingest.c_args Ingest.c_full_url] in *.
  split; [reflexivity|]. split; [discriminate|].
  change ({| Ingest.voter_id := vid; Ingest.single_page_pdf_link := url;
             Ingest.full_pdf_link := full_url |}
          :: Ingest.rows_of vids url full_url)
    with (Ingest.rows_of (vid :: vids) url full_url).
  rewrite rows_of_ids, <- Hx. split.
  { rewrite extract_ids_unfold. apply first_occurrences_NoDup. }
  split.
  { apply List.Forall_forall. intros r Hr.
    apply (in_map Ingest.voter_id) in Hr. rewrite rows_of_ids in Hr.
    rewrite extract_ids_unfold, first_occurrences_In in Hr.
    apply collect_ids_In in Hr as (Hne & ln & m & _ & _ & Heq).
    rewrite Heq in *. now apply clean_voter_id_shape. }
  exists url, full_url. split; [apply rows_of_links|]. split.
  - do 2 eexists. apply Hmain, Hdoc, Hsingle.
  - do 2 eexists. apply Hmain, Hfull.
Qed.

Lemma inserted_rows_link_uploads_witness :
  List.NoDup (map Ingest.voter_id
                (Ingest.rows_of [py "WB241"] (py "u/1") (py "u/roll"))).
Proof.
  refine (proj1 (proj2 (proj2
    (@inserted_rows_link_uploads AsciiRuntime.runtime usage_args
       (env_with [three_pages]) (py "2002_voter_details")
       (Ingest.rows_of [py "WB241"] (py "u/1") (py "u/roll")) None _)))).
  vm_compute. do 5 right. left. reflexivity.
Defined.

(** ** Names and storage paths *)

Lemma rfind_dot_none t : ~ In dot t -> PyPath.rfind_dot t = None.
Proof.
  induction t as [|c t IH]; simpl; [reflexivity|]. intros Hn.
  rewrite IH by tauto. destruct (N.eqb_spec c dot) as [->|_]; [|reflexivity].
  exfalso. apply Hn. now left.
Qed.

Lemma rfind_dot_app s t :
  ~ In dot t -> PyPath.rfind_dot (s ++ dot :: t) = Some (length s).
Proof.
  intros Hn. induction s as [|c s IH]; simpl.
  - now rewrite (rfind_dot_none t Hn).
  - now rewrite IH.
Qed.

(** A name made of a non-empty stem, a dot and a non-empty extension
    without dot splits back into the two. *)
Lemma suffix_stem_app s t :
  s <> [] -> t <> [] -> ~ In dot t ->
  PyPath.suffix (s ++ dot :: t) = dot :: t /\ PyPath.stem (s ++ dot :: t) = s.
Proof.
  intros Hs Ht Hn. unfold PyPath.suffix, PyPath.stem, PyPath.splits_at.
  rewrite (rfind_dot_app s t Hn), length_app. simpl length.
  replace ((0 <? length s)%nat) with true
    by (symmetry; apply Nat.ltb_lt; destruct s; [contradiction | simpl; lia]).
  replace ((length s <? length s + S (length t) - 1)%nat) with true
    by (symmetry; apply Nat.ltb_lt; destruct t; [contradiction | simpl; lia]).
  simpl. now rewrite drop_app_length, take_app_length.
Qed.

Lemma stem_suffix name : PyPath.stem name ++ PyPath.suffix name = name.
Proof.
  unfold PyPath.stem, PyPath.suffix.
  destruct (PyPath.splits_at name); [apply take_drop | apply app_nil_r].
Qed.

Lemma stem_nonempty name : name <> [] -> PyPath.stem name <> [].
Proof.
  unfold PyPath.stem, PyPath.splits_at. intros Hne.
  destruct (PyPath.rfind_dot name) as [i|]; [|exact Hne].
  destruct ((0 <? i)%nat && (i <? length name - 1)%nat) eqn:Hi; [|exact Hne].
  apply andb_true_iff in Hi as [Hi _]. apply Nat.ltb_lt in Hi.
  destruct name; [contradiction|]. destruct i; [lia | discriminate].
Qed.

Lemma pdf_content_type `{PyRuntime} name :
  lower (PyPath.suffix name) = py ".pdf" ->
  Ingest.content_type_of name = py "application/pdf".
Proof. intros Hs. unfold Ingest.content_type_of. now rewrite decide_True. Qed.

Lemma single_local_name_suffix stem n :
  PyPath.suffix (Ingest.single_local_name stem n) = py ".pdf".
Proof.
  unfold Ingest.single_local_name. rewrite !app_assoc.
  change (py ".pdf") with (dot :: py "pdf").
  apply suffix_stem_app.
  - rewrite <- !app_assoc. intros Heq.
    apply (f_equal (@length N)) in Heq. rewrite !length_app in Heq.
    simpl in Heq. lia.
  - discriminate.
  - vm_compute. intros [Hx|[Hx|[Hx|[]]]]; discriminate Hx.
Qed.

(** The decimal digits written by the page-number format, read back. *)
Lemma digits_from_value fuel : forall n acc,
  n < 2 ^ N.of_nat fuel ->
  exists k, forall a,
    AsciiRuntime.digits_value (digits_from fuel n acc) a
    = AsciiRuntime.digits_value acc (a * 10 ^ k + n).
Proof.
  induction fuel as [|f IH]; intros n acc Hn.
  - exists 0. intros a. simpl in *. f_equal. lia.
  - cbn [digits_from].
    assert (Hr : n mod 10 < 10) by (apply N.mod_lt; discriminate).
    pose proof (N.Div0.div_mod n 10) as Hqr.
    revert Hr Hqr IH. generalize (n mod 10) as r, (n / 10) as q. intros r q Hr Hqr IH.
    assert (Hd : is_09 (48 + r) = true).
    { unfold is_09. apply andb_true_iff. rewrite !N.leb_le. lia. }
    assert (Hstep : forall a,
              AsciiRuntime.digits_value ((48 + r) :: acc) a
              = AsciiRuntime.digits_value acc (10 * a + r)).
    { intros a. simpl. rewrite Hd. f_equal. lia. }
    destruct (N.eqb_spec q 0) as [Hz|Hz].
    + exists 1. intros a. rewrite Hstep. f_equal. rewrite N.pow_1_r. lia.
    + destruct (IH q ((48 + r) :: acc)) as [k Hk].
      { rewrite Nat2N.inj_succ, N.pow_succ_r' in Hn. lia. }
      exists (N.succ k). intros a. rewrite Hk, Hstep. f_equal.
      rewrite N.pow_succ_r'. lia.
Qed.

Lemma format_04d_value n :
  AsciiRuntime.digits_value (format_04d n) 0 = Some (N.of_nat n).
Proof.
  unfold format_04d.
  set (d := digits_from _ _ _).
  assert (Hz : forall j, AsciiRuntime.digits_value (repeat 48 j ++ d) 0
                         = AsciiRuntime.digits_value d 0).
  { induction j as [|j IH]; [reflexivity|]. simpl. exact IH. }
  rewrite Hz. subst d.
  destruct (digits_from_value (S (N.to_nat (N.log2 (N.of_nat n)))) (N.of_nat n) [])
    as [k Hk].
  - rewrite Nat2N.inj_succ, N2Nat.id.
    destruct (N.eq_dec (N.of_nat n) 0) as [->|Hnz]; [reflexivity|].
    apply N.log2_spec. lia.
  - rewrite Hk. simpl. f_equal.
Qed.

(** X9. The page number is read back from the four-digit field of a
    page file name, which has four characters at least; so two pages
    of a document never share a file name or a storage path. *)
Theorem page_paths_distinct (prefix stem : str) (n m : nat) :
  n <> m ->
  Ingest.single_local_name stem n <> Ingest.single_local_name stem m
  /\ Ingest.single_storage_path prefix stem n <> Ingest.single_storage_path prefix stem m
  /\ AsciiRuntime.digits_value (format_04d n) 0 = Some (N.of_nat n)
  /\ (4 <= length (format_04d n))%nat.
Proof.
  intros Hnm.
  assert (Hname : Ingest.single_local_name stem n <> Ingest.single_local_name stem m).
  { unfold Ingest.single_local_name. intros Heq.
    do 2 apply app_inv_head in Heq. apply app_inv_tail in Heq.
    pose proof (format_04d_value n) as Hn. rewrite Heq, format_04d_value in Hn.
    injection Hn as Hn. apply Hnm. lia. }
  split; [exact Hname|]. split; [|split; [apply format_04d_value|]].
  - unfold Ingest.single_storage_path. intros Heq.
    do 4 apply app_inv_head in Heq. contradiction.
  - unfold format_04d. rewrite length_app, repeat_length. lia.
Qed.

Lemma page_paths_distinct_witness :
  Ingest.single_local_name (py "roll") 1 <> Ingest.single_local_name (py "roll") 2
  /\ Ingest.single_storage_path (py "voters") (py "roll") 1
     <> Ingest.single_storage_path (py "voters") (py "roll") 2
  /\ AsciiRuntime.digits_value (format_04d 1) 0 = Some (N.of_nat 1)
  /\ (4 <= length (format_04d 1))%nat.
Proof.
  apply (page_paths_distinct (py "voters") (py "roll") 1 2). discriminate.
Defined.

(** ** The documents of a run *)

Lemma str_leb_total a : forall b,
  Ingest.str_leb a b = false -> Ingest.str_leb b a = true.
Proof.
  induction a as [|x a IH]; intros [|y b]; simpl; try discriminate; [reflexivity|].
  destruct (N.ltb_spec x y) as [Hxy|Hxy]; [discriminate|].
  destruct (N.ltb_spec y x) as [Hyx|Hyx]; [reflexivity|]. apply IH.
Qed.

Lemma insert_by_name_perm d l : Permutation (Ingest.insert_by_name d l) (d :: l).
Proof.
  induction l as [|e l IH]; simpl; [reflexivity|].
  destruct (Ingest.str_leb _ _); [reflexivity|].
  rewrite IH. apply perm_swap.
Qed.

Lemma insert_by_name_sorted d l :
  Sorted.Sorted name_le l -> Sorted.Sorted name_le (Ingest.insert_by_name d l).
Proof.
  induction 1 as [|e l Hl IH Hhd]; simpl.
  - repeat constructor.
  - destruct (Ingest.str_leb (Ingest.doc_name d) (Ingest.doc_name e)) eqn:Hde.
    + constructor; [now constructor | now constructor].
    + constructor; [exact IH|].
      destruct l as [|f l]; simpl.
      * constructor. now apply str_leb_total.
      * destruct (Ingest.str_leb (Ingest.doc_name d) (Ingest.doc_name f)).
        -- constructor. now apply str_leb_total.
        -- constructor. now inversion Hhd.
Qed.

Lemma sorted_by_name_perm l : Permutation (Ingest.sorted_by_name l) l.
Proof.
  induction l as [|d l IH]; simpl; [reflexivity|].
  now rewrite insert_by_name_perm, IH.
Qed.

Lemma pdf_files_In `{PyRuntime} env d :
  In d (Ingest.pdf_files env)
  <-> In d (Ingest.listing env) /\ lower (PyPath.suffix (Ingest.doc_name d)) = py ".pdf".
Proof.
  unfold Ingest.pdf_files.
  rewrite <- !list_elem_of_In, (sorted_by_name_perm _), !list_elem_of_In, filter_In.
  now rewrite bool_decide_eq_true.
Qed.

(** X10. The documents of a run are the entries of the folder whose
    extension is [.pdf] in any letter case, each once per entry, in
    ascending order of their names. *)
Theorem pdf_files_sorted `{PyRuntime} (env : Ingest.Env) :
  Sorted.Sorted name_le (Ingest.pdf_files env)
  /\ Permutation (Ingest.pdf_files env)
       (List.filter (fun d => bool_decide (lower (PyPath.suffix (Ingest.doc_name d))
                                           = py ".pdf"))
                    (Ingest.listing env))
  /\ forall d, In d (Ingest.pdf_files env)
               <-> In d (Ingest.listing env)
                   /\ lower (PyPath.suffix (Ingest.doc_name d)) = py ".pdf".
Proof.
  split; [|split; [apply sorted_by_name_perm | apply pdf_files_In]].
  unfold Ingest.pdf_files, Ingest.sorted_by_name.
  induction (List.filter _ _) as [|d l IH]; simpl; [constructor|].
  now apply insert_by_name_sorted.
Qed.

(** X11. Every object a run uploads is declared [application/pdf]. *)
Theorem uploads_are_pdf `{PyRuntime} (args : Ingest.Args) (env : Ingest.Env)
    (path ct url : str) :
  In (Ingest.Uploaded path ct url) (snd (Ingest.main (Accepted args) env)) ->
  ct = py "application/pdf".
Proof.
  intros Hin.
  apply main_events in Hin as [[l Hl]|[Hl|(crop & d & _ & Hd & Hin & _)]];
    try discriminate Hl.
  apply pdf_files_In in Hd as [_ Hd].
  apply process_document_events in Hin
    as [Hl|(full_url & _ & _ & [Hl|[Hl|(pages & i & pg & _ & _ & Hin & _)]])];
    try discriminate Hl.
  - injection Hl as _ -> _. now apply pdf_content_type.
  - apply process_page_events in Hin
      as (u & _ & _ & [Hl|[Hl|[Hl|(lines & vid & vids & err' & _ & _ & _ & Hl)]]]);
      try discriminate Hl.
    + injection Hl as _ -> _. apply pdf_content_type.
      now rewrite single_local_name_suffix.
    + destruct Hl as [Hl|[(msg & _ & Hl)|[_ Hl]]]; discriminate Hl.
Qed.

Lemma uploads_are_pdf_witness : py "application/pdf" = py "application/pdf".
Proof.
  refine (@uploads_are_pdf AsciiRuntime.runtime usage_args (env_with [three_pages])
            (py "voters_2002/roll/roll.pdf") (py "application/pdf") (py "u/roll") _).
  vm_compute. right. left. reflexivity.
Defined.

(** X12. [ensure_pdf_suffix] refuses the empty name only; otherwise it
    returns a name whose extension is [.pdf] in some letter case, the
    given name itself when it has one already, and the same stem with
    [.pdf] when it has not; applying it again changes nothing. *)
Theorem ensure_pdf_suffix_spec `{PyRuntime} (name : str) :
  (name = [] -> exists e, Ingest.ensure_pdf_suffix name = Raises e)
  /\ (name <> [] ->
      exists name',
        Ingest.ensure_pdf_suffix name = Returns name'
        /\ lower (PyPath.suffix name') = py ".pdf"
        /\ PyPath.stem name' = PyPath.stem name
        /\ (lower (PyPath.suffix name) = py ".pdf" -> name' = name)
        /\ Ingest.ensure_pdf_suffix name' = Returns name').
Proof.
  unfold Ingest.ensure_pdf_suffix. split.
  - intros ->. rewrite decide_False by discriminate. simpl. eauto.
  - intros Hne. destruct (decide (lower (PyPath.suffix name) = py ".pdf")) as [Hs|Hs].
    + exists name. rewrite decide_True by assumption. auto.
    + destruct (suffix_stem_app (PyPath.stem name) (py "pdf")) as [Hsf Hst].
      * now apply stem_nonempty.
      * discriminate.
      * vm_compute. intros [Hx|[Hx|[Hx|[]]]]; discriminate Hx.
      * change (dot :: py "pdf") with (py ".pdf") in *.
        exists (PyPath.stem name ++ py ".pdf"). rewrite Hsf, Hst.
        rewrite decide_True by reflexivity.
        unfold Ingest.with_suffix. destruct name; [contradiction|].
        repeat split; auto. contradiction.
Qed.

Lemma ensure_pdf_suffix_spec_witness :
  exists name',
    @Ingest.ensure_pdf_suffix AsciiRuntime.runtime (py "roll.scan") = Returns name'
    /\ @lower AsciiRuntime.runtime (PyPath.suffix name') = py ".pdf"
    /\ PyPath.stem name' = PyPath.stem (py "roll.scan")
    /\ (@lower AsciiRuntime.runtime (PyPath.suffix (py "roll.scan")) = py ".pdf" ->
        name' = py "roll.scan")
    /\ @Ingest.ensure_pdf_suffix AsciiRuntime.runtime name' = Returns name'.
Proof.
  apply (proj2 (@ensure_pdf_suffix_spec AsciiRuntime.runtime (py "roll.scan"))).
  discriminate.
Defined.

(** ** The search service and the table *)

Lemma normalize_valid_iff `{PyRuntime} raw :
  Query.VOTER_ID_ALLOWED_match (Query.normalize_voter_id raw) = true
  <-> (3 <= length (Query.normalize_voter_id raw))%nat.
Proof.
  apply VOTER_ID_ALLOWED_match_spec; [apply normalize_allowed | apply normalize_length].
Qed.

(** X13. The search service sends to the table store only identifiers
    made of 3 to 40 capital letters and digits: two stores that answer
    alike on those get the same response for every request. *)
Theorem search_sends_valid_ids_only `{PyRuntime}
    (select1 select2 : str -> outcome (option (list Ingest.Row))) (raw : str) :
  (forall v, Forall (fun c => Query.allowed_class c = true) v ->
             (3 <= length v <= 40)%nat -> select1 v = select2 v) ->
  Query.search_voter select1 raw = Query.search_voter select2 raw.
Proof.
  intros Hsel. unfold Query.search_voter.
  destruct (Query.VOTER_ID_ALLOWED_match (Query.normalize_voter_id raw)) eqn:Hm;
    [|reflexivity].
  apply normalize_valid_iff in Hm. simpl.
  rewrite (Hsel (Query.normalize_voter_id raw)); [reflexivity | apply normalize_allowed |].
  pose proof (normalize_length raw). lia.
Qed.

Lemma search_sends_valid_ids_only_witness :
  @Query.search_voter AsciiRuntime.runtime (Query.select_eq []) (py "a/b")
  = @Query.search_voter AsciiRuntime.runtime (strict_select []) (py "a/b").
Proof.
  apply (@search_sends_valid_ids_only AsciiRuntime.runtime
           (Query.select_eq []) (strict_select []) (py "a/b")).
  intros v Hv [H3 H40]. unfold strict_select.
  replace ((3 <=? length v)%nat) with true by (symmetry; now apply Nat.leb_le).
  replace ((length v <=? 40)%nat) with true by (symmetry; now apply Nat.leb_le).
  replace (forallb Query.allowed_class v) with true; [reflexivity|].
  symmetry. apply forallb_forall. now apply List.Forall_forall.
Defined.

Lemma search_found_in_table `{PyRuntime} (rows : list Ingest.Row) (raw : str) r :
  (3 <= length (Query.normalize_voter_id raw))%nat ->
  In r rows -> Ingest.voter_id r = Query.normalize_voter_id raw ->
  Query.search_voter (Query.select_eq rows) raw
  = Query.Found raw (Query.normalize_voter_id raw)
      (length (List.filter (fun r => bool_decide (Ingest.voter_id r
                                                  = Query.normalize_voter_id raw)) rows))
      (List.filter (fun r => bool_decide (Ingest.voter_id r
                                          = Query.normalize_voter_id raw)) rows).
Proof.
  intros H3 Hr Hid. unfold Query.search_voter, Query.select_eq.
  apply normalize_valid_iff in H3. rewrite H3. simpl.
  destruct (List.filter _ rows) as [|r' rs] eqn:Hf; [|reflexivity].
  assert (Hin : In r (List.filter
                        (fun r => bool_decide (Ingest.voter_id r
                                               = Query.normalize_voter_id raw)) rows))
    by (apply filter_In; split; [exact Hr | now apply bool_decide_eq_true]).
  rewrite Hf in Hin. destruct Hin.
Qed.

(** X14. Against a table store holding [rows], the search answers with
    results exactly when the normalized identifier has 3 characters
    at least and some row carries it; the results are then all the
    rows carrying it, in table order, and the count is their number;
    otherwise the answer is 400 or 404. *)
Theorem search_table_lookup `{PyRuntime} (rows : list Ingest.Row) (raw : str) :
  ((3 <= length (Query.normalize_voter_id raw))%nat
   /\ (exists r, In r rows /\ Ingest.voter_id r = Query.normalize_voter_id raw) ->
   Query.search_voter (Query.select_eq rows) raw
   = Query.Found raw (Query.normalize_voter_id raw)
       (length (List.filter (fun r => bool_decide (Ingest.voter_id r
                                                   = Query.normalize_voter_id raw)) rows))
       (List.filter (fun r => bool_decide (Ingest.voter_id r
                                           = Query.normalize_voter_id raw)) rows))
  /\ ((length (Query.normalize_voter_id raw) < 3)%nat ->
      Query.search_voter (Query.select_eq rows) raw
      = Query.HTTPException 400 (py "Invalid voter_id format"))
  /\ ((3 <= length (Query.normalize_voter_id raw))%nat ->
      (forall r, In r rows -> Ingest.voter_id r <> Query.normalize_voter_id raw) ->
      Query.search_voter (Query.select_eq rows) raw
      = Query.HTTPException 404 (py "Voter ID not found")).
Proof.
  split; [intros (H3 & r & Hr & Hid); now apply search_found_in_table with r|].
  unfold Query.search_voter, Query.select_eq.
  set (n := Query.normalize_voter_id raw).
  pose proof (normalize_valid_iff raw) as Hv. fold n in Hv.
  split.
  - intros Hlt. destruct (Query.VOTER_ID_ALLOWED_match n); [|reflexivity].
    assert (3 <= length n)%nat by now apply Hv. lia.
  - intros H3 Hnone. apply Hv in H3. rewrite H3. simpl.
    destruct (List.filter _ rows) as [|r' rs] eqn:Hf; [reflexivity|].
    assert (Hin : In r' (List.filter (fun r => bool_decide (Ingest.voter_id r = n)) rows))
      by (rewrite Hf; now left).
    apply filter_In in Hin as [Hr Hid]. apply bool_decide_eq_true in Hid.
    now destruct (Hnone r' Hr).
Qed.

Lemma search_table_lookup_witness :
  @Query.search_voter AsciiRuntime.runtime (Query.select_eq []) (py "a/b")
  = Query.HTTPException 400 (py "Invalid voter_id format").
Proof.
  apply (proj1 (proj2 (@search_table_lookup AsciiRuntime.runtime [] (py "a/b")))).
  vm_compute. lia.
Defined.

(** A string of class characters is one match of the pattern. *)
Lemma findall_runs_whole cls s : forall cur,
  Forall (fun c => cls c = true) s ->
  findall_runs cls s cur
  = match rev cur ++ s with [] => [] | l => [l] end.
Proof.
  induction s as [|c t IH]; intros cur Hs; simpl.
  - rewrite app_nil_r. destruct cur as [|d cur]; [reflexivity|].
    simpl. now destruct (rev cur).
  - inversion Hs as [|? ? Hc Ht]; subst. rewrite Hc, (IH _ Ht). simpl.
    now rewrite <- app_assoc.
Qed.

(** X15. From ingestion to lookup: an identifier written with capital
    letters, digits and the separator, with 3 to 40 letters and
    digits, read alone on an OCR line, is extracted with the
    separator removed; and once a row with it is in the table, the
    search for the same raw identifier answers with results among
    which that row is, all of them carrying that identifier. *)
Theorem canonical_id_is_found `{PyRuntime}
    (raw single_url full_url : str) (rows : list Ingest.Row) :
  canonical_raw raw ->
  In {| Ingest.voter_id := Ingest.clean_voter_id raw;
        Ingest.single_page_pdf_link := single_url;
        Ingest.full_pdf_link := full_url |} rows ->
  Ingest.extract_ids_from_lines [raw] Ingest.default_regex_findall
  = [remove_char slash raw]
  /\ Ingest.clean_voter_id raw = remove_char slash raw
  /\ exists count results,
       Query.search_voter (Query.select_eq rows) raw
       = Query.Found raw (remove_char slash raw) count results
       /\ In {| Ingest.voter_id := Ingest.clean_voter_id raw;
                Ingest.single_page_pdf_link := single_url;
                Ingest.full_pdf_link := full_url |} results
       /\ Forall (fun r => Ingest.voter_id r = remove_char slash raw) results.
Proof.
  intros [Hall [H3 H40]] Hrow.
  assert (Hnorm : Query.normalize_voter_id raw = Ingest.clean_voter_id raw)
    by now apply normalize_agrees_on_canonical.
  assert (Hclean : Ingest.clean_voter_id raw = remove_char slash raw).
  { rewrite <- Hnorm. unfold Query.normalize_voter_id.
    assert (Ha : Forall (fun c => Query.allowed_class c = true) (remove_char slash raw)).
    { clear - Hall. induction Hall as [|c t Hc Ht IH]; simpl; [constructor|].
      destruct (N.eqb_spec c slash) as [->|Hne]; simpl; [exact IH|].
      constructor; [|exact IH]. destruct Hc; [assumption | contradiction]. }
    rewrite (upper_allowed _ Ha), (filter_all _ _ Ha). now apply take_ge. }
  split; [|split; [exact Hclean|]].
  - assert (Hfind : Ingest.default_regex_findall raw = [raw]).
    { unfold Ingest.default_regex_findall, findall_class_plus.
      rewrite findall_runs_whole.
      - destruct raw; [simpl in H3; lia | reflexivity].
      - eapply Forall_impl; [exact Hall|]. intros c [Hc | ->]; [|reflexivity].
        unfold Ingest.default_regex_class.
        unfold Query.allowed_class in Hc. apply orb_true_iff in Hc as [Hc|Hc];
          rewrite Hc; now rewrite ?orb_true_r. }
    unfold Ingest.extract_ids_from_lines, Ingest.collect_ids.
    cbn [flat_map]. rewrite Hfind. cbn [flat_map]. rewrite Hclean, !app_nil_r.
    destruct (remove_char slash raw) eqn:Hrm; [simpl in H3; lia|].
    reflexivity.
  - pose proof (search_found_in_table rows raw
                  {| Ingest.voter_id := Ingest.clean_voter_id raw;
                     Ingest.single_page_pdf_link := single_url;
                     Ingest.full_pdf_link := full_url |}) as Hfound.
    rewrite Hnorm in Hfound. cbn [Ingest.voter_id] in Hfound.
    rewrite <- Hclean in *.
    do 2 eexists. split; [apply (Hfound H3 Hrow eq_refl)|split].
    + apply filter_In. split; [exact Hrow|]. now apply bool_decide_eq_true.
    + apply List.Forall_forall. intros r Hr. apply filter_In in Hr as [_ Hr].
      now apply bool_decide_eq_true in Hr.
Qed.

Lemma canonical_id_is_found_witness :
  Ingest.clean_voter_id sample_raw = remove_char slash sample_raw.
Proof.
  refine (proj1 (proj2
    (@canonical_id_is_found AsciiRuntime.runtime sample_raw (py "u/1") (py "u/roll")
       [{| Ingest.voter_id := Ingest.clean_voter_id sample_raw;
           Ingest.single_page_pdf_link := py "u/1";
           Ingest.full_pdf_link := py "u/roll" |}] _ _))).
  - split; [|vm_compute; lia].
    vm_compute. repeat constructor; (left; reflexivity) || (right; reflexivity).
  - now left.
Defined.

(** ** pdf_crop.py: the images of a run *)

(** X16. Every image of a run belongs to a page of the document that
    lies in the range asked for: its number is from 1 to the number
    of pages, not below [--page-start] and not above [--page-end]. *)
Theorem images_within_page_range `{FitzRect}
    (a : PdfCrop.Args) (env : PdfCrop.Env) (pages : list PdfCrop.Page)
    (n : Z) (name : str) (clip : option Rect) (rotate : Z) :
  PdfCrop.opened env = Returns pages ->
  In (PdfCrop.Image n name clip rotate) (snd (PdfCrop.main (Accepted a) env)) ->
  (1 <= n <= Z.of_nat (length pages))%Z
  /\ (PdfCrop.page_start a <= n)%Z
  /\ (forall e, PdfCrop.page_end a = Some e -> (n <= e)%Z)
  /\ exists page, nth_error pages (Z.to_nat (n - 1)) = Some page.
Proof.
  intros Hop Hin.
  apply main_image in Hin as (pages' & cx & cy & Hop' & _ & Hin).
  assert (pages' = pages) by congruence. subst pages'.
  apply crop_pages_image in Hin as (page & before & after & Hn & Hp & _).
  assert (Hr : In n (before ++ n :: after)) by (apply in_or_app; right; now left).
  rewrite <- Hn in Hr. apply page_range_In in Hr.
  split; [|split; [|split]]; [| | |eauto].
  - destruct (PdfCrop.page_end a); lia.
  - lia.
  - intros e He. rewrite He in Hr. lia.
Qed.

Lemma images_within_page_range_witness :
  (1 <= 2 <= Z.of_nat (length [small_page; letter_page]))%Z
  /\ (PdfCrop.page_start crop_args <= 2)%Z
  /\ (forall e, PdfCrop.page_end crop_args = Some e -> (2 <= e)%Z)
  /\ exists page, nth_error [small_page; letter_page] (Z.to_nat (2 - 1)) = Some page.
Proof.
  apply (@images_within_page_range PlainRect.fitz crop_args two_page_env
           [small_page; letter_page] 2%Z (py "scan_p0002_full.png") None 0%Z).
  - reflexivity.
  - vm_compute. do 3 right. left. reflexivity.
Defined.

(** X17. Every image of a run is named after its page, [_crop] for the
    image clipped to the crop rectangle within the page and [_full]
    for the whole page.  Without [--respect-rotation] it is rendered
    with a matrix that was never turned.  With it, the one matrix
    shared by all pages has been turned by the rotation of every
    page of the range rendered so far, this one included; on an
    engine without [preRotate] that is no turn at all, the page of
    every image being one that is not rotated. *)
Theorem images_named_and_rotated `{FitzRect}
    (a : PdfCrop.Args) (env : PdfCrop.Env) (pages : list PdfCrop.Page) (cx cy : Q)
    (n : Z) (name : str) (clip : option Rect) (rotate : Z) :
  PdfCrop.opened env = Returns pages ->
  PdfCrop.far_corner a = Some (cx, cy) ->
  In (PdfCrop.Image n name clip rotate) (snd (PdfCrop.main (Accepted a) env)) ->
  exists page,
    nth_error pages (Z.to_nat (n - 1)) = Some page
    /\ ((clip = Some (rect_and (make_rect (PdfCrop.x a) (PdfCrop.y a) cx cy)
                               (PdfCrop.page_rect page))
         /\ name = PdfCrop.out_name a n "_crop.")
        \/ (clip = None /\ name = PdfCrop.out_name a n "_full."))
    /\ (PdfCrop.respect_rotation a = false -> rotate = 0%Z)
    /\ (PdfCrop.respect_rotation a = true ->
        exists before after,
          PdfCrop.page_range (Z.max 1 (PdfCrop.page_start a))
            match PdfCrop.page_end a with
            | None => Z.of_nat (length pages)
            | Some e => Z.min e (Z.of_nat (length pages))
            end
          = before ++ n :: after
          /\ rotate = rotation_sum pages (make_rect (PdfCrop.x a) (PdfCrop.y a) cx cy)
                        (before ++ [n])
          /\ (PdfCrop.preRotate_defined env = false ->
              rotate = 0%Z /\ PdfCrop.rotation page = 0%Z)).
Proof.
  intros Hop Hc Hin.
  apply main_image in Hin as (pages' & cx' & cy' & Hop' & Hc' & Hin).
  assert (pages' = pages) by congruence.
  assert (cx' = cx /\ cy' = cy) as [? ?] by (split; congruence). subst.
  apply crop_pages_image in Hin
    as (page & before & after & Hn & Hp & _ & Hr & Hdef & Hname).
  exists page. split; [exact Hp|]. split; [exact Hname|]. split.
  - intros Hresp. rewrite Hresp in Hr. lia.
  - intros Hresp. rewrite Hresp in Hr. exists before, after.
    split; [exact Hn|]. split; [lia|].
    intros Hno. destruct (Hdef Hresp Hno) as [Hs0 Hr0]. split; [lia | exact Hr0].
Qed.

Lemma images_named_and_rotated_witness :
  exists page,
    nth_error [letter_page; small_page; letter_page] (Z.to_nat (3 - 1)) = Some page
    /\ ((Some (@rect_and PlainRect.fitz
                 (@make_rect PlainRect.fitz (PdfCrop.x turning_args)
                    (PdfCrop.y turning_args)
                    ((45744 # 100) + (1056 # 10))%Q (108 + 702)%Q)
                 (PdfCrop.page_rect letter_page))
         = Some (@rect_and PlainRect.fitz
                   (@make_rect PlainRect.fitz (PdfCrop.x turning_args)
                      (PdfCrop.y turning_args)
                      ((45744 # 100) + (1056 # 10))%Q (108 + 702)%Q)
                   (PdfCrop.page_rect page))
         /\ py "scan_p0003_crop.png" = PdfCrop.out_name turning_args 3 "_crop.")
        \/ (Some (@rect_and PlainRect.fitz
                    (@make_rect PlainRect.fitz (PdfCrop.x turning_args)
                       (PdfCrop.y turning_args)
                       ((45744 # 100) + (1056 # 10))%Q (108 + 702)%Q)
                    (PdfCrop.page_rect letter_page)) = None
            /\ py "scan_p0003_crop.png" = PdfCrop.out_name turning_args 3 "_full."))
    /\ (PdfCrop.respect_rotation turning_args = false -> 180%Z = 0%Z)
    /\ (PdfCrop.respect_rotation turning_args = true ->
        exists before after,
          PdfCrop.page_range (Z.max 1 (PdfCrop.page_start turning_args))
            match PdfCrop.page_end turning_args with
            | None => Z.of_nat (length [letter_page; small_page; letter_page])
            | Some e => Z.min e (Z.of_nat (length [letter_page; small_page; letter_page]))
            end
          = before ++ 3%Z :: after
          /\ 180%Z = @rotation_sum PlainRect.fitz [letter_page; small_page; letter_page]
                       (@make_rect PlainRect.fitz (PdfCrop.x turning_args)
                          (PdfCrop.y turning_args)
                          ((45744 # 100) + (1056 # 10))%Q (108 + 702)%Q)
                       (before ++ [3%Z])
          /\ (PdfCrop.preRotate_defined three_page_env = false ->
              180%Z = 0%Z /\ PdfCrop.rotation page = 0%Z)).
Proof.
  apply (@images_named_and_rotated PlainRect.fitz turning_args three_page_env
           [letter_page; small_page; letter_page]
           ((45744 # 100) + (1056 # 10))%Q (108 + 702)%Q
           3%Z (py "scan_p0003_crop.png")
           (Some (@rect_and PlainRect.fitz
                    (@make_rect PlainRect.fitz (PdfCrop.x turning_args)
                       (PdfCrop.y turning_args)
                       ((45744 # 100) + (1056 # 10))%Q (108 + 702)%Q)
                    (PdfCrop.page_rect letter_page)))
           180%Z).
  - reflexivity.
  - reflexivity.
  - vm_compute. do 5 right. left. reflexivity.
Defined.

(** X18. When a run of [pdf_crop.py] returns, its closing line gives the
    number of cropped images written, and the pages with a cropped
    image are the pages with a full image, in the same order: a page
    gets both images or none. *)
Theorem saved_count_is_images `{FitzRect}
    (cl : cmdline PdfCrop.Args) (env : PdfCrop.Env) :
  fst (PdfCrop.main cl env) = Normal tt ->
  exists saved t,
    snd (PdfCrop.main cl env) = t ++ [PdfCrop.Stdout (PdfCrop.LDone saved)]
    /\ saved = Z.of_nat (length (crop_images t))
    /\ crop_images t = full_images t.
Proof.
  intros Hn. destruct (PdfCrop.main cl env) as [r t] eqn:Hm. simpl in Hn. subst r.
  apply main_returns in Hm
    as (a & pages & cr & nums & saved & turned & t' & _ & _ & Hloop & ->).
  apply crop_pages_normal in Hloop as [-> Hc].
  exists (0 + Z.of_nat (length (crop_images t')))%Z, t'. simpl. auto.
Qed.

Lemma saved_count_is_images_witness :
  exists saved t,
    snd (@PdfCrop.main PlainRect.fitz (Accepted crop_args) two_page_env)
    = t ++ [PdfCrop.Stdout (PdfCrop.LDone saved)]
    /\ saved = Z.of_nat (length (crop_images t))
    /\ crop_images t = full_images t.
Proof.
  apply (@saved_count_is_images PlainRect.fitz (Accepted crop_args) two_page_env).
  reflexivity.
Defined.



(** X23. Empty-intersection skip in [pdf_crop.py]: in a run, the clip
    of every cropped image is the crop rectangle intersected with the
    bounds of its page, and is not empty; and when that intersection
    is empty for a page, the page's turn in the loop prints a warning
    and returns normally, without raising and leaving the counter and
    the matrix as they were, and the run writes no image for that
    page. *)
Theorem empty_intersection_skips `{FitzRect}
    (a : PdfCrop.Args) (env : PdfCrop.Env) (pages : list PdfCrop.Page) (cx cy : Q) :
  PdfCrop.opened env = Returns pages ->
  PdfCrop.far_corner a = Some (cx, cy) ->
  (forall n name clip rotate,
     In (PdfCrop.Image n name (Some clip) rotate)
        (snd (PdfCrop.main (Accepted a) env)) ->
     exists page,
       nth_error pages (Z.to_nat (n - 1)) = Some page
       /\ clip = rect_and (make_rect (PdfCrop.x a) (PdfCrop.y a) cx cy)
                          (PdfCrop.page_rect page)
       /\ is_empty clip = false)
  /\ (forall n page,
        nth_error pages (Z.to_nat (n - 1)) = Some page ->
        is_empty (rect_and (make_rect (PdfCrop.x a) (PdfCrop.y a) cx cy)
                           (PdfCrop.page_rect page)) = true ->
        (forall st,
           PdfCrop.crop_page a env pages
             (make_rect (PdfCrop.x a) (PdfCrop.y a) cx cy) st n
           = (Normal st, [PdfCrop.Stdout (PdfCrop.LSkipping n)]))
        /\ (forall name clip rotate,
              ~ In (PdfCrop.Image n name clip rotate)
                   (snd (PdfCrop.main (Accepted a) env)))).
Proof.
  intros Hop Hc.
  assert (Himg : forall n name clip rotate,
            In (PdfCrop.Image n name clip rotate)
               (snd (PdfCrop.main (Accepted a) env)) ->
            exists page,
              nth_error pages (Z.to_nat (n - 1)) = Some page
              /\ is_empty (rect_and (make_rect (PdfCrop.x a) (PdfCrop.y a) cx cy)
                                    (PdfCrop.page_rect page)) = false
              /\ (clip = None
                  \/ clip = Some (rect_and (make_rect (PdfCrop.x a) (PdfCrop.y a) cx cy)
                                           (PdfCrop.page_rect page)))).
  { intros n name clip rotate Hin.
    apply main_image in Hin as (pages' & cx' & cy' & Hop' & Hc' & Hin).
    assert (pages' = pages) by congruence.
    assert (cx' = cx /\ cy' = cy) as [? ?] by (split; congruence). subst.
    apply crop_pages_image in Hin
      as (page & before & after & _ & Hp & He & _ & _ & Hname).
    exists page. split; [exact Hp|]. split; [exact He|].
    destruct Hname as [[-> _]|[-> _]]; auto. }
  split.
  - intros n name clip rotate Hin.
    destruct (Himg _ _ _ _ Hin) as (page & Hp & He & [Hn|Hs]); [discriminate Hn|].
    injection Hs as ->. eauto.
  - intros n page Hp He. split.
    + intros st. now apply crop_page_skip with page.
    + intros name clip rotate Hin.
      destruct (Himg _ _ _ _ Hin) as (page' & Hp' & He' & _). congruence.
Qed.

Lemma empty_intersection_skips_witness :
  (forall st,
     @PdfCrop.crop_page PlainRect.fitz crop_args small_env [small_page]
        (@make_rect PlainRect.fitz (45744 # 100) 108
           ((45744 # 100) + (1056 # 10)) (108 + 702)) st 1
     = (Normal st, [PdfCrop.Stdout (PdfCrop.LSkipping 1)]))
  /\ (forall name clip rotate,
        ~ In (PdfCrop.Image 1 name clip rotate)
             (snd (@PdfCrop.main PlainRect.fitz (Accepted crop_args) small_env))).
Proof.
  apply (proj2 (@empty_intersection_skips PlainRect.fitz crop_args small_env
                  [small_page] ((45744 # 100) + (1056 # 10))%Q (108 + 702)%Q
                  eq_refl eq_refl) 1%Z small_page);
    reflexivity.
Defined.

(** ** Language hints *)

Lemma split_on_no_sep c s :
  Forall (fun f => ~ In c f) (split_on c s).
Proof.
  induction s as [|d t IH]; simpl.
  - repeat constructor. intros [].
  - destruct (N.eqb_spec d c) as [->|Hne].
    + constructor; [intros [] | exact IH].
    + destruct (split_on c t) as [|f fs].
      * repeat constructor. intros [Hx|[]]. congruence.
      * inversion IH as [|? ? Hf Hfs]; subst. constructor; [|exact Hfs].
        intros [Hx|Hx]; [congruence | contradiction].
Qed.

(** X20. The language hints passed to the OCR call are the fields of
    [--langs] between commas, stripped, the empty ones left out: each
    is not empty, has no white space at either end and no comma. *)
Theorem lang_list_hints (args : Ingest.Args) :
  Forall (fun hint => hint <> [] /\ strip hint = hint /\ ~ In comma hint)
         (Ingest.lang_list_of args)
  /\ forall hint,
       In hint (Ingest.lang_list_of args)
       <-> hint <> []
           /\ exists field, In field (split_on comma (Ingest.langs args))
                            /\ hint = strip field.
Proof.
  assert (Hin : forall hint,
            In hint (Ingest.lang_list_of args)
            <-> hint <> []
                /\ exists field, In field (split_on comma (Ingest.langs args))
                                 /\ hint = strip field).
  { intros hint. unfold Ingest.lang_list_of. rewrite filter_In, in_map_iff.
    rewrite negb_true_iff, bool_decide_eq_false. split.
    - intros [(field & <- & Hf) Hne]. eauto.
    - intros (Hne & field & Hf & ->). eauto. }
  split; [|exact Hin].
  apply List.Forall_forall. intros hint Hh.
  apply Hin in Hh as (Hne & field & Hf & ->).
  split; [exact Hne|]. split; [apply strip_by_idem|].
  intros Hc. apply strip_by_incl in Hc.
  pose proof (split_on_no_sep comma (Ingest.langs args)) as Hns.
  rewrite List.Forall_forall in Hns. exact (Hns field Hf Hc).
Qed.

(** ** The query key of what ingestion stores *)

Section KeyFacts.
Context `{PyRuntime}.

Lemma upper_app s t : upper (s ++ t) = upper s ++ upper t.
Proof. unfold upper, upper_with. apply flat_map_app. Qed.

Lemma upper_ascii_cons c t :
  c < 128 -> upper (c :: t) = (if is_az c then c - 32 else c) :: upper t.
Proof.
  intros Hc. unfold upper, upper_with. simpl.
  now replace (c <? 128) with true by (symmetry; now apply N.ltb_lt).
Qed.

(** The letters and digits of the capitals of a string, from which
    [p]-characters that give none are stripped. *)
Lemma key_lstrip_by p s :
  Forall (fun c => p c = true -> List.filter Query.allowed_class (upper [c]) = []) s ->
  List.filter Query.allowed_class (upper (lstrip_by p s))
  = List.filter Query.allowed_class (upper s).
Proof.
  induction 1 as [|c t Hc Ht IH]; cbn [lstrip_by]; [reflexivity|].
  destruct (p c) eqn:Hp; [|reflexivity].
  change (c :: t) with ([c] ++ t). now rewrite upper_app, List.filter_app, (Hc eq_refl), IH.
Qed.

Lemma key_rstrip_by p s :
  Forall (fun c => p c = true -> List.filter Query.allowed_class (upper [c]) = []) s ->
  List.filter Query.allowed_class (upper (rstrip_by p s))
  = List.filter Query.allowed_class (upper s).
Proof.
  induction 1 as [|c t Hc Ht IH]; cbn [rstrip_by]; [reflexivity|].
  change (c :: t) with ([c] ++ t). rewrite (upper_app [c] t), List.filter_app, <- IH.
  destruct (rstrip_by p t) as [|d t'] eqn:Hr.
  - destruct (p c) eqn:Hp.
    + now rewrite (Hc eq_refl).
    + now rewrite app_nil_r.
  - change (c :: d :: t') with ([c] ++ d :: t'). now rewrite upper_app, List.filter_app.
Qed.

Lemma ascii_space_no_key c :
  c < 128 -> is_space c = true -> List.filter Query.allowed_class (upper [c]) = [].
Proof.
  intros Hc Hs. rewrite upper_ascii_cons by assumption.
  assert (Hrange : 9 <= c <= 13 \/ 28 <= c <= 32).
  { unfold is_space in Hs.
    repeat (apply orb_true_iff in Hs as [Hs|Hs]);
      try (apply andb_true_iff in Hs as [H1 H2]; apply N.leb_le in H1, H2; lia);
      apply N.eqb_eq in Hs; lia. }
  replace (is_az c) with false
    by (symmetry; unfold is_az; apply andb_false_iff; rewrite N.leb_gt; lia).
  simpl. replace (Query.allowed_class c) with false; [reflexivity|].
  symmetry. unfold Query.allowed_class, is_AZ, is_09.
  apply orb_false_iff. split; apply andb_false_iff; rewrite !N.leb_gt; lia.
Qed.

Lemma upper_ascii_facts s :
  Forall (fun c => c < 128) s ->
  upper (upper s) = upper s
  /\ remove_char slash (upper s) = upper (remove_char slash s)
  /\ Forall (fun c => c < 128) (upper s).
Proof.
  induction 1 as [|c t Hc Ht (IH1 & IH2 & IH3)]; [repeat split; constructor|].
  rewrite (upper_ascii_cons c t Hc).
  assert (Hc' : (if is_az c then c - 32 else c) < 128) by (destruct (is_az c); lia).
  assert (Haz : is_az (if is_az c then c - 32 else c) = false).
  { destruct (is_az c) eqn:Hz; [|exact Hz].
    unfold is_az in *. apply andb_true_iff in Hz as [H1 H2].
    apply N.leb_le in H1, H2. apply andb_false_iff. rewrite !N.leb_gt. lia. }
  assert (Hsl : ((if is_az c then c - 32 else c) =? slash) = (c =? slash)).
  { destruct (is_az c) eqn:Hz; [|reflexivity].
    unfold is_az in Hz. apply andb_true_iff in Hz as [H1 H2].
    apply N.leb_le in H1, H2. unfold slash.
    destruct (N.eqb_spec (c - 32) 47), (N.eqb_spec c 47); try reflexivity; lia. }
  split; [|split].
  - rewrite upper_ascii_cons by assumption. now rewrite Haz, IH1.
  - change (remove_char slash ((if is_az c then c - 32 else c) :: upper t))
      with (if negb ((if is_az c then c - 32 else c) =? slash)
            then (if is_az c then c - 32 else c) :: remove_char slash (upper t)
            else remove_char slash (upper t)).
    change (remove_char slash (c :: t))
      with (if negb (c =? slash) then c :: remove_char slash t
            else remove_char slash t).
    rewrite Hsl, IH2. destruct (c =? slash); cbn [negb]; [reflexivity|].
    now rewrite upper_ascii_cons.
  - now constructor.
Qed.
End KeyFacts.

(** X21. On ASCII text the query key does not see what the ingest side
    leaves or removes: the normalization of a cleaned identifier is
    the normalization of the raw one, and writing the identifier in
    capitals does not change its normalization. *)
Theorem normalize_absorbs_cleaning `{PyRuntime} (x : str) :
  Forall (fun c => c < 128) x ->
  Query.normalize_voter_id (Ingest.clean_voter_id x) = Query.normalize_voter_id x
  /\ Query.normalize_voter_id (upper x) = Query.normalize_voter_id x.
Proof.
  intros Hx. unfold Query.normalize_voter_id, Ingest.clean_voter_id. split.
  - f_equal. rewrite remove_char_absent
      by (apply Forall_strip_by, remove_char_gone).
    assert (Hy : Forall (fun c => is_space c = true ->
                           List.filter Query.allowed_class (upper [c]) = [])
                        (remove_char slash x)).
    { apply List.Forall_forall. intros c Hc Hs.
      apply filter_In in Hc as [Hc _]. rewrite List.Forall_forall in Hx.
      apply ascii_space_no_key; auto. }
    unfold strip, strip_by. rewrite key_lstrip_by.
    + now apply key_rstrip_by.
    + apply Forall_rstrip_by. exact Hy.
  - destruct (upper_ascii_facts x Hx) as (_ & Hrm & _).
    rewrite Hrm.
    assert (Hx' : Forall (fun c => c < 128) (remove_char slash x)).
    { apply List.Forall_forall. intros c Hc. apply filter_In in Hc as [Hc _].
      rewrite List.Forall_forall in Hx. auto. }
    destruct (upper_ascii_facts _ Hx') as (Hup & _ & _). now rewrite Hup.
Qed.

Lemma normalize_absorbs_cleaning_witness :
  @Query.normalize_voter_id AsciiRuntime.runtime (Ingest.clean_voter_id (py " wb/24/1 "))
  = @Query.normalize_voter_id AsciiRuntime.runtime (py " wb/24/1 ")
  /\ @Query.normalize_voter_id AsciiRuntime.runtime
       (@upper AsciiRuntime.runtime (py " wb/24/1 "))
     = @Query.normalize_voter_id AsciiRuntime.runtime (py " wb/24/1 ").
Proof.
  apply (@normalize_absorbs_cleaning AsciiRuntime.runtime (py " wb/24/1 ")).
  vm_compute. repeat constructor.
Defined.

(** X22. [supabase_client_from_env] calls [create_client] exactly when
    SUPABASE_URL, SUPABASE_ANON_KEY and SUPABASE_BUCKET are all set,
    and then does as that call does: it returns, printing nothing,
    when the client is created, and raises what the call raises.
    When a value is not set it exits with code 1 after one line on
    the error output that names the variables not set, and only
    those. *)
Theorem missing_env_vars_reported (env : Ingest.Env) :
  (Ingest.supabase_client_from_env env = (Normal tt, [])
   <-> Ingest.SUPABASE_URL env <> [] /\ Ingest.SUPABASE_ANON_KEY env <> []
       /\ Ingest.SUPABASE_BUCKET env <> []
       /\ Ingest.create_client env = Returns tt)
  /\ (forall e,
        Ingest.supabase_client_from_env env = (Stop (Uncaught e), [])
        <-> Ingest.SUPABASE_URL env <> [] /\ Ingest.SUPABASE_ANON_KEY env <> []
            /\ Ingest.SUPABASE_BUCKET env <> []
            /\ Ingest.create_client env = Raises e)
  /\ (Ingest.SUPABASE_URL env = [] \/ Ingest.SUPABASE_ANON_KEY env = []
      \/ Ingest.SUPABASE_BUCKET env = [] ->
      exists names,
        Ingest.supabase_client_from_env env
        = (Stop (SysExit 1), [Ingest.Stderr (Ingest.LMissingEnv names)])
        /\ (In (py "SUPABASE_URL") names <-> Ingest.SUPABASE_URL env = [])
        /\ (In (py "SUPABASE_ANON_KEY") names <-> Ingest.SUPABASE_ANON_KEY env = [])
        /\ (In (py "SUPABASE_BUCKET") names <-> Ingest.SUPABASE_BUCKET env = [])).
Proof.
  destruct (supabase_client_cases env)
    as [(Hu & Hk & Hb & Hc)|(Hm & names & Hc & Hnames)]; rewrite Hc.
  - split; [|split].
    + destruct (Ingest.create_client env) as [[]|e0]; simpl.
      * split; auto.
      * split; [discriminate | intros (_ & _ & _ & Hx); discriminate Hx].
    + intros e. destruct (Ingest.create_client env) as [[]|e0]; simpl.
      * split; [discriminate | intros (_ & _ & _ & Hx); discriminate Hx].
      * split.
        -- intros Heq. injection Heq as ->. auto.
        -- intros (_ & _ & _ & Hx). injection Hx as ->. reflexivity.
    + intros [Hx|[Hx|Hx]]; contradiction.
  - split; [|split].
    + split; [discriminate|].
      intros (Hu & Hk & Hb & _). destruct Hm as [Hm|[Hm|Hm]]; contradiction.
    + intros e. split; [discriminate|].
      intros (Hu & Hk & Hb & _). destruct Hm as [Hm|[Hm|Hm]]; contradiction.
    + intros _. exists names. split; [reflexivity | exact Hnames].
Qed.
